(** * Feature Progress Store: a shallow embedding of the ledger scripts

    The three scripts [show_status.py], [update_feature.py] and
    [validate_features.py] read, validate and update one JSON ledger.  They
    are embedded here as functions over a small model of the Python values
    that [json.load] produces, with exceptions as an error monad and the
    file system, the standard output and the clock as an explicit world. *)

From Stdlib Require Import ZArith String Ascii List Bool Lia QArith Qpower Lqa
  Sorted Permutation.
From stdpp Require Import base option list gmap strings pretty.

Local Open Scope string_scope.
Local Open Scope Z_scope.

(** ** Python values and primitives *)

Module Py.

(** The values [json.load] builds: [None], [bool], [int], [str], [list]
    and [dict].  A [dict] keeps its insertion order, so an object is an
    association list.  Numbers are the integers; float literals are not
    represented.  A string is a sequence of characters, one [ascii] for
    each. *)
#[warnings="-register-all"] Inductive json : Type :=
| JNull
| JBool (b : bool)
| JInt (z : Z)
| JStr (s : string)
| JArr (items : list json)
| JObj (fields : list (string * json)).

(** The exceptions the scripts can meet. *)
Inductive exn : Type :=
| AttributeError
| TypeError
| KeyError
| IndexError
| ValueError
| ZeroDivisionError
| OverflowError
| FileNotFoundError
| JSONDecodeError
| SameFileError
| OSError.

Inductive result (A : Type) : Type :=
| Ok (a : A)
| Raise (e : exn).
Arguments Ok {A} a.
Arguments Raise {A} e.

Definition bind {A B : Type} (m : result A) (k : A -> result B) : result B :=
  match m with
  | Ok a => k a
  | Raise e => Raise e
  end.

Notation "'let!' x ':=' m 'in' k" := (bind m (fun x => k))
  (at level 10, x name, m at level 100, k at level 200).

Fixpoint mapM {A B : Type} (f : A -> result B) (l : list A) : result (list B) :=
  match l with
  | [] => Ok []
  | x :: l' => let! y := f x in let! ys := mapM f l' in Ok (y :: ys)
  end.

(** A list comprehension with a condition that may raise. *)
Fixpoint filterM {A : Type} (p : A -> result bool) (l : list A) : result (list A) :=
  match l with
  | [] => Ok []
  | x :: l' =>
      let! b := p x in let! r := filterM p l' in Ok (if b then x :: r else r)
  end.

(** [bool(v)]: the truth value of a JSON value. *)
Definition truthy (v : json) : bool :=
  match v with
  | JNull => false
  | JBool b => b
  | JInt z => negb (z =? 0)
  | JStr s => negb (String.eqb s "")
  | JArr l => match l with [] => false | _ => true end
  | JObj kvs => match kvs with [] => false | _ => true end
  end.

(** [hash(v)] succeeds on everything but lists and dicts. *)
Definition hashable (v : json) : bool :=
  match v with
  | JArr _ | JObj _ => false
  | _ => true
  end.

Definition is_obj (v : json) : bool :=
  match v with JObj _ => true | _ => false end.

Fixpoint lookup_field (k : string) (kvs : list (string * json)) : option json :=
  match kvs with
  | [] => None
  | (k', v) :: rest => if String.eqb k k' then Some v else lookup_field k rest
  end.

(** [d[k] = v] on a dict: an existing key keeps its position, a new key
    goes last. *)
Fixpoint set_field (k : string) (v : json) (kvs : list (string * json))
  : list (string * json) :=
  match kvs with
  | [] => [(k, v)]
  | (k', v') :: rest =>
      if String.eqb k k' then (k', v) :: rest else (k', v') :: set_field k v rest
  end.

(** [v.get(k, default)]: only a dict has the method. *)
Definition py_get (v : json) (k : string) (default : json) : result json :=
  match v with
  | JObj kvs => Ok (match lookup_field k kvs with Some x => x | None => default end)
  | _ => Raise AttributeError
  end.

(** [for x in v]: a list gives its items, a dict its keys, a string its
    characters; nothing else is iterable. *)
Definition py_iter (v : json) : result (list json) :=
  match v with
  | JArr l => Ok l
  | JObj kvs => Ok (map (fun kv => JStr (fst kv)) kvs)
  | JStr s => Ok (map (fun c => JStr (String c EmptyString)) (list_ascii_of_string s))
  | _ => Raise TypeError
  end.

(** [len(v)]. *)
Definition py_len (v : json) : result Z :=
  match v with
  | JArr l => Ok (Z.of_nat (List.length l))
  | JObj kvs => Ok (Z.of_nat (List.length kvs))
  | JStr s => Ok (Z.of_nat (String.length s))
  | _ => Raise TypeError
  end.

(** [a == b].  [True == 1] and [False == 0] hold in Python; two dicts
    are equal when they have the same keys with equal values. *)
Fixpoint py_eq (a b : json) {struct a} : bool :=
  match a, b with
  | JNull, JNull => true
  | JBool x, JBool y => Bool.eqb x y
  | JBool x, JInt y => Z.b2z x =? y
  | JInt x, JBool y => x =? Z.b2z y
  | JInt x, JInt y => x =? y
  | JStr x, JStr y => String.eqb x y
  | JArr xs, JArr ys =>
      (fix items (xs ys : list json) {struct xs} : bool :=
         match xs, ys with
         | [], [] => true
         | x :: xs', y :: ys' => py_eq x y && items xs' ys'
         | _, _ => false
         end) xs ys
  | JObj xs, JObj ys =>
      (List.length xs =? List.length ys)%nat &&
      (fix fields (xs : list (string * json)) {struct xs} : bool :=
         match xs with
         | [] => true
         | (k, x) :: xs' =>
             match lookup_field k ys with
             | Some y => py_eq x y && fields xs'
             | None => false
             end
         end) xs
  | _, _ => false
  end.

(** [v[:n]] for a non-negative [n]: defined on strings and lists. *)
Definition py_prefix (n : nat) (v : json) : result json :=
  match v with
  | JStr s => Ok (JStr (String.substring 0 n s))
  | JArr l => Ok (JArr (firstn n l))
  | _ => Raise TypeError
  end.

(** [l[:n]] on a list for any integer [n]: a negative [n] counts from
    the end. *)
Definition slice_to {A : Type} (n : Z) (l : list A) : list A :=
  if 0 <=? n then firstn (Z.to_nat n) l
  else firstn (Z.to_nat (Z.of_nat (List.length l) + n)) l.

Fixpoint is_infix (k s : string) : bool :=
  if String.prefix k s then true
  else match s with
       | EmptyString => false
       | String _ s' => is_infix k s'
       end.

(** [k in v] for a string [k]: a key of a dict, an item of a list, a
    substring of a string. *)
Definition py_contains (k : string) (v : json) : result bool :=
  match v with
  | JObj kvs => Ok (match lookup_field k kvs with Some _ => true | None => false end)
  | JArr l => Ok (existsb (py_eq (JStr k)) l)
  | JStr s => Ok (is_infix k s)
  | _ => Raise TypeError
  end.

(** [v[k]] for a string [k]. *)
Definition py_getitem (v : json) (k : string) : result json :=
  match v with
  | JObj kvs =>
      match lookup_field k kvs with
      | Some x => Ok x
      | None => Raise KeyError
      end
  | _ => Raise TypeError
  end.

(** [v[k] = x] for a string [k]; the result is [v] after the assignment. *)
Definition py_setitem (v : json) (k : string) (x : json) : result json :=
  match v with
  | JObj kvs => Ok (JObj (set_field k x kvs))
  | _ => Raise TypeError
  end.

(** [v[i]] for an index [i] that [enumerate] produced. *)
Definition py_index (v : json) (i : nat) : result json :=
  match v with
  | JArr l =>
      match l !! i with
      | Some x => Ok x
      | None => Raise IndexError
      end
  | JStr s =>
      match String.get i s with
      | Some c => Ok (JStr (String c EmptyString))
      | None => Raise IndexError
      end
  | JObj _ => Raise KeyError
  | _ => Raise TypeError
  end.

(** [v[i] = x] for such an index: only a list can be assigned to. *)
Definition py_setindex (v : json) (i : nat) (x : json) : result json :=
  match v with
  | JArr l => if (i <? List.length l)%nat then Ok (JArr (<[i := x]> l)) else Raise IndexError
  | JObj _ => Raise KeyError
  | _ => Raise TypeError
  end.

(** [sum(1 for x in l if cond(x))] *)
Definition count_where (cond : json -> result bool) (l : list json) : result Z :=
  let! sel := filterM cond l in Ok (Z.of_nat (List.length sel)).

(** *** Floats

    A Python float is an IEEE 754 double.  A finite one is kept as its
    sign and its absolute value, an exact rational; the sign tells
    [0.0] from [-0.0].  The results of the operations are rounded to
    the nearest double, ties to even. *)

(** [2 ** c] for an integer [c]. *)
Definition pow2 (c : Z) : Q :=
  if 0 <=? c then inject_Z (2 ^ c) else / inject_Z (2 ^ (- c)).

(** The integer nearest to a rational that is not negative, the even
    one of two that are equally near. *)
Definition nearest_even (x : Q) : Z :=
  let n := Qnum x in
  let d := Z.pos (Qden x) in
  match 2 * (n mod d) ?= d with
  | Lt => n / d
  | Gt => n / d + 1
  | Eq => if Z.even (n / d) then n / d else n / d + 1
  end.

(** The exponent [e] with [2 ** e <= x < 2 ** (e + 1)], for a positive
    [x]. *)
Definition binade (x : Q) : Z :=
  let k := Z.log2 (Qnum x) - Z.log2 (Z.pos (Qden x)) in
  if Qle_bool (pow2 k) x then k else k - 1.

(** From here on a number rounds to infinity: half a unit in the last
    place above the largest double. *)
Definition overflow_threshold : Q := inject_Z (2 ^ 1024 - 2 ^ 970).

(** The double nearest to a rational that is not negative, with 53 bits
    above the exponent [-1074] of the subnormal numbers; [None] when it
    is infinity. *)
Definition round64 (x : Q) : option Q :=
  let x := Qred x in
  if Qle_bool overflow_threshold x then None
  else if Qnum x =? 0 then Some 0%Q
  else
    let c := Z.max (binade x - 52) (-1074) in
    Some (Qred (inject_Z (nearest_even (x / pow2 c)) * pow2 c)).

(** A finite float. *)
Record float : Type := Float { negative : bool; magnitude : Q }.

(** The result of a multiplication of finite floats: it is finite or,
    on overflow, an infinity. *)
Inductive xfloat : Type :=
| Finite (x : float)
| Infinite (negative : bool).

(** [float(a)], as the arithmetic converts an integer operand: an
    integer beyond the doubles raises. *)
Definition float_of_int (a : Z) : result float :=
  match round64 (inject_Z (Z.abs a)) with
  | Some m => Ok (Float (a <? 0) m)
  | None => Raise OverflowError
  end.

(** [a / b] on integers is true division: the quotient is rounded once,
    and a quotient beyond the doubles raises. *)
Definition py_truediv (a b : Z) : result float :=
  if b =? 0 then Raise ZeroDivisionError
  else
    match round64 (inject_Z (Z.abs a) / inject_Z (Z.abs b)) with
    | Some m => Ok (Float (xorb (a <? 0) (b <? 0)) m)
    | None => Raise OverflowError
    end.

(** [x * y] on finite floats does not raise: it overflows to an
    infinity. *)
Definition float_mul (x y : float) : xfloat :=
  let sign := xorb (negative x) (negative y) in
  match round64 (magnitude x * magnitude y) with
  | Some m => Finite (Float sign m)
  | None => Infinite sign
  end.

(** [100.0] *)
Definition hundred : float := Float false 100.

(** [int(x)] rounds towards zero, and raises on an infinity. *)
Definition py_int (x : xfloat) : result Z :=
  match x with
  | Finite f =>
      let n := Qnum (magnitude f) / Z.pos (Qden (magnitude f)) in
      Ok (if negative f then - n else n)
  | Infinite _ => Raise OverflowError
  end.

(** The number of a JSON value that is an integer, [True] being 1. *)
Definition as_int (v : json) : option Z :=
  match v with
  | JInt z => Some z
  | JBool b => Some (Z.b2z b)
  | _ => None
  end.

(** [a / b] on JSON values: numbers only. *)
Definition py_div (a b : json) : result float :=
  match as_int a, as_int b with
  | Some x, Some y => py_truediv x y
  | _, _ => Raise TypeError
  end.

(** [sys.maxsize], the largest length of a string, on a 64-bit
    interpreter. *)
Definition maxsize : Z := 2 ^ 63 - 1.

(** The length of [c * n] for a string [c] of one character: the count
    must fit the index type, from [-sys.maxsize - 1] to [sys.maxsize],
    or the operation raises; a negative count gives the empty string.
    (That the memory can run out on a long string is not represented.) *)
Definition py_repeat (n : Z) : result Z :=
  if (maxsize <? n) || (n <? - maxsize - 1) then Raise OverflowError
  else Ok (Z.max 0 n).

(** The length of [s + t] for strings of lengths [a] and [b]. *)
Definition py_concat (a b : Z) : result Z :=
  if maxsize - b <? a then Raise OverflowError else Ok (a + b).

(** [a + b]: numbers add ([True] is 1), strings and lists concatenate. *)
Definition py_add (a b : json) : result json :=
  match a, b with
  | JInt x, JInt y => Ok (JInt (x + y))
  | JInt x, JBool y => Ok (JInt (x + Z.b2z y))
  | JBool x, JInt y => Ok (JInt (Z.b2z x + y))
  | JBool x, JBool y => Ok (JInt (Z.b2z x + Z.b2z y))
  | JStr x, JStr y => Ok (JStr (String.append x y))
  | JArr x, JArr y => Ok (JArr (x ++ y))
  | _, _ => Raise TypeError
  end.

End Py.

Import Py.

(** ** Paths and files *)

Module Os.

(** A [pathlib.Path]: the directory part and the final component. *)
Record Path : Type := MkPath { parent : list string; name : string }.

#[global] Instance Path_eq_dec : EqDecision Path.
Proof. solve_decision. Defined.

#[global] Instance Path_countable : Countable Path.
Proof.
  refine (inj_countable' (fun p => (parent p, name p))
                         (fun t => MkPath (fst t) (snd t)) _).
  intros []; reflexivity.
Defined.

(** [name.rfind('.')] *)
Fixpoint rfind_dot (s : string) : option nat :=
  match s with
  | EmptyString => None
  | String c s' =>
      match rfind_dot s' with
      | Some i => Some (S i)
      | None => if Ascii.eqb c "."%char then Some 0%nat else None
      end
  end.

(** [PurePath.suffix]: the part of the name from its last dot, when that
    dot is neither the first nor the last character (a name that ends in
    a dot has no suffix, as in pathlib before 3.14). *)
Definition suffix (nm : string) : string :=
  match rfind_dot nm with
  | Some i =>
      if ((0 <? i) && (i <? String.length nm - 1))%nat
      then String.substring i (String.length nm - i) nm
      else ""
  | None => ""
  end.

Fixpoint has_char (c : ascii) (s : string) : bool :=
  match s with
  | EmptyString => false
  | String c' s' => Ascii.eqb c c' || has_char c s'
  end.

(** [PurePath.with_suffix]: the old suffix is replaced, and the new one
    is appended when there is none. *)
Definition with_suffix (p : Path) (sfx : string) : result Path :=
  if has_char "/"%char sfx then Raise ValueError
  else if (negb (String.eqb sfx "") && negb (String.prefix "." sfx))
          || String.eqb sfx "." then Raise ValueError
  else if String.eqb (name p) "" then Raise ValueError
  else
    let old := suffix (name p) in
    let stem := String.substring 0 (String.length (name p) - String.length old) (name p) in
    Ok (MkPath (parent p) (String.append stem sfx)).

(** What a file holds: a JSON document, text that [json.load] rejects,
    or the remains of an interrupted write. *)
Inductive content : Type :=
| Doc (j : json)
| Text (s : string)
| Damaged.

(** The points at which the operating system may refuse. *)
Inductive io_op : Type :=
| OpenRead      (* open(path, 'r') *)
| CopyOpen      (* shutil.copy cannot create the destination *)
| CopyData      (* shutil.copy fails after creating the destination *)
| OpenWrite     (* open(path, 'w') *)
| Dump.         (* json.dump fails after the file was truncated *)

(** [json.load] *)
Definition json_load (c : content) : result json :=
  match c with
  | Doc j => Ok j
  | _ => Raise JSONDecodeError
  end.

End Os.

Import Os.

(** ** show_status.py *)

Module ShowStatus.

(** [priority_order = {'critical': 0, 'high': 1, 'medium': 2, 'low': 3}] *)
Definition priority_order : list (string * Z) :=
  [("critical", 0); ("high", 1); ("medium", 2); ("low", 3)].

Fixpoint assoc_Z (k : string) (d : list (string * Z)) : option Z :=
  match d with
  | [] => None
  | (k', n) :: rest => if String.eqb k k' then Some n else assoc_Z k rest
  end.

(** [priority_order.get(p, 4)]: the key is hashed first, so a list or a
    dict raises; only a string can be one of the keys. *)
Definition priority_order_get (p : json) (default : Z) : result Z :=
  match p with
  | JArr _ | JObj _ => Raise TypeError
  | JStr s => Ok (match assoc_Z s priority_order with Some n => n | None => default end)
  | _ => Ok default
  end.

(** The sort key [lambda f: priority_order.get(f.get('priority', 'low'), 4)]. *)
Definition sort_key (f : json) : result Z :=
  let! p := py_get f "priority" (JStr "low") in priority_order_get p 4.

(** The test of the comprehension: [not f.get('passes', False)]. *)
Definition is_failing (f : json) : result bool :=
  let! p := py_get f "passes" (JBool false) in Ok (negb (truthy p)).

(** [list.sort(key=...)] is stable: the keys are computed once, and an
    element goes behind the elements of a smaller key and in front of the
    later elements of its own key. *)
Fixpoint insert_keyed {A : Type} (kx : Z * A) (l : list (Z * A)) : list (Z * A) :=
  match l with
  | [] => [kx]
  | ky :: l' =>
      if fst ky <? fst kx then ky :: insert_keyed kx l' else kx :: ky :: l'
  end.

Fixpoint sort_keyed {A : Type} (l : list (Z * A)) : list (Z * A) :=
  match l with
  | [] => []
  | kx :: l' => insert_keyed kx (sort_keyed l')
  end.

Definition get_next_features (data : json) (limit : Z) : result (list json) :=
  let! features := py_get data "features" (JArr []) in
  let! fs := py_iter features in
  let! failing := filterM is_failing fs in
  let! keys := mapM sort_key failing in
  Ok (slice_to limit (map snd (sort_keyed (combine keys failing)))).

(** The default [limit] of [get_next_features]. *)
Definition default_limit : Z := 5.

(** The default [width] of [print_progress_bar]. *)
Definition default_width : Z := 40.

(** The next feature to work on is the first entry of
    [get_next_features(data)]; [None] when no failing feature remains. *)
Definition NextFeature (data : json) : result (option json) :=
  let! l := get_next_features data default_limit in Ok (head l).

(** The line [print_progress_bar] prints: the values of [filled] and
    [empty], the length of the bar built from them, the two counts as
    they were passed, and the percentage. *)
Record progress_line : Type := ProgressLine {
  filled : Z;
  empty : Z;
  bar_length : Z;
  shown_passing : json;
  shown_total : json;
  percent : xfloat
}.

(** [print_progress_bar(passing, total, width)] for counts as
    [print_status] passes them, values of the ledger; [None] when it
    returns without printing. *)
Definition print_progress_bar (passing total : json) (width : Z)
  : result (option progress_line) :=
  if py_eq total (JInt 0) then Ok None
  else
    let! pct := py_div passing total in
    let! w := float_of_int width in
    let! filled := py_int (float_mul w pct) in
    let empty := width - filled in
    let! full_run := py_repeat filled in
    let! empty_run := py_repeat empty in
    let! bar := py_concat full_run empty_run in
    Ok (Some (ProgressLine filled empty bar passing total (float_mul pct hundred))).

(** The percentage of a category in the verbose report of
    [print_status]:
    [counts['passing'] / total_cat * 100 if total_cat > 0 else 0]; the
    integer 0 of the other branch is shown like the float. *)
Definition category_percent (passing failing : Z) : result xfloat :=
  let total_cat := passing + failing in
  if 0 <? total_cat
  then let! q := py_truediv passing total_cat in Ok (float_mul q hundred)
  else Ok (Finite (Float false 0)).

End ShowStatus.

(** ** update_feature.py *)

Module UpdateFeature.

(** *** The world of the script *)

(** The lines the script prints, by their data. *)
Inductive message : Type :=
| ErrorFileNotFound (p : Path)
| ErrorInvalidJSON (p : Path)
| ErrorFeatureNotFound (feature_id : string)
| AvailableFeatures
| AvailableFeature (passing : bool) (id : json) (description : json)
| AndMore (n : Z)
| AlreadyMarked (feature_id : string) (passing : bool)
| ShowFeature (feature_id : string)
| ShowDescription (d : json)
| ShowCategory (c : json)
| ShowChange (old new : bool)
| DryRunNoChanges
| Updated (feature_id : string) (passing : bool)
| BackupSaved (p : Path)
| CurrentProgress (passing total : json).

Record world : Type := World {
  files : gmap Path content;
  stdout : list message;
  clock : string;               (* datetime.now().isoformat() *)
  io_fails : io_op -> bool
}.

Definition with_files (fs : gmap Path content) (w : world) : world :=
  World fs (stdout w) (clock w) (io_fails w).

Definition with_stdout (out : list message) (w : world) : world :=
  World (files w) out (clock w) (io_fails w).

(** Computations that read and change the world and may raise. *)
Definition io (A : Type) : Type := world -> result A * world.

Definition ret {A : Type} (a : A) : io A := fun w => (Ok a, w).
Definition lift {A : Type} (r : result A) : io A := fun w => (r, w).

Definition io_bind {A B : Type} (m : io A) (k : A -> io B) : io B :=
  fun w =>
    match m w with
    | (Ok a, w') => k a w'
    | (Raise e, w') => (Raise e, w')
    end.

Notation "'do!' x ':=' m 'in' k" := (io_bind m (fun x => k))
  (at level 10, x name, m at level 100, k at level 200).
Notation "m ';;;' k" := (io_bind m (fun _ => k))
  (at level 100, k at level 200, right associativity).

Definition print (m : message) : io unit :=
  fun w => (Ok tt, with_stdout (stdout w ++ [m]) w).

Fixpoint for_each {A : Type} (body : A -> io unit) (l : list A) : io unit :=
  match l with
  | [] => ret tt
  | x :: l' => body x ;;; for_each body l'
  end.

(** [open(filepath, 'r')] followed by reading the whole file. *)
Definition read_file (p : Path) : io content :=
  fun w =>
    match files w !! p with
    | None => (Raise FileNotFoundError, w)
    | Some c => if io_fails w OpenRead then (Raise OSError, w) else (Ok c, w)
    end.

(** [shutil.copy(src, dst)] between two file paths. *)
Definition shutil_copy (src dst : Path) : io unit :=
  fun w =>
    match files w !! src with
    | None => (Raise FileNotFoundError, w)
    | Some c =>
        if decide (src = dst) then (Raise SameFileError, w)
        else if io_fails w CopyOpen then (Raise OSError, w)
        else if io_fails w CopyData
             then (Raise OSError, with_files (<[dst := Damaged]> (files w)) w)
        else (Ok tt, with_files (<[dst := c]> (files w)) w)
    end.

(** [with open(filepath, 'w') as f: json.dump(data, f, indent=2)]:
    opening truncates the file. *)
Definition write_json (p : Path) (data : json) : io unit :=
  fun w =>
    if io_fails w OpenWrite then (Raise OSError, w)
    else if io_fails w Dump
         then (Raise OSError, with_files (<[p := Damaged]> (files w)) w)
    else (Ok tt, with_files (<[p := Doc data]> (files w)) w).

(** *** The functions of the script *)

Definition load_feature_list (filepath : Path) : io json :=
  do! c := read_file filepath in lift (json_load c).

Definition backup_suffix : string := ".json.bak".

Definition save_feature_list (filepath : Path) (data : json) (backup : bool)
  : io unit :=
  (if backup
   then do! backup_path := lift (with_suffix filepath backup_suffix) in
        shutil_copy filepath backup_path
   else ret tt) ;;;
  write_json filepath data.

Fixpoint find_from (i : nat) (fs : list json) (feature_id : string)
  : result (option (nat * json)) :=
  match fs with
  | [] => Ok None
  | feature :: rest =>
      let! v := py_get feature "id" JNull in
      if py_eq v (JStr feature_id) then Ok (Some (i, feature))
      else find_from (S i) rest feature_id
  end.

Definition find_feature (data : json) (feature_id : string)
  : result (option (nat * json)) :=
  let! features := py_get data "features" (JArr []) in
  let! fs := py_iter features in
  find_from 0 fs feature_id.

(** [data['metadata'][k] = x]; the result is [data] after the
    assignment. *)
Definition set_metadata (data : json) (k : string) (x : json) : result json :=
  let! meta := py_getitem data "metadata" in
  let! meta' := py_setitem meta k x in
  py_setitem data "metadata" meta'.

Definition has_passes (f : json) : result bool :=
  let! v := py_get f "passes" JNull in Ok (truthy v).

Definition lacks_passes (f : json) : result bool :=
  let! v := py_get f "passes" JNull in Ok (negb (truthy v)).

(** [update_metadata(data)]; the result is [data] after the call, and
    [now] is the reading of the clock. *)
Definition update_metadata (now : string) (data : json) : result json :=
  let! present := py_contains "metadata" data in
  let! data := (if present then Ok data else py_setitem data "metadata" (JObj [])) in
  let! features := py_get data "features" (JArr []) in
  let! fs := py_iter features in
  let! passing := count_where has_passes fs in
  let! features := py_get data "features" (JArr []) in
  let! fs := py_iter features in
  let! failing := count_where lacks_passes fs in
  let! features := py_get data "features" (JArr []) in
  let! total := py_len features in
  let! data := set_metadata data "total_features" (JInt total) in
  let! data := set_metadata data "passing" (JInt passing) in
  let! data := set_metadata data "failing" (JInt failing) in
  set_metadata data "last_updated" (JStr now).

(** [data['features'][index]['passes'] = passes] *)
Definition set_passes (data : json) (index : nat) (passes : bool) : result json :=
  let! features := py_getitem data "features" in
  let! feature := py_index features index in
  let! feature' := py_setitem feature "passes" (JBool passes) in
  let! features' := py_setindex features index feature' in
  py_setitem data "features" features'.

(** One line of the list of available features. *)
Definition print_available (f : json) : io unit :=
  do! p := lift (py_get f "passes" JNull) in
  do! i := lift (py_get f "id" JNull) in
  do! d := lift (py_get f "description" (JStr "")) in
  do! d50 := lift (py_prefix 50 d) in
  print (AvailableFeature (truthy p) i d50).

Definition report_not_found (data : json) (feature_id : string) : io bool :=
  print (ErrorFeatureNotFound feature_id) ;;;
  print AvailableFeatures ;;;
  do! features := lift (py_get data "features" (JArr [])) in
  do! first10 := lift (py_prefix 10 features) in
  do! fs := lift (py_iter first10) in
  for_each print_available fs ;;;
  do! features := lift (py_get data "features" (JArr [])) in
  do! n := lift (py_len features) in
  (if 10 <? n then print (AndMore (n - 10)) else ret tt) ;;;
  ret false.

Definition apply_change (filepath : Path) (data : json) (feature_id : string)
    (index : nat) (passes : bool) : io bool :=
  do! data := lift (set_passes data index passes) in
  do! now := (fun w => (Ok (clock w), w)) in
  do! data := lift (update_metadata now data) in
  save_feature_list filepath data true ;;;
  print (Updated feature_id passes) ;;;
  do! backup_path := lift (with_suffix filepath backup_suffix) in
  print (BackupSaved backup_path) ;;;
  do! meta := lift (py_get data "metadata" (JObj [])) in
  do! p := lift (py_get meta "passing" (JInt 0)) in
  do! t := lift (py_get meta "total_features" (JInt 0)) in
  print (CurrentProgress p t) ;;;
  ret true.

Definition update_feature_status (filepath : Path) (feature_id : string)
    (passes : bool) (dry_run : bool) : io bool :=
  fun w =>
    match load_feature_list filepath w with
    | (Raise FileNotFoundError, w) => (print (ErrorFileNotFound filepath) ;;; ret false) w
    | (Raise JSONDecodeError, w) => (print (ErrorInvalidJSON filepath) ;;; ret false) w
    | (Raise e, w) => (Raise e, w)
    | (Ok data, w) =>
        (do! found := lift (find_feature data feature_id) in
         match found with
         | None => report_not_found data feature_id
         | Some (index, feature) =>
             do! current_status := lift (py_get feature "passes" (JBool false)) in
             if py_eq current_status (JBool passes)
             then print (AlreadyMarked feature_id passes) ;;; ret true
             else
               print (ShowFeature feature_id) ;;;
               do! d := lift (py_get feature "description" (JStr "N/A")) in
               print (ShowDescription d) ;;;
               do! c := lift (py_get feature "category" (JStr "N/A")) in
               print (ShowCategory c) ;;;
               print (ShowChange (truthy current_status) passes) ;;;
               if dry_run
               then print DryRunNoChanges ;;; ret true
               else apply_change filepath data feature_id index passes
         end) w
    end.

End UpdateFeature.

(** ** validate_features.py *)

Module ValidateFeatures.

(** The error lines, by their data: the feature label is the value the
    f-string formats, [feature.get('id', f'index-{index}')]. *)
Inductive verror : Type :=
| FileNotFound (p : Path)
| InvalidJSON
| MissingFeaturesArray
| FeaturesNotArray
| DuplicateFeatureID (fid : json)
| MissingRequiredField (feature_id : json) (field : string)
| MustBeString (feature_id : json) (field : string)
| BadPriority (feature_id : json)
| StepsNotArray (feature_id : json)
| StepsEmpty (feature_id : json)
| StepNotString (feature_id : json) (position : nat)
| PassesNotBoolean (feature_id : json)
| DescriptionTooShort (feature_id : json)
| MetadataMissingField (field : string)
| MetadataSumMismatch (passing failing total : json)
| MetadataTotalMismatch (declared : json) (actual : Z)
| MetadataPassingMismatch (declared : json) (actual : Z)
| MetadataFailingMismatch (declared : json) (actual : Z).

Definition is_str (v : json) : bool :=
  match v with JStr _ => true | _ => false end.

Definition is_bool (v : json) : bool :=
  match v with JBool _ => true | _ => false end.

Definition required : list string :=
  ["id"; "category"; "description"; "priority"; "steps"; "passes"].

Definition valid_priorities : list string :=
  ["critical"; "high"; "medium"; "low"].

(** The loop over the required fields. *)
Fixpoint missing_fields (feature feature_id : json) (fields : list string)
  : result (list verror) :=
  match fields with
  | [] => Ok []
  | field :: rest =>
      let! present := py_contains field feature in
      let! es := missing_fields feature feature_id rest in
      Ok (if present then es else MissingRequiredField feature_id field :: es)
  end.

(** [if field in feature and not isinstance(feature[field], str)] *)
Definition must_be_string (feature feature_id : json) (field : string)
  : result (list verror) :=
  let! present := py_contains field feature in
  if present then
    let! v := py_getitem feature field in
    Ok (if is_str v then [] else [MustBeString feature_id field])
  else Ok [].

Fixpoint step_errors (feature_id : json) (i : nat) (steps : list json)
  : list verror :=
  match steps with
  | [] => []
  | step :: rest =>
      (if is_str step then [] else [StepNotString feature_id (i + 1)])
      ++ step_errors feature_id (S i) rest
  end.

(** The check of [priority] against [valid_priorities]. *)
Definition check_priority (feature feature_id : json) : result (list verror) :=
  let! present := py_contains "priority" feature in
  if present then
    let! p := py_getitem feature "priority" in
    Ok (if existsb (fun s => py_eq p (JStr s)) valid_priorities
        then [] else [BadPriority feature_id])
  else Ok [].

(** The checks of [steps]: an array, not empty, of strings. *)
Definition check_steps (feature feature_id : json) : result (list verror) :=
  let! present := py_contains "steps" feature in
  if present then
    let! steps := py_getitem feature "steps" in
    match steps with
    | JArr [] => Ok [StepsEmpty feature_id]
    | JArr l => Ok (step_errors feature_id 0 l)
    | _ => Ok [StepsNotArray feature_id]
    end
  else Ok [].

(** [if 'passes' in feature and not isinstance(feature['passes'], bool)] *)
Definition check_passes (feature feature_id : json) : result (list verror) :=
  let! present := py_contains "passes" feature in
  if present then
    let! v := py_getitem feature "passes" in
    Ok (if is_bool v then [] else [PassesNotBoolean feature_id])
  else Ok [].

(** [if 'description' in feature and len(feature.get('description', '')) < 10] *)
Definition check_description_length (feature feature_id : json)
  : result (list verror) :=
  let! present := py_contains "description" feature in
  if present then
    let! d := py_get feature "description" (JStr "") in
    let! n := py_len d in
    Ok (if n <? 10 then [DescriptionTooShort feature_id] else [])
  else Ok [].

Definition validate_feature (feature : json) (index : nat) : result (list verror) :=
  let! feature_id := py_get feature "id" (JStr (String.append "index-" (pretty index))) in
  let! e_required := missing_fields feature feature_id required in
  let! e_id := must_be_string feature feature_id "id" in
  let! e_category := must_be_string feature feature_id "category" in
  let! e_description := must_be_string feature feature_id "description" in
  let! e_priority := check_priority feature feature_id in
  let! e_steps := check_steps feature feature_id in
  let! e_passes := check_passes feature feature_id in
  let! e_short := check_description_length feature feature_id in
  Ok (e_required ++ e_id ++ e_category ++ e_description ++ e_priority
      ++ e_steps ++ e_passes ++ e_short)%list.

Definition metadata_required : list string :=
  ["project_name"; "total_features"; "passing"; "failing"].

Fixpoint metadata_missing (metadata : json) (fields : list string)
  : result (list verror) :=
  match fields with
  | [] => Ok []
  | field :: rest =>
      let! present := py_contains field metadata in
      let! es := metadata_missing metadata rest in
      Ok (if present then es else MetadataMissingField field :: es)
  end.

Definition validate_metadata (metadata : json) : result (list verror) :=
  let! e_required := metadata_missing metadata metadata_required in
  let! has_total := py_contains "total_features" metadata in
  let! all_three :=
    (if has_total then
       let! has_passing := py_contains "passing" metadata in
       if has_passing then py_contains "failing" metadata else Ok false
     else Ok false) in
  let! e_sum :=
    (if all_three then
       let! total := py_getitem metadata "total_features" in
       let! passing := py_getitem metadata "passing" in
       let! failing := py_getitem metadata "failing" in
       let! sum := py_add passing failing in
       Ok (if py_eq sum total then [] else [MetadataSumMismatch passing failing total])
     else Ok []) in
  Ok (e_required ++ e_sum)%list.

(** The [stats] dict: the three counters and the two breakdowns, each a
    dict from a label to a count. *)
Record Stats : Type := MkStats {
  total : Z;
  passing : Z;
  failing : Z;
  by_category : list (json * Z);
  by_priority : list (json * Z)
}.

Definition empty_stats : Stats := MkStats 0 0 0 [] [].

(** [d.get(k, 0)] on a dict of counts: the key is hashed first. *)
Fixpoint count_lookup (k : json) (d : list (json * Z)) : option Z :=
  match d with
  | [] => None
  | (k', n) :: rest => if py_eq k' k then Some n else count_lookup k rest
  end.

Definition counts_get (k : json) (d : list (json * Z)) : result Z :=
  if hashable k
  then Ok (match count_lookup k d with Some n => n | None => 0 end)
  else Raise TypeError.

(** [d[k] = n] on a dict of counts. *)
Fixpoint counts_set (k : json) (n : Z) (d : list (json * Z)) : list (json * Z) :=
  match d with
  | [] => [(k, n)]
  | (k', n') :: rest =>
      if py_eq k' k then (k', n) :: rest else (k', n') :: counts_set k n rest
  end.

(** [d[k] = d.get(k, 0) + 1] *)
Definition bump (k : json) (d : list (json * Z)) : result (list (json * Z)) :=
  let! n := counts_get k d in Ok (counts_set k (n + 1) d).

(** [fid in seen_ids] and [seen_ids.add(fid)] on the set of seen ids. *)
Definition seen_contains (fid : json) (seen : list json) : result bool :=
  if hashable fid then Ok (existsb (py_eq fid) seen) else Raise TypeError.

Definition seen_add (fid : json) (seen : list json) : list json :=
  if existsb (py_eq fid) seen then seen else (seen ++ [fid])%list.

(** The variables the loop over the features updates. *)
Record vstate : Type := VState {
  seen_ids : list json;
  errors : list verror;
  stats : Stats
}.

(** One turn of the loop. *)
Definition visit (st : vstate) (i : nat) (feature : json) : result vstate :=
  let! fid := py_get feature "id" JNull in
  let! st :=
    (if truthy fid then
       let! dup := seen_contains fid (seen_ids st) in
       Ok (VState (seen_add fid (seen_ids st))
                  (if dup then (errors st ++ [DuplicateFeatureID fid])%list
                   else errors st)
                  (stats st))
     else Ok st) in
  let! feature_errors := validate_feature feature i in
  let errs := (errors st ++ feature_errors)%list in
  let! p := py_get feature "passes" JNull in
  let s := stats st in
  let passing' := if truthy p then passing s + 1 else passing s in
  let failing' := if truthy p then failing s else failing s + 1 in
  let total' := total s + 1 in
  let! cat := py_get feature "category" (JStr "uncategorized") in
  let! by_category' := bump cat (by_category s) in
  let! pri := py_get feature "priority" (JStr "unknown") in
  let! by_priority' := bump pri (by_priority s) in
  Ok (VState (seen_ids st) errs
             (MkStats total' passing' failing' by_category' by_priority')).

Fixpoint visit_all (st : vstate) (i : nat) (features : list json) : result vstate :=
  match features with
  | [] => Ok st
  | feature :: rest => let! st' := visit st i feature in visit_all st' (S i) rest
  end.

(** The comparison of the declared counts with the counted ones. *)
Definition metadata_mismatches (meta : json) (s : Stats) : result (list verror) :=
  let! t := py_get meta "total_features" JNull in
  let! p := py_get meta "passing" JNull in
  let! f := py_get meta "failing" JNull in
  Ok ((if py_eq t (JInt (total s)) then [] else [MetadataTotalMismatch t (total s)])
      ++ (if py_eq p (JInt (passing s)) then [] else [MetadataPassingMismatch p (passing s)])
      ++ (if py_eq f (JInt (failing s)) then [] else [MetadataFailingMismatch f (failing s)]))%list.

(** The part of [validate_feature_list] that follows the parsing. *)
Definition validate_data (data : json) : result (bool * list verror * Stats) :=
  let! has_features := py_contains "features" data in
  if negb has_features then Ok (false, [MissingFeaturesArray], empty_stats)
  else
    let! features := py_getitem data "features" in
    match features with
    | JArr fs =>
        let! st := visit_all (VState [] [] empty_stats) 0 fs in
        let! has_metadata := py_contains "metadata" data in
        let! errs :=
          (if has_metadata then
             let! meta := py_getitem data "metadata" in
             let! metadata_errors := validate_metadata meta in
             let! meta := py_getitem data "metadata" in
             let! mismatches := metadata_mismatches meta (stats st) in
             Ok (errors st ++ metadata_errors ++ mismatches)%list
           else Ok (errors st)) in
        Ok (match errs with [] => true | _ => false end, errs, stats st)
    | _ => Ok (false, [FeaturesNotArray], empty_stats)
    end.

(** [validate_feature_list(filepath)] on the files [fs]; [fails] tells
    which operations the operating system refuses. *)
Definition validate_feature_list (fs : gmap Path content) (fails : io_op -> bool)
    (filepath : Path) : result (bool * list verror * Stats) :=
  match fs !! filepath with
  | None => Ok (false, [FileNotFound filepath], empty_stats)
  | Some c =>
      if fails OpenRead then Raise OSError
      else
        match json_load c with
        | Raise JSONDecodeError => Ok (false, [InvalidJSON], empty_stats)
        | Raise e => Raise e
        | Ok data => validate_data data
        end
  end.

(** The two percentages of [print_report]:
    [stats['passing']/max(stats['total'],1)*100] and the same for
    [failing]. *)
Definition report_percentages (s : Stats) : result (xfloat * xfloat) :=
  let! p := py_truediv (passing s) (Z.max (total s) 1) in
  let! f := py_truediv (failing s) (Z.max (total s) 1) in
  Ok (float_mul p hundred, float_mul f hundred).

End ValidateFeatures.

(** ** The vocabulary of the properties *)

Module Ledger.

Import ShowStatus.

(** The value of field [k] of a feature record, when it has one. *)
Definition field (k : string) (f : json) : option json :=
  match f with
  | JObj kvs => lookup_field k kvs
  | _ => None
  end.

(** A feature passes when its [passes] field is there and holds. *)
Definition passes (f : json) : bool :=
  match field "passes" f with
  | Some v => truthy v
  | None => false
  end.

Definition fails (f : json) : bool := negb (passes f).

(** The rank the selection gives a priority: the four names in order,
    4 for any other value, and the rank of [low] when the field is
    missing. *)
Definition rank_of_priority (p : json) : Z :=
  match p with
  | JStr s =>
      if String.eqb s "critical" then 0
      else if String.eqb s "high" then 1
      else if String.eqb s "medium" then 2
      else if String.eqb s "low" then 3
      else 4
  | _ => 4
  end.

Definition rank (f : json) : Z :=
  match field "priority" f with
  | Some p => rank_of_priority p
  | None => 3
  end.

(** The rank as the specification words it: 4 for an unrecognized and
    for a missing priority alike. *)
Definition claimed_rank (f : json) : Z :=
  match field "priority" f with
  | Some p => rank_of_priority p
  | None => 4
  end.

Definition ranks : list Z := [0; 1; 2; 3; 4].

(** The stable order by rank: the features of rank 0 in their original
    order, then those of rank 1, and so on. *)
Definition ordered_by (rk : json -> Z) (fs : list json) : list json :=
  flat_map (fun r => List.filter (fun f => rk f =? r) fs) ranks.

(** The same order on a list of keyed items, for any list of keys. *)
Definition buckets {A : Type} (rs : list Z) (l : list (Z * A)) : list (Z * A) :=
  flat_map (fun r => List.filter (fun y => fst y =? r) l) rs.

(** The selection as the specification words it, for a rank function:
    the first of the failing features in the stable order by rank. *)
Definition select_next (rk : json -> Z) (fs : list json) : option json :=
  head (ordered_by rk (List.filter fails fs)).

(** A feature the selection can handle: a record whose priority, when
    it fails, can be hashed. *)
Definition selectable (f : json) : bool :=
  is_obj f &&
  (passes f || match field "priority" f with Some p => hashable p | None => true end).

(** The feature list of a ledger. *)
Definition features_of (data : json) (fs : list json) : Prop :=
  py_get data "features" (JArr []) = Ok (JArr fs).

(** The ledger of the scenarios. *)
Definition F001 : json :=
  JObj [("id", JStr "F001"); ("priority", JStr "high"); ("passes", JBool false)].
Definition F002 : json :=
  JObj [("id", JStr "F002"); ("priority", JStr "critical"); ("passes", JBool false)].
Definition scenario : json := JObj [("features", JArr [F001; F002])].

(** A ledger whose first feature has no priority. *)
Definition G001 : json := JObj [("id", JStr "G001"); ("passes", JBool false)].
Definition G002 : json :=
  JObj [("id", JStr "G002"); ("priority", JStr "low"); ("passes", JBool false)].
Definition unranked : json := JObj [("features", JArr [G001; G002])].

(** *** Mutation *)

(** The feature that [find_feature] returns for an id: the first one
    whose [id] equals it, with its position. *)
Definition has_id (fid : string) (f : json) : bool :=
  match field "id" f with
  | Some v => py_eq v (JStr fid)
  | None => false
  end.

Fixpoint feature_from (i : nat) (fid : string) (fs : list json)
  : option (nat * json) :=
  match fs with
  | [] => None
  | f :: rest => if has_id fid f then Some (i, f) else feature_from (S i) fid rest
  end.

Definition feature_with_id (fid : string) (fs : list json) : option (nat * json) :=
  feature_from 0 fid fs.

(** The status a feature has now: its [passes] field, false without one. *)
Definition current_status (f : json) : json :=
  match field "passes" f with
  | Some v => v
  | None => JBool false
  end.

Definition same_status (f : json) (new_passes : bool) : bool :=
  py_eq (current_status f) (JBool new_passes).

Definition with_passes (new_passes : bool) (f : json) : json :=
  match f with
  | JObj kvs => JObj (set_field "passes" (JBool new_passes) kvs)
  | _ => f
  end.

Definition count (p : json -> bool) (fs : list json) : Z :=
  Z.of_nat (List.length (List.filter p fs)).

(** The metadata of a ledger, as a list of fields. *)
Definition metadata_fields (data : json) : list (string * json) :=
  match field "metadata" data with
  | Some (JObj m) => m
  | _ => []
  end.

(** The metadata may be absent; when present it is a record. *)
Definition metadata_ok (data : json) : bool :=
  match field "metadata" data with
  | Some m => is_obj m
  | None => true
  end.

(** The counter [k] of the metadata of a ledger. *)
Definition counter (k : string) (data : json) : option Z :=
  match field "metadata" data with
  | Some m => match field k m with Some (JInt n) => Some n | _ => None end
  | None => None
  end.

(** The metadata after a recomputation over the features [fs]. *)
Definition recomputed (now : string) (old : list (string * json)) (fs : list json)
  : json :=
  JObj (set_field "last_updated" (JStr now)
         (set_field "failing" (JInt (count fails fs))
           (set_field "passing" (JInt (count passes fs))
             (set_field "total_features" (JInt (Z.of_nat (List.length fs))) old)))).

(** The ledger with the metadata recomputed. *)
Definition refreshed (now : string) (data : json) (fs : list json) : json :=
  match data with
  | JObj kvs =>
      JObj (set_field "metadata" (recomputed now (metadata_fields data) fs) kvs)
  | _ => data
  end.

(** The ledger after the status of feature [i] was set. *)
Definition with_feature_status (data : json) (fs : list json) (i : nat)
    (new_passes : bool) : json :=
  match data with
  | JObj kvs =>
      JObj (set_field "features" (JArr (alter (with_passes new_passes) i fs)) kvs)
  | _ => data
  end.

(** The document a mutation writes. *)
Definition mutated (now : string) (data : json) (fs : list json) (i : nat)
    (new_passes : bool) : json :=
  refreshed now (with_feature_status data fs i new_passes)
            (alter (with_passes new_passes) i fs).

(** A disk that holds the ledger of the scenarios under the default
    name, and one that holds it under a name that does not end in
    [.json]; the operating system refuses nothing. *)
Definition never (op : io_op) : bool := false.

Definition ledger_path : Path := MkPath [] "feature_list.json".
Definition disk : UpdateFeature.world :=
  UpdateFeature.World {[ ledger_path := Doc scenario ]} []
                      "2024-01-01T00:00:00" never.

Definition txt_path : Path := MkPath [] "ledger.txt".
Definition txt_disk : UpdateFeature.world :=
  UpdateFeature.World {[ txt_path := Doc scenario ]} []
                      "2024-01-01T00:00:00" never.

(** A ledger whose only feature has no [passes] field, on a disk. *)
Definition F003 : json := JObj [("id", JStr "F003"); ("priority", JStr "medium")].
Definition unmarked : json := JObj [("features", JArr [F003])].
Definition unmarked_disk : UpdateFeature.world :=
  UpdateFeature.World {[ ledger_path := Doc unmarked ]} []
                      "2024-01-01T00:00:00" never.

(** No operation is refused. *)
Definition no_faults (fails : io_op -> bool) : Prop := forall op, fails op = false.

(** The file at [path] holds the ledger [data], whose features are the
    records [fs]. *)
Definition ledger_at (w : UpdateFeature.world) (path : Path) (data : json)
    (fs : list json) : Prop :=
  UpdateFeature.files w !! path = Some (Doc data)
  /\ features_of data fs
  /\ Forall (fun f => is_obj f = true) fs.

(** The value of a field, or a default. *)
Definition field_or (k : string) (default : json) (f : json) : json :=
  match field k f with
  | Some v => v
  | None => default
  end.

(** The lines that announce a change, and those that report it. *)
Definition change_preview (fid : string) (f : json) (new_passes : bool)
  : list UpdateFeature.message :=
  [UpdateFeature.ShowFeature fid;
   UpdateFeature.ShowDescription (field_or "description" (JStr "N/A") f);
   UpdateFeature.ShowCategory (field_or "category" (JStr "N/A") f);
   UpdateFeature.ShowChange (truthy (current_status f)) new_passes].

Definition change_report (fid : string) (new_passes : bool) (bak : Path)
    (fs : list json) : list UpdateFeature.message :=
  [UpdateFeature.Updated fid new_passes;
   UpdateFeature.BackupSaved bak;
   UpdateFeature.CurrentProgress (JInt (count passes fs))
                                 (JInt (Z.of_nat (List.length fs)))].

(** The line of the list of available features for one feature. *)
Definition sliceable (v : json) : bool :=
  match v with
  | JStr _ | JArr _ => true
  | _ => false
  end.

Definition description_ok (f : json) : bool :=
  sliceable (field_or "description" (JStr "") f).

Definition short_description (f : json) : json :=
  match field_or "description" (JStr "") f with
  | JStr s => JStr (String.substring 0 50 s)
  | JArr l => JArr (firstn 50 l)
  | v => v
  end.

Definition available_line (f : json) : UpdateFeature.message :=
  UpdateFeature.AvailableFeature (passes f) (field_or "id" JNull f)
                                 (short_description f).

(** All that is printed when the id is not found: the error, then a
    sample of at most ten features with their ids, then how many more
    there are. *)
Definition not_found_report (fid : string) (fs : list json)
  : list UpdateFeature.message :=
  [UpdateFeature.ErrorFeatureNotFound fid; UpdateFeature.AvailableFeatures]
  ++ map available_line (firstn 10 fs)
  ++ (if 10 <? Z.of_nat (List.length fs)
      then [UpdateFeature.AndMore (Z.of_nat (List.length fs) - 10)]
      else []).

(** The world after some more lines were printed. *)
Definition printed (msgs : list UpdateFeature.message) (w : UpdateFeature.world)
  : UpdateFeature.world :=
  UpdateFeature.with_stdout (UpdateFeature.stdout w ++ msgs) w.

(** *** Validation *)

(** The id of a feature as the validator reads it: [feature.get('id')]. *)
Definition id_of (f : json) : json := field_or "id" JNull f.

(** The number of features whose id is the string [s]. *)
Definition occurrences (s : string) (fs : list json) : nat :=
  List.length (List.filter (has_id s) fs).

(** The duplicate-id errors, and those among them that name [s]. *)
Definition is_duplicate_error (e : ValidateFeatures.verror) : bool :=
  match e with
  | ValidateFeatures.DuplicateFeatureID _ => true
  | _ => false
  end.

Definition names (s : string) (e : ValidateFeatures.verror) : bool :=
  match e with
  | ValidateFeatures.DuplicateFeatureID (JStr s') => String.eqb s' s
  | _ => false
  end.

Definition duplicate_reports (s : string) (errs : list ValidateFeatures.verror) : nat :=
  List.length (List.filter (names s) errs).

(** A duplicate-id error names an id that is present and not empty. *)
Definition names_real_id (e : ValidateFeatures.verror) : bool :=
  match e with
  | ValidateFeatures.DuplicateFeatureID fid => truthy fid
  | _ => true
  end.

(** A list of errors without a duplicate-id error. *)
Definition clean (es : list ValidateFeatures.verror) : Prop :=
  Forall (fun e => is_duplicate_error e = false) es.

(** [len(v)] is defined. *)
Definition sized (v : json) : bool :=
  match v with
  | JStr _ | JArr _ | JObj _ => true
  | _ => false
  end.

(** A feature the validator can check without an exception: a record
    whose id, when it counts, and whose category and priority can be
    hashed, and whose description, when present, has a length. *)
Definition checkable (f : json) : bool :=
  is_obj f
  && (negb (truthy (id_of f)) || hashable (id_of f))
  && match field "description" f with Some d => sized d | None => true end
  && hashable (field_or "category" (JStr "uncategorized") f)
  && hashable (field_or "priority" (JStr "unknown") f).

Definition addable (a b : json) : bool :=
  match py_add a b with
  | Ok _ => true
  | Raise _ => false
  end.

(** Metadata the validator can check: absent, or a record whose
    [passing] and [failing] can be added when the three counts are
    there. *)
Definition metadata_checkable (data : json) : bool :=
  match field "metadata" data with
  | None => true
  | Some (JObj m) =>
      match lookup_field "total_features" m, lookup_field "passing" m,
            lookup_field "failing" m with
      | Some _, Some p, Some f => addable p f
      | _, _, _ => true
      end
  | Some _ => false
  end.

(** The ledger [data] has the feature list [fs] under its key
    [features]. *)
Definition has_features (data : json) (fs : list json) : Prop :=
  field "features" data = Some (JArr fs).

(** Ledgers in which the id F001 occurs twice and three times. *)
Definition twice : json := JObj [("features", JArr [F001; F001])].
Definition thrice : json := JObj [("features", JArr [F001; F001; F001])].

(** A ledger without features, and one whose features have no id, a
    null id and an empty id, each twice. *)
Definition no_features : json := JObj [("features", JArr [])].

Definition anonymous : json :=
  JObj [("features",
         JArr [JObj [("passes", JBool false)];
               JObj [("passes", JBool true)];
               JObj [("id", JNull)]; JObj [("id", JNull)];
               JObj [("id", JStr "")]; JObj [("id", JStr "")]])].

End Ledger.

(** ** show_status.py: the report of [print_status] *)

Module PrintStatus.

Import ShowStatus.

(** [a - b]: numbers subtract ([True] is 1), nothing else does. *)
Definition py_sub (a b : json) : result json :=
  match a, b with
  | JInt x, JInt y => Ok (JInt (x - y))
  | JInt x, JBool y => Ok (JInt (x - Z.b2z y))
  | JBool x, JInt y => Ok (JInt (Z.b2z x - y))
  | JBool x, JBool y => Ok (JInt (Z.b2z x - Z.b2z y))
  | _, _ => Raise TypeError
  end.

(** The lookup of the method in [v.get(...)], which comes before the
    evaluation of the arguments. *)
Definition get_method (v : json) : result unit :=
  if is_obj v then Ok tt else Raise AttributeError.

(** What the head of the report shows: the project, the progress
    bar, and the three counts. *)
Record header : Type := Header {
  head_project : json;
  head_bar : option progress_line;
  head_total : json;
  head_passing : json;
  head_failing : json
}.

(** The head of the report of [print_status] for a ledger that was
    loaded: [total] and [passing] come from the metadata, or are counted
    when the metadata lacks them (the default is computed either way);
    [failing] is their difference.  The progress bar is printed before
    the counts, so an exception of [print_progress_bar] ends the
    report there. *)
Definition status_header (data : json) : result header :=
  let! meta := py_get data "metadata" (JObj []) in
  let! _ := get_method meta in
  let! features := py_get data "features" (JArr []) in
  let! n := py_len features in
  let! total := py_get meta "total_features" (JInt n) in
  let! features := py_get data "features" (JArr []) in
  let! fs := py_iter features in
  let! counted := count_where UpdateFeature.has_passes fs in
  let! passing := py_get meta "passing" (JInt counted) in
  let! failing := py_sub total passing in
  let! project_name := py_get meta "project_name" (JStr "Unknown") in
  let! bar := print_progress_bar passing total default_width in
  Ok (Header project_name bar total passing failing).

(** The icons of the priorities, and the one for anything else. *)
Inductive icon : Type := Red | Orange | Yellow | Green | White.

(** [{'critical': ..., 'high': ..., 'medium': ..., 'low': ...}.get(pri, ...)]:
    the key is hashed first. *)
Definition pri_icon (pri : json) : result icon :=
  match pri with
  | JArr _ | JObj _ => Raise TypeError
  | JStr s =>
      Ok (if String.eqb s "critical" then Red
          else if String.eqb s "high" then Orange
          else if String.eqb s "medium" then Yellow
          else if String.eqb s "low" then Green
          else White)
  | _ => Ok White
  end.

(** One line of the list of next features: its number, the icon, the id
    and the first fifty characters of the description. *)
Record next_line : Type := NextLine {
  number : nat;
  shown_icon : icon;
  shown_id : json;
  shown_description : json
}.

Definition print_next (i : nat) (f : json) : result next_line :=
  let! pri := py_get f "priority" (JStr "medium") in
  let! ic := pri_icon pri in
  let! fid := py_get f "id" JNull in
  let! d := py_get f "description" (JStr "") in
  let! d50 := py_prefix 50 d in
  Ok (NextLine i ic fid d50).

(** [for i, f in enumerate(next_features, 1)] *)
Fixpoint print_next_from (i : nat) (fs : list json) : result (list next_line) :=
  match fs with
  | [] => Ok []
  | f :: rest =>
      let! l := print_next i f in
      let! ls := print_next_from (S i) rest in
      Ok (l :: ls)
  end.

(** The list of next features of the report. *)
Definition next_features_lines (data : json) : result (list next_line) :=
  let! next_features := get_next_features data default_limit in
  print_next_from 1 next_features.

End PrintStatus.

(** The verbose part of the report. *)

Module Verbose.

Import ShowStatus.

(** The counts of one category in the verbose report:
    [{'passing': p, 'failing': f}]. *)
Record tallies : Type := Tallies { cat_passing : Z; cat_failing : Z }.







End Verbose.

(** ** validate_features.py: the report of [print_report] *)

Module PrintReport.

Import ValidateFeatures.

(** The list [priority_order] of [print_report]:
    [['critical', 'high', 'medium', 'low', 'unknown']]. *)
Definition shown_priorities : list string :=
  ["critical"; "high"; "medium"; "low"; "unknown"].

(** The lines under [By Priority]: one for each name of
    [priority_order] that is a key of [stats['by_priority']], none when
    the dict is empty. *)
Definition priority_lines (s : Stats) : list (string * Z) :=
  match by_priority s with
  | [] => []
  | _ =>
      flat_map (fun pri =>
                  match count_lookup (JStr pri) (by_priority s) with
                  | Some n => [(pri, n)]
                  | None => []
                  end) shown_priorities
  end.

End PrintReport.

(** ** More vocabulary of the properties *)

Module Vocabulary.

Import ShowStatus UpdateFeature ValidateFeatures Ledger.

(** *** Updates *)

(** A computation that only prints. *)
Definition keeps {A : Type} (m : io A) : Prop :=
  forall w, exists msgs, snd (m w) = printed msgs w.

(** Two worlds that differ at most in the ledger file, its backup and
    what was printed. *)
Definition confined (path : Path) (w w' : world) : Prop :=
  clock w' = clock w /\ io_fails w' = io_fails w
  /\ forall q, q <> path ->
       (forall bak, with_suffix path backup_suffix = Ok bak -> q <> bak) ->
       files w' !! q = files w !! q.

(** *** Validation *)

(** The record has the key [k]. *)
Definition has_key (k : string) (kvs : list (string * json)) : bool :=
  match lookup_field k kvs with Some _ => true | None => false end.

(** The feature records the validator accepts: the six fields present,
    [id], [category] and [description] strings, the description of ten
    characters or more, the priority one of the four names, the steps a
    non-empty array of strings, and [passes] a Boolean. *)
Definition conforms (f : json) : bool :=
  match field "id" f with Some (JStr _) => true | _ => false end
  && match field "category" f with Some (JStr _) => true | _ => false end
  && match field "description" f with
     | Some (JStr d) => 10 <=? Z.of_nat (String.length d)
     | _ => false
     end
  && match field "priority" f with
     | Some p => existsb (fun s => py_eq p (JStr s)) valid_priorities
     | None => false
     end
  && match field "steps" f with
     | Some (JArr (s :: l)) => forallb is_str (s :: l)
     | _ => false
     end
  && match field "passes" f with Some (JBool _) => true | _ => false end.

(** The count [k] of a metadata record equals [n]. *)
Definition declares (k : string) (n : Z) (m : list (string * json)) : bool :=
  match lookup_field k m with
  | Some v => py_eq v (JInt n)
  | None => false
  end.

(** The metadata the validator accepts for the features [fs]: absent,
    or a record with a [project_name] and the three counts of [fs]. *)
Definition metadata_consistent (data : json) (fs : list json) : bool :=
  match field "metadata" data with
  | None => true
  | Some (JObj m) =>
      match lookup_field "project_name" m with Some _ => true | None => false end
      && declares "total_features" (Z.of_nat (List.length fs)) m
      && declares "passing" (count passes fs) m
      && declares "failing" (count fails fs) m
  | Some _ => false
  end.

(** The sum of the counts of a breakdown. *)
Definition sum_counts (d : list (json * Z)) : Z :=
  fold_right (fun kv acc => snd kv + acc) 0 d.

(** Two complete feature records, and a ledger that holds them, with
    and without metadata. *)
Definition H001 : json :=
  JObj [("id", JStr "H001"); ("category", JStr "core");
        ("description", JStr "Load the ledger from disk");
        ("priority", JStr "high");
        ("steps", JArr [JStr "Run the loader"; JStr "Compare the result"]);
        ("passes", JBool false)].
Definition H002 : json :=
  JObj [("id", JStr "H002"); ("category", JStr "report");
        ("description", JStr "Print the progress bar");
        ("priority", JStr "low");
        ("steps", JArr [JStr "Run the status script"]);
        ("passes", JBool true)].

Definition complete : json :=
  JObj [("features", JArr [H001; H002]);
        ("metadata", JObj [("project_name", JStr "pace");
                           ("total_features", JInt 2);
                           ("passing", JInt 1);
                           ("failing", JInt 1)])].

Definition bare : json := JObj [("features", JArr [H001; H002])].

Definition complete_disk : UpdateFeature.world :=
  UpdateFeature.World {[ ledger_path := Doc complete ]} []
                      "2024-01-01T00:00:00" never.
Definition bare_disk : UpdateFeature.world :=
  UpdateFeature.World {[ ledger_path := Doc bare ]} []
                      "2024-01-01T00:00:00" never.

(** The labels under which the validator counts a feature. *)
Definition category_of (f : json) : json := field_or "category" (JStr "uncategorized") f.
Definition priority_of (f : json) : json := field_or "priority" (JStr "unknown") f.

(** The number of features whose label equals [k]. *)
Definition tally (label : json -> json) (k : json) (fs : list json) : Z :=
  count (fun f => py_eq (label f) k) fs.

(** The keys of a dict of counts were hashed when they went in. *)
Definition keys_hashable (d : list (json * Z)) : Prop :=
  Forall (fun kv => hashable (fst kv) = true) d.

(** *** Reports *)

(** The icon that goes with a rank. *)
Definition icon_of_rank (r : Z) : PrintStatus.icon :=
  if r =? 0 then PrintStatus.Red
  else if r =? 1 then PrintStatus.Orange
  else if r =? 2 then PrintStatus.Yellow
  else if r =? 3 then PrintStatus.Green
  else PrintStatus.White.

(** The icon the report shows for a feature: that of its rank, but the
    one of [medium] for a feature without a priority, which is ranked
    as [low]. *)
Definition icon_for (f : json) : PrintStatus.icon :=
  match Ledger.field "priority" f with
  | Some _ => icon_of_rank (Ledger.rank f)
  | None => PrintStatus.Yellow
  end.

(** A feature whose priority, or [unknown] without one, is among the
    names the report lists. *)
Definition listed (f : json) : bool :=
  existsb (fun s => py_eq (priority_of f) (JStr s)) PrintReport.shown_priorities.

(** The sum of the counts of some lines. *)
Definition lines_total (ls : list (string * Z)) : Z :=
  fold_right (fun l acc => snd l + acc) 0 ls.


(** A category that was counted holds a feature. *)
Definition counted (t : Verbose.tallies) : Prop :=
  0 <= Verbose.cat_passing t /\ 0 <= Verbose.cat_failing t
  /\ 1 <= Verbose.cat_passing t + Verbose.cat_failing t.

End Vocabulary.

(** ** Properties of the selection *)

Section Monad_facts.

Lemma filterM_pure {A : Type} (p : A -> result bool) (q : A -> bool) (l : list A) :
  Forall (fun x => p x = Ok (q x)) l -> filterM p l = Ok (List.filter q l).
Proof.
  induction 1 as [| x l Hx _ IH]; simpl; [reflexivity |].
  rewrite Hx, IH. simpl. destruct (q x); reflexivity.
Qed.

Lemma mapM_pure {A B : Type} (f : A -> result B) (g : A -> B) (l : list A) :
  Forall (fun x => f x = Ok (g x)) l -> mapM f l = Ok (map g l).
Proof.
  induction 1 as [| x l Hx _ IH]; simpl; [reflexivity |].
  rewrite Hx, IH. reflexivity.
Qed.

End Monad_facts.

(** ** Properties of the rounding *)

Section Float_facts.

Lemma round64_Qeq x y : (x == y)%Q -> round64 x = round64 y.
Proof.
  intros H. unfold round64. now rewrite (Qred_complete x y H).
Qed.

Lemma pow2_pos c : (0 < pow2 c)%Q.
Proof.
  unfold pow2. destruct (Z.leb_spec 0 c).
  - change 0%Q with (inject_Z 0). rewrite <- Zlt_Qlt. now apply Z.pow_pos_nonneg.
  - apply Qinv_lt_0_compat. change 0%Q with (inject_Z 0). rewrite <- Zlt_Qlt.
    apply Z.pow_pos_nonneg; lia.
Qed.

(** A scale that is not positive divides by a power of two. *)
Lemma pow2_nonpos c : c <= 0 -> (pow2 c == / inject_Z (2 ^ (- c)))%Q.
Proof.
  intros H. unfold pow2. destruct (Z.leb_spec 0 c); [| reflexivity].
  assert (c = 0) as -> by lia. reflexivity.
Qed.

Lemma pow2_le c c' : c <= c' -> (pow2 c <= pow2 c')%Q.
Proof.
  intros H. unfold pow2.
  destruct (Z.leb_spec 0 c), (Z.leb_spec 0 c'); try lia.
  - rewrite <- Zle_Qle. apply Z.pow_le_mono_r; lia.
  - apply Qle_trans with 1%Q.
    + apply Qle_shift_inv_r.
      * change 0%Q with (inject_Z 0). rewrite <- Zlt_Qlt. apply Z.pow_pos_nonneg; lia.
      * rewrite Qmult_1_l. change 1%Q with (inject_Z 1). rewrite <- Zle_Qle.
        assert (0 < 2 ^ (- c)) by (apply Z.pow_pos_nonneg; lia). lia.
    + change 1%Q with (inject_Z 1). rewrite <- Zle_Qle.
      assert (0 < 2 ^ c') by (apply Z.pow_pos_nonneg; lia). lia.
  - assert (Hp : 0 < 2 ^ (- c')) by (apply Z.pow_pos_nonneg; lia).
    assert (Hq : 2 ^ (- c') <= 2 ^ (- c)) by (apply Z.pow_le_mono_r; lia).
    assert (Hp' : 0 < 2 ^ (- c)) by lia.
    destruct (2 ^ (- c')) as [| p | p]; try lia.
    destruct (2 ^ (- c)) as [| q | q]; try lia.
    unfold Qle, Qinv. cbn [Qnum Qden inject_Z]. lia.
Qed.

Lemma nearest_even_le x k : (x <= inject_Z k)%Q -> nearest_even x <= k.
Proof.
  destruct x as [n d]. unfold Qle, nearest_even. cbn [Qnum Qden inject_Z].
  rewrite Z.mul_1_r. intros H.
  pose proof (Z.div_mod n (Z.pos d) ltac:(lia)) as Hdm.
  pose proof (Z.mod_pos_bound n (Z.pos d) ltac:(lia)) as Hr.
  assert (Hfl : n / Z.pos d <= k) by (apply Z.div_le_upper_bound; lia).
  destruct (Z.eq_dec (n / Z.pos d) k) as [E | E].
  - assert (n mod Z.pos d = 0) by nia.
    destruct (Z.compare_spec (2 * (n mod Z.pos d)) (Z.pos d)); lia.
  - destruct (2 * (n mod Z.pos d) ?= Z.pos d); [destruct (Z.even _) | |]; lia.
Qed.

Lemma nearest_even_ge x k : (inject_Z k <= x)%Q -> k <= nearest_even x.
Proof.
  destruct x as [n d]. unfold Qle, nearest_even. cbn [Qnum Qden inject_Z].
  rewrite Z.mul_1_r. intros H.
  assert (Hfl : k <= n / Z.pos d) by (apply Z.div_le_lower_bound; lia).
  destruct (2 * (n mod Z.pos d) ?= Z.pos d); [destruct (Z.even _) | |]; lia.
Qed.

Lemma nearest_even_int x k : (x == inject_Z k)%Q -> nearest_even x = k.
Proof.
  intros H. apply Z.le_antisymm.
  - apply nearest_even_le. rewrite H. apply Qle_refl.
  - apply nearest_even_ge. rewrite H. apply Qle_refl.
Qed.

Lemma nearest_even_scale n d k :
  0 < d -> 0 < k ->
  match 2 * ((k * n) mod (k * d)) ?= k * d with
  | Lt => k * n / (k * d)
  | Gt => k * n / (k * d) + 1
  | Eq => if Z.even (k * n / (k * d)) then k * n / (k * d) else k * n / (k * d) + 1
  end
  = match 2 * (n mod d) ?= d with
    | Lt => n / d
    | Gt => n / d + 1
    | Eq => if Z.even (n / d) then n / d else n / d + 1
    end.
Proof.
  intros Hd Hk.
  rewrite Z.div_mul_cancel_l by lia. rewrite Z.mul_mod_distr_l by lia.
  replace (2 * (k * (n mod d))) with (k * (2 * (n mod d))) by ring.
  now rewrite <- Zmult_compare_compat_l by lia.
Qed.

Lemma nearest_even_int_eq x y : (x == y)%Q -> nearest_even x = nearest_even y.
Proof.
  destruct x as [n d], y as [n' d']. unfold Qeq, nearest_even. cbn [Qnum Qden].
  intros H.
  rewrite <- (nearest_even_scale n (Z.pos d) (Z.pos d')) by lia.
  rewrite <- (nearest_even_scale n' (Z.pos d') (Z.pos d)) by lia.
  replace (Z.pos d' * n) with (Z.pos d * n') by lia.
  replace (Z.pos d' * Z.pos d) with (Z.pos d * Z.pos d') by lia.
  reflexivity.
Qed.

(** The nearest integer is at most half a unit away. *)
Lemma nearest_even_near x :
  (0 <= x)%Q ->
  (inject_Z (nearest_even x) - x <= 1 # 2)%Q /\ (x - inject_Z (nearest_even x) <= 1 # 2)%Q.
Proof.
  destruct x as [n d]. unfold Qle, Qminus, Qplus, Qopp, nearest_even.
  cbn [Qnum Qden inject_Z]. intros H0.
  pose proof (Z.div_mod n (Z.pos d) ltac:(lia)) as Hdm.
  pose proof (Z.mod_pos_bound n (Z.pos d) ltac:(lia)) as Hr.
  set (fl := n / Z.pos d) in *. set (r := n mod Z.pos d) in *.
  rewrite !Pos2Z.inj_mul. clearbody fl r. subst n.
  destruct (Z.compare_spec (2 * r) (Z.pos d)); [destruct (Z.even fl) | |]; split; lia.
Qed.

(** The exponent of a number below [2 ** (j + 1)] is at most [j]. *)
Lemma binade_le x j : (0 < x)%Q -> (x < pow2 (j + 1))%Q -> binade x <= j.
Proof.
  intros Hx Hlt. unfold binade.
  set (k := Z.log2 (Qnum x) - Z.log2 (Z.pos (Qden x))).
  assert (Hk : k <= j + 1).
  { destruct x as [n d]. unfold Qlt in Hx, Hlt. cbn [Qnum Qden] in *. subst k.
    cbn [Qnum Qden]. rewrite Z.mul_1_r in Hx. cbn [Qnum Qden inject_Z] in Hx.
    pose proof (Z.log2_nonneg n). pose proof (Z.log2_nonneg (Z.pos d)).
    destruct (Z.log2_spec n Hx) as [Hn1 Hn2].
    destruct (Z.log2_spec (Z.pos d) ltac:(lia)) as [Hd1 Hd2].
    unfold pow2 in Hlt. destruct (Z.leb_spec 0 (j + 1)).
    - cbn [Qnum Qden inject_Z] in Hlt. rewrite Z.mul_1_r in Hlt.
      (* n < 2^(j+1) * d *)
      destruct (Z.le_gt_cases (Z.log2 n - Z.log2 (Z.pos d)) (j + 1)) as [|Hgt];
        [assumption | exfalso].
      assert (2 ^ (j + 1) * 2 ^ (Z.succ (Z.log2 (Z.pos d))) <= 2 ^ Z.log2 n).
      { rewrite <- Z.pow_add_r by lia. apply Z.pow_le_mono_r; lia. }
      assert (0 < 2 ^ (j + 1)) by (apply Z.pow_pos_nonneg; lia).
      nia.
    - assert (Hp : 0 < 2 ^ (- (j + 1))) by (apply Z.pow_pos_nonneg; lia).
      unfold Qinv in Hlt. cbn [Qnum Qden inject_Z] in Hlt.
      destruct (2 ^ (- (j + 1))) as [| p | p] eqn:E; try lia.
      cbn [Qnum Qden] in Hlt. rewrite Z.mul_1_l in Hlt.
      (* n * p < d *)
      destruct (Z.le_gt_cases (Z.log2 n - Z.log2 (Z.pos d)) (j + 1)) as [|Hgt];
        [assumption | exfalso].
      assert (2 ^ Z.log2 (Z.pos d) <= 2 ^ Z.log2 n * 2 ^ (- (j + 1) - 1)).
      { rewrite <- Z.pow_add_r by lia. apply Z.pow_le_mono_r; lia. }
      assert (2 ^ (- (j + 1)) = 2 * 2 ^ (- (j + 1) - 1)).
      { rewrite <- Z.pow_succ_r by lia. f_equal. lia. }
      assert (0 < 2 ^ (- (j + 1) - 1)) by (apply Z.pow_pos_nonneg; lia).
      rewrite Z.pow_succ_r in Hd2 by lia.
      nia. }
  destruct (Qle_bool (pow2 k) x) eqn:E; [| lia].
  apply Qle_bool_iff in E.
  destruct (Z.eq_dec k (j + 1)) as [-> | ]; [| lia].
  exfalso. apply (Qlt_not_le _ _ Hlt E).
Qed.

Lemma below_threshold x n :
  (x <= inject_Z n)%Q -> n < 2 ^ 1024 - 2 ^ 970 -> Qle_bool overflow_threshold x = false.
Proof.
  intros Hx Hn. destruct (Qle_bool overflow_threshold x) eqn:E; [| reflexivity].
  apply Qle_bool_iff in E. unfold overflow_threshold in E.
  pose proof (Qle_trans _ _ _ E Hx) as H. rewrite <- Zle_Qle in H. lia.
Qed.

Lemma round64_defined x n :
  (x <= inject_Z n)%Q -> n < 2 ^ 1024 - 2 ^ 970 -> exists r, round64 x = Some r.
Proof.
  intros Hx Hn. unfold round64.
  rewrite (below_threshold (Qred x) n); [| now rewrite Qred_correct | exact Hn].
  destruct (Qnum (Qred x) =? 0); eauto.
Qed.

(** Rounding at a scale that is not positive: the result is the
    nearest multiple of the scale. *)
Lemma round64_scaled x j :
  (0 < x)%Q -> (x < pow2 (j + 1))%Q -> -1022 <= j <= 52 ->
  exists p r,
    2 ^ (52 - j) <= p /\ round64 x = Some r
    /\ (r == inject_Z (nearest_even (x * inject_Z p)) / inject_Z p)%Q.
Proof.
  intros H0 Hlt Hj. unfold round64.
  pose proof (Qred_correct x) as Hred. set (y := Qred x) in *.
  assert (Hy0 : (0 < y)%Q) by now rewrite Hred.
  assert (Hylt : (y < pow2 (j + 1))%Q) by now rewrite Hred.
  assert (Hy53 : (y <= inject_Z (2 ^ 53))%Q).
  { apply Qlt_le_weak. apply Qlt_le_trans with (pow2 (j + 1)); [exact Hylt |].
    change (inject_Z (2 ^ 53)) with (pow2 53). apply pow2_le. lia. }
  rewrite (below_threshold y (2 ^ 53)); [| exact Hy53 | reflexivity].
  destruct (Z.eqb_spec (Qnum y) 0) as [E | _].
  { exfalso. unfold Qlt in Hy0. cbn [Qnum Qden] in Hy0. lia. }
  set (c := Z.max (binade y - 52) (-1074)).
  assert (Hc : c <= j - 52).
  { pose proof (binade_le y j Hy0 Hylt). lia. }
  pose proof (pow2_nonpos c ltac:(lia)) as Hp.
  assert (Hpos : 2 ^ (52 - j) <= 2 ^ (- c)) by (apply Z.pow_le_mono_r; lia).
  exists (2 ^ (- c)). eexists. split; [exact Hpos |]. split; [reflexivity |].
  rewrite Qred_correct.
  assert (Hs : (y / pow2 c == x * inject_Z (2 ^ (- c)))%Q).
  { unfold Qdiv. now rewrite Hp, Qinv_involutive, Hred. }
  rewrite (nearest_even_int_eq _ _ Hs). unfold Qdiv. now rewrite Hp.
Qed.

Lemma round64_zero x : (x == 0)%Q -> round64 x = Some 0%Q.
Proof.
  intros H. now rewrite (round64_Qeq x 0 H).
Qed.

(** Rounding does not pass an integer that is a double. *)
Lemma round64_bounded x n :
  (0 <= x)%Q -> (x <= inject_Z n)%Q -> n < 2 ^ 53 ->
  exists r, round64 x = Some r /\ (0 <= r)%Q /\ (r <= inject_Z n)%Q.
Proof.
  intros H0 Hn Hlt.
  destruct (Qeq_dec x 0) as [E | E].
  - exists 0%Q. split; [now apply round64_zero |]. split; [apply Qle_refl |].
    now rewrite <- E.
  - assert (Hpos : (0 < x)%Q).
    { apply Qle_lteq in H0 as [H0 | H0]; [exact H0 |]. now destruct E. }
    destruct (round64_scaled x 52 Hpos) as (p & r & Hp & Hr & Hv); [| lia |].
    { apply Qle_lt_trans with (inject_Z n); [exact Hn |].
      change (pow2 (52 + 1)) with (inject_Z (2 ^ 53)). now rewrite <- Zlt_Qlt. }
    change (2 ^ (52 - 52)) with 1 in Hp.
    exists r. split; [exact Hr |].
    assert (Hip : (0 < inject_Z p)%Q)
      by (change 0%Q with (inject_Z 0); rewrite <- Zlt_Qlt; lia).
    assert (Hm0 : 0 <= nearest_even (x * inject_Z p)).
    { apply nearest_even_ge. change (inject_Z 0) with 0%Q.
      apply Qmult_le_0_compat; [exact H0 | now apply Qlt_le_weak]. }
    assert (Hmn : nearest_even (x * inject_Z p) <= n * p).
    { apply nearest_even_le. rewrite inject_Z_mult.
      apply Qmult_le_compat_r; [exact Hn | now apply Qlt_le_weak]. }
    rewrite Hv. split.
    + apply Qle_shift_div_l; [exact Hip |]. rewrite Qmult_0_l.
      change 0%Q with (inject_Z 0). now rewrite <- Zle_Qle.
    + apply Qle_shift_div_r; [exact Hip |]. rewrite <- inject_Z_mult.
      now rewrite <- Zle_Qle.
Qed.

(** An integer below [2 ** 53] is a double. *)
Lemma round64_int w :
  0 <= w < 2 ^ 53 -> exists r, round64 (inject_Z w) = Some r /\ (r == inject_Z w)%Q.
Proof.
  intros [H0 Hlt].
  destruct (Z.eq_dec w 0) as [-> | E].
  - exists 0%Q. split; reflexivity.
  - destruct (round64_scaled (inject_Z w) 52) as (p & r & Hp & Hr & Hv).
    + change 0%Q with (inject_Z 0). rewrite <- Zlt_Qlt. lia.
    + change (pow2 (52 + 1)) with (inject_Z (2 ^ 53)). now rewrite <- Zlt_Qlt.
    + lia.
    + change (2 ^ (52 - 52)) with 1 in Hp.
      exists r. split; [exact Hr |]. rewrite Hv.
      rewrite (nearest_even_int _ (w * p)) by (now rewrite inject_Z_mult).
      rewrite inject_Z_mult. field.
      intros H. apply (Qeq_bool_neq (inject_Z p) 0); [| exact H].
      unfold Qeq_bool. cbn [Qnum Qden inject_Z]. apply Z.eqb_neq. lia.
Qed.

(** The integer part of a float that is an integer, or lies between
    two. *)
Lemma floor_int r w : (r == inject_Z w)%Q -> Qnum r / Z.pos (Qden r) = w.
Proof.
  destruct r as [n d]. unfold Qeq. cbn [Qnum Qden inject_Z]. intros H.
  rewrite Z.mul_1_r in H. subst n. apply Z.div_mul. lia.
Qed.

Lemma floor_bounded r n :
  (0 <= r)%Q -> (r <= inject_Z n)%Q -> 0 <= Qnum r / Z.pos (Qden r) <= n.
Proof.
  destruct r as [a d]. unfold Qle. cbn [Qnum Qden inject_Z]. intros H0 Hn.
  rewrite Z.mul_1_r in *. split.
  - apply Z.div_pos; lia.
  - apply Z.div_le_upper_bound; lia.
Qed.

(** Rounding moves a number by half a unit of its scale at most. *)
Lemma round64_near x j :
  (0 <= x)%Q -> (x < pow2 (j + 1))%Q -> -1022 <= j <= 52 ->
  exists r,
    round64 x = Some r
    /\ (r - x <= 1 # Z.to_pos (2 ^ (53 - j)))%Q
    /\ (x - r <= 1 # Z.to_pos (2 ^ (53 - j)))%Q.
Proof.
  intros H0 Hlt Hj.
  assert (Hpow : 0 < 2 ^ (53 - j)) by (apply Z.pow_pos_nonneg; lia).
  destruct (Qeq_dec x 0) as [E | E].
  - exists 0%Q. split; [now apply round64_zero |]. rewrite E.
    split; unfold Qle; cbn; lia.
  - assert (Hpos : (0 < x)%Q).
    { apply Qle_lteq in H0 as [H0 | H0]; [exact H0 |]. now destruct E. }
    destruct (round64_scaled x j Hpos Hlt Hj) as (p & r & Hp & Hr & Hv).
    exists r. split; [exact Hr |].
    assert (Hp0 : 0 < 2 ^ (52 - j)) by (apply Z.pow_pos_nonneg; lia).
    assert (Hip : (0 < inject_Z p)%Q)
      by (change 0%Q with (inject_Z 0); rewrite <- Zlt_Qlt; lia).
    destruct (nearest_even_near (x * inject_Z p)) as [Hup Hdown].
    { apply Qmult_le_0_compat; [exact H0 | now apply Qlt_le_weak]. }
    set (m := inject_Z (nearest_even (x * inject_Z p))) in *.
    assert (Hhalf : ((1 # 2) / inject_Z p <= 1 # Z.to_pos (2 ^ (53 - j)))%Q).
    { apply Qle_shift_div_r; [exact Hip |].
      replace (2 ^ (53 - j)) with (2 * 2 ^ (52 - j))
        by (rewrite <- Z.pow_succ_r by lia; f_equal; lia).
      unfold Qle, Qmult. cbn [Qnum Qden inject_Z].
      rewrite Pos.mul_1_r, Z2Pos.id by lia. lia. }
    assert (Hr1 : (r - x == (m - x * inject_Z p) / inject_Z p)%Q).
    { rewrite Hv. field. intros H. rewrite H in Hip. exact (Qlt_irrefl _ Hip). }
    assert (Hr2 : (x - r == (x * inject_Z p - m) / inject_Z p)%Q).
    { rewrite Hv. field. intros H. rewrite H in Hip. exact (Qlt_irrefl _ Hip). }
    split.
    + rewrite Hr1. apply Qle_trans with ((1 # 2) / inject_Z p)%Q; [| exact Hhalf].
      unfold Qdiv. apply Qmult_le_compat_r; [exact Hup |].
      apply Qlt_le_weak. now apply Qinv_lt_0_compat.
    + rewrite Hr2. apply Qle_trans with ((1 # 2) / inject_Z p)%Q; [| exact Hhalf].
      unfold Qdiv. apply Qmult_le_compat_r; [exact Hdown |].
      apply Qlt_le_weak. now apply Qinv_lt_0_compat.
Qed.

(** [pow2] is the power of 2 of the rationals. *)
Lemma pow2_Qpower c : (pow2 c == 2 ^ c)%Q.
Proof.
  unfold pow2. destruct (Z.leb_spec 0 c).
  - now rewrite Zpower_Qpower.
  - rewrite Zpower_Qpower by lia. rewrite <- Qpower_opp.
    now replace (- - c) with c by lia.
Qed.

Lemma pow2_add a b : (pow2 (a + b) == pow2 a * pow2 b)%Q.
Proof.
  rewrite !pow2_Qpower. apply Qpower_plus. discriminate.
Qed.

(** The exponent of a positive number is not above it. *)
Lemma binade_lower x : (0 < x)%Q -> (pow2 (binade x) <= x)%Q.
Proof.
  intros Hx. unfold binade.
  set (k := Z.log2 (Qnum x) - Z.log2 (Z.pos (Qden x))).
  destruct (Qle_bool (pow2 k) x) eqn:E; [now apply Qle_bool_iff in E |].
  destruct x as [n d]. unfold Qlt in Hx. cbn [Qnum Qden] in *.
  rewrite Z.mul_1_r in Hx. cbn in Hx.
  destruct (Z.log2_spec n Hx) as [Hn1 _].
  destruct (Z.log2_spec (Z.pos d) ltac:(lia)) as [_ Hd2].
  pose proof (Z.log2_nonneg n). pose proof (Z.log2_nonneg (Z.pos d)).
  set (a := Z.log2 n) in *. set (e := Z.log2 (Z.pos d)) in *.
  replace (k - 1) with (a + - (e + 1)) by (unfold k; lia).
  rewrite pow2_add, (pow2_Qpower (- (e + 1))), Qpower_opp, <- pow2_Qpower.
  unfold pow2. destruct (Z.leb_spec 0 a); [| lia].
  destruct (Z.leb_spec 0 (e + 1)); [| lia].
  assert (He : 0 < 2 ^ (e + 1)) by (apply Z.pow_pos_nonneg; lia).
  apply Qle_shift_div_r.
  - change 0%Q with (inject_Z 0). now rewrite <- Zlt_Qlt.
  - unfold Qle, Qmult. cbn [Qnum Qden inject_Z].
    replace (Z.succ e) with (e + 1) in Hd2 by lia.
    assert (0 < 2 ^ a) by (apply Z.pow_pos_nonneg; lia).
    rewrite Pos.mul_1_r. nia.
Qed.

(** Rounding is not below a power of two that the number reaches. *)
Lemma round64_lower x k r :
  (pow2 k <= x)%Q -> -1022 <= k -> round64 x = Some r -> (pow2 k <= r)%Q.
Proof.
  intros Hk Hk0 Hr. unfold round64 in Hr.
  pose proof (Qred_correct x) as Hred. set (y := Qred x) in *.
  assert (Hy : (pow2 k <= y)%Q) by now rewrite Hred.
  assert (Hy0 : (0 < y)%Q) by (apply Qlt_le_trans with (pow2 k); [apply pow2_pos | exact Hy]).
  destruct (Qle_bool overflow_threshold y); [discriminate |].
  destruct (Z.eqb_spec (Qnum y) 0) as [E | _].
  { exfalso. unfold Qlt in Hy0. cbn [Qnum Qden] in Hy0. lia. }
  injection Hr as <-. rewrite Qred_correct.
  set (c := Z.max (binade y - 52) (-1074)).
  set (k' := Z.max k c).
  assert (Hk' : (pow2 k' <= y)%Q).
  { unfold k'. destruct (Z.max_spec k c) as [[Hlt ->] | [_ ->]]; [| exact Hy].
    assert (c = binade y - 52) as -> by (unfold c in *; lia).
    apply Qle_trans with (pow2 (binade y)); [apply pow2_le; lia | now apply binade_lower]. }
  apply Qle_trans with (pow2 k'); [apply pow2_le; unfold k'; lia |].
  assert (Hd : 0 <= k' - c) by (unfold k'; lia).
  assert (Hge : 2 ^ (k' - c) <= nearest_even (y / pow2 c)).
  { apply nearest_even_ge. apply Qle_shift_div_l; [apply pow2_pos |].
    assert (Hi : (inject_Z (2 ^ (k' - c)) == pow2 (k' - c))%Q).
    { unfold pow2. destruct (Z.leb_spec 0 (k' - c)); [reflexivity | lia]. }
    rewrite Hi, <- pow2_add. now replace (k' - c + c) with k' by lia. }
  replace k' with (k' - c + c) at 1 by lia. rewrite pow2_add.
  apply Qmult_le_compat_r; [| apply Qlt_le_weak, pow2_pos].
  unfold pow2 at 1. destruct (Z.leb_spec 0 (k' - c)); [| lia].
  now rewrite <- Zle_Qle.
Qed.

(** The integer part of a float is not below an integer that the float
    reaches. *)
Lemma floor_lower r n : (inject_Z n <= r)%Q -> n <= Qnum r / Z.pos (Qden r).
Proof.
  destruct r as [a d]. unfold Qle. cbn [Qnum Qden inject_Z]. intros H.
  rewrite Z.mul_1_r in H. apply Z.div_le_lower_bound; lia.
Qed.

End Float_facts.

Section Stable_sort.

Import ShowStatus Ledger.
Context {A : Type}.
Implicit Types (kx : Z * A) (l : list (Z * A)).

Lemma insert_keyed_front kx l :
  Forall (fun y => fst kx <= fst y) l -> insert_keyed kx l = kx :: l.
Proof.
  destruct 1 as [| y l Hy _]; simpl; [reflexivity |].
  destruct (Z.ltb_spec (fst y) (fst kx)); [lia | reflexivity].
Qed.

Lemma insert_keyed_skip kx l1 l2 :
  Forall (fun y => fst y < fst kx) l1 ->
  insert_keyed kx (l1 ++ l2) = (l1 ++ insert_keyed kx l2)%list.
Proof.
  induction 1 as [| y l1 Hy _ IH]; simpl; [reflexivity |].
  destruct (Z.ltb_spec (fst y) (fst kx)); [| lia].
  now rewrite IH.
Qed.

Lemma buckets_keys rs l :
  Forall (fun y => In (fst y) rs) (buckets rs l).
Proof.
  apply List.Forall_forall. intros y Hy.
  apply in_flat_map in Hy as (r & Hr & Hy).
  apply filter_In in Hy as [_ Hy].
  apply Z.eqb_eq in Hy. now subst r.
Qed.

Lemma buckets_cons_other rs kx l :
  ~ In (fst kx) rs -> buckets rs (kx :: l) = buckets rs l.
Proof.
  induction rs as [| r rs IH]; intros Hn; [reflexivity |].
  change (buckets (r :: rs) l)
    with (List.filter (fun y => fst y =? r) l ++ buckets rs l)%list.
  change (buckets (r :: rs) (kx :: l))
    with (List.filter (fun y => fst y =? r) (kx :: l) ++ buckets rs (kx :: l))%list.
  simpl List.filter.
  destruct (Z.eqb_spec (fst kx) r) as [E | _].
  - exfalso. apply Hn. now left.
  - rewrite IH; [reflexivity |]. intros H. apply Hn. now right.
Qed.

(** Inserting into the buckets gives the buckets of the longer list. *)
Lemma insert_keyed_buckets rs kx l :
  StronglySorted Z.lt rs -> In (fst kx) rs ->
  insert_keyed kx (buckets rs l) = buckets rs (kx :: l).
Proof.
  induction 1 as [| r rs Hs IH Hr]; intros Hin; [destruct Hin |].
  change (buckets (r :: rs) l)
    with (List.filter (fun y => fst y =? r) l ++ buckets rs l)%list.
  change (buckets (r :: rs) (kx :: l))
    with (List.filter (fun y => fst y =? r) (kx :: l) ++ buckets rs (kx :: l))%list.
  simpl List.filter.
  rewrite List.Forall_forall in Hr.
  destruct (Z.eqb_spec (fst kx) r) as [E | NE].
  - rewrite buckets_cons_other by (intros H; apply Hr in H; lia).
    apply insert_keyed_front, Forall_app. split.
    + apply List.Forall_forall. intros y Hy. apply filter_In in Hy as [_ Hy].
      apply Z.eqb_eq in Hy. lia.
    + pose proof (buckets_keys rs l) as Hk.
      rewrite List.Forall_forall in Hk. apply List.Forall_forall.
      intros y Hy. apply Hk, Hr in Hy. lia.
  - destruct Hin as [-> | Hin]; [congruence |].
    rewrite insert_keyed_skip, IH by
      (trivial; apply List.Forall_forall; intros y Hy;
       apply filter_In in Hy as [_ Hy]; apply Z.eqb_eq in Hy;
       apply Hr in Hin; lia).
    reflexivity.
Qed.

Lemma sort_keyed_buckets rs l :
  StronglySorted Z.lt rs -> Forall (fun y => In (fst y) rs) l ->
  sort_keyed l = buckets rs l.
Proof.
  intros Hs. induction 1 as [| kx l Hk _ IH]; simpl.
  - unfold buckets. induction rs; simpl; [reflexivity |].
    apply IHrs. now inversion Hs.
  - rewrite IH. now apply insert_keyed_buckets.
Qed.

End Stable_sort.

Section Selection.

Import ShowStatus Ledger.

Lemma is_failing_fails f : is_obj f = true -> is_failing f = Ok (fails f).
Proof.
  destruct f; try discriminate. intros _.
  unfold is_failing, fails, passes, field. simpl.
  destruct (lookup_field "passes" fields); reflexivity.
Qed.

Lemma rank_of_priority_get p :
  hashable p = true -> priority_order_get p 4 = Ok (rank_of_priority p).
Proof.
  destruct p; try discriminate; intros _; try reflexivity.
  unfold priority_order_get, rank_of_priority, priority_order, assoc_Z.
  repeat (destruct (String.eqb s _); [reflexivity |]). reflexivity.
Qed.

Lemma sort_key_rank f :
  selectable f = true -> fails f = true -> sort_key f = Ok (rank f).
Proof.
  unfold selectable, fails. intros Hs Hf.
  apply andb_true_iff in Hs as [Ho Hp].
  destruct (passes f); [discriminate |]. simpl in Hp.
  destruct f; try discriminate.
  unfold sort_key, rank, field in *. simpl.
  destruct (lookup_field "priority" fields) as [p |].
  - now apply rank_of_priority_get.
  - reflexivity.
Qed.

Lemma rank_of_priority_range p : In (rank_of_priority p) ranks.
Proof.
  unfold ranks. destruct p; simpl; auto 6.
  repeat (destruct (String.eqb s _); [auto 6 |]). auto 6.
Qed.

Lemma rank_range f : In (rank f) ranks.
Proof.
  unfold rank. destruct (field "priority" f).
  - apply rank_of_priority_range.
  - unfold ranks. simpl. auto 6.
Qed.

Lemma ranks_sorted : StronglySorted Z.lt ranks.
Proof.
  unfold ranks. repeat constructor; lia.
Qed.

Lemma combine_keys (rk : json -> Z) (l : list json) :
  combine (map rk l) l = map (fun f => (rk f, f)) l.
Proof.
  induction l as [| f l IH]; simpl; [reflexivity | now rewrite IH].
Qed.

Lemma filter_keyed (rk : json -> Z) (r : Z) (l : list json) :
  map snd (List.filter (fun y => fst y =? r) (map (fun f => (rk f, f)) l))
  = List.filter (fun f => rk f =? r) l.
Proof.
  induction l as [| f l IH]; simpl; [reflexivity |].
  destruct (rk f =? r); simpl; now rewrite IH.
Qed.

Lemma buckets_ordered_by (rk : json -> Z) (l : list json) :
  map snd (buckets ranks (map (fun f => (rk f, f)) l)) = ordered_by rk l.
Proof.
  unfold buckets, ordered_by, ranks. simpl flat_map.
  rewrite !map_app, !filter_keyed. reflexivity.
Qed.

(** The sort of the code is the stable order by rank. *)
Lemma sorted_is_ordered (l : list json) :
  map snd (sort_keyed (combine (map rank l) l)) = ordered_by rank l.
Proof.
  rewrite combine_keys.
  rewrite (sort_keyed_buckets ranks) by
    (try apply ranks_sorted; apply List.Forall_forall; intros y Hy;
     apply in_map_iff in Hy as (f & <- & _); apply rank_range).
  apply buckets_ordered_by.
Qed.

Lemma head_slice_to {A : Type} (n : Z) (l : list A) :
  0 < n -> head (slice_to n l) = head l.
Proof.
  intros Hn. unfold slice_to.
  destruct (Z.leb_spec 0 n); [| lia].
  destruct (Z.to_nat n) eqn:E; [lia |]. now destruct l.
Qed.

Lemma get_next_features_ordered data fs limit :
  features_of data fs ->
  Forall (fun f => selectable f = true) fs ->
  get_next_features data limit
  = Ok (slice_to limit (ordered_by rank (List.filter fails fs))).
Proof.
  intros Hd Hfs. unfold get_next_features, features_of in *.
  rewrite Hd. simpl.
  rewrite (filterM_pure is_failing fails) by
    (eapply List.Forall_impl; [| exact Hfs]; intros f Hf; simpl in Hf;
     apply is_failing_fails; unfold selectable in Hf;
     now apply andb_true_iff in Hf as [? _]).
  simpl.
  rewrite (mapM_pure sort_key rank).
  - simpl. now rewrite sorted_is_ordered.
  - apply List.Forall_forall. intros f Hf. apply filter_In in Hf as [Hin Hf].
    rewrite List.Forall_forall in Hfs. now apply sort_key_rank; [apply Hfs |].
Qed.

End Selection.

Section Next_feature.

Import ShowStatus Ledger.

(** Claim C1, as the code has it.  On a ledger whose features are
    records with hashable priorities, [NextFeature] keeps the features
    whose [passes] is absent or false, orders them stably by rank
    (critical 0, high 1, medium 2, low 3, any other value 4, and a missing
    priority ranked as low, 3), ties keeping the ledger order, and returns
    the first entry, or nothing when no failing feature remains;
    [get_next_features] returns that order cut to its limit.  On the
    ledger of the scenario it returns F002. *)
Theorem next_feature_selects_by_rank :
  (forall data fs,
     features_of data fs ->
     Forall (fun f => selectable f = true) fs ->
     NextFeature data = Ok (select_next rank fs)
     /\ forall limit,
          get_next_features data limit
          = Ok (slice_to limit (ordered_by rank (List.filter fails fs))))
  /\ NextFeature scenario = Ok (Some F002).
Proof.
  split; [| reflexivity].
  intros data fs Hd Hfs. split.
  - unfold NextFeature.
    rewrite (get_next_features_ordered data fs) by assumption.
    simpl. unfold select_next. now rewrite head_slice_to.
  - intros limit. now apply get_next_features_ordered.
Qed.

Lemma next_feature_selects_by_rank_witness :
  features_of unranked [G001; G002]
  /\ Forall (fun f => selectable f = true) [G001; G002]
  /\ NextFeature unranked = Ok (Some G001).
Proof.
  assert (Hd : features_of unranked [G001; G002]) by reflexivity.
  assert (Hfs : Forall (fun f => selectable f = true) [G001; G002])
    by (repeat constructor).
  split; [exact Hd |]. split; [exact Hfs |].
  exact (proj1 (proj1 next_feature_selects_by_rank unranked [G001; G002] Hd Hfs)).
Defined.

(** Claim C1 as stated fails: with a missing priority ranked 4, the
    feature of priority low would come first, but the code returns the
    feature without a priority, which it ranks as low and which comes
    earlier in the ledger. *)
Lemma next_feature_missing_priority_counterexample :
  NextFeature unranked = Ok (Some G001)
  /\ select_next claimed_rank [G001; G002] = Some G002
  /\ NextFeature unranked <> Ok (select_next claimed_rank [G001; G002]).
Proof.
  split; [reflexivity |]. split; [reflexivity |]. discriminate.
Qed.

End Next_feature.

(** ** Properties of the update *)

Section Dict_facts.

Implicit Types (k : string) (v : json) (kvs : list (string * json)).

Lemma lookup_set_eq k v kvs : lookup_field k (set_field k v kvs) = Some v.
Proof.
  induction kvs as [| [k' v'] kvs IH]; simpl.
  - now rewrite String.eqb_refl.
  - destruct (String.eqb k k') eqn:E; simpl; rewrite E; [reflexivity | exact IH].
Qed.

Lemma lookup_set_ne k k' v kvs :
  k <> k' -> lookup_field k' (set_field k v kvs) = lookup_field k' kvs.
Proof.
  intros Hne. induction kvs as [| [k0 v0] kvs IH]; simpl.
  - destruct (String.eqb_spec k' k); [congruence | reflexivity].
  - destruct (String.eqb_spec k k0) as [-> | _]; simpl.
    + destruct (String.eqb_spec k' k0); [congruence | reflexivity].
    + now rewrite IH.
Qed.

Lemma set_set_eq k v1 v2 kvs :
  set_field k v2 (set_field k v1 kvs) = set_field k v2 kvs.
Proof.
  induction kvs as [| [k' v'] kvs IH]; simpl.
  - now rewrite String.eqb_refl.
  - destruct (String.eqb k k') eqn:E; simpl; rewrite E; [reflexivity | now rewrite IH].
Qed.

End Dict_facts.

Section Counting.

Import Ledger.

Lemma count_split (fs : list json) :
  count passes fs + count fails fs = Z.of_nat (List.length fs).
Proof.
  unfold count, fails. induction fs as [| f fs IH]; simpl; [reflexivity |].
  destruct (passes f); simpl; lia.
Qed.

End Counting.

Section Metadata.

Import UpdateFeature Ledger.

Lemma has_passes_passes f : is_obj f = true -> has_passes f = Ok (passes f).
Proof.
  destruct f; try discriminate. intros _.
  unfold has_passes, passes, field. simpl.
  destruct (lookup_field "passes" fields); reflexivity.
Qed.

Lemma lacks_passes_fails f : is_obj f = true -> lacks_passes f = Ok (fails f).
Proof.
  destruct f; try discriminate. intros _.
  unfold lacks_passes, fails, passes, field. simpl.
  destruct (lookup_field "passes" fields); reflexivity.
Qed.

Lemma count_where_pure (c : json -> result bool) (q : json -> bool) (fs : list json) :
  Forall (fun f => c f = Ok (q f)) fs -> count_where c fs = Ok (count q fs).
Proof.
  intros H. unfold count_where. now rewrite (filterM_pure c q).
Qed.

Lemma set_metadata_obj kvs m k x :
  lookup_field "metadata" kvs = Some (JObj m) ->
  set_metadata (JObj kvs) k x
  = Ok (JObj (set_field "metadata" (JObj (set_field k x m)) kvs)).
Proof.
  intros H. unfold set_metadata. simpl. rewrite H. reflexivity.
Qed.

Lemma update_metadata_absent now kvs :
  lookup_field "metadata" kvs = None ->
  update_metadata now (JObj kvs)
  = update_metadata now (JObj (set_field "metadata" (JObj []) kvs)).
Proof.
  intros H. unfold update_metadata. simpl py_contains.
  rewrite H, lookup_set_eq. reflexivity.
Qed.

Lemma features_of_set_metadata kvs x fs :
  features_of (JObj kvs) fs ->
  features_of (JObj (set_field "metadata" x kvs)) fs.
Proof.
  unfold features_of. simpl. now rewrite lookup_set_ne by discriminate.
Qed.

Lemma update_metadata_present now kvs m fs :
  features_of (JObj kvs) fs ->
  Forall (fun f => is_obj f = true) fs ->
  lookup_field "metadata" kvs = Some (JObj m) ->
  update_metadata now (JObj kvs)
  = Ok (JObj (set_field "metadata" (recomputed now m fs) kvs)).
Proof.
  intros Hd Hfs Hm. unfold update_metadata.
  simpl py_contains. rewrite Hm. cbn [bind].
  unfold features_of in Hd. rewrite Hd. cbn [bind py_iter py_len].
  rewrite (count_where_pure has_passes passes), (count_where_pure lacks_passes fails)
    by (eapply List.Forall_impl; [| exact Hfs]; intros f Hf;
        first [now apply has_passes_passes | now apply lacks_passes_fails]).
  cbn [bind].
  rewrite (set_metadata_obj kvs m) by assumption. cbn [bind].
  repeat (rewrite (set_metadata_obj _ _ _ _ (lookup_set_eq _ _ _)); cbn [bind]).
  rewrite !set_set_eq. reflexivity.
Qed.

Lemma update_metadata_refreshed now data fs :
  features_of data fs ->
  Forall (fun f => is_obj f = true) fs ->
  metadata_ok data = true ->
  update_metadata now data = Ok (refreshed now data fs).
Proof.
  intros Hd Hfs Hm. destruct data as [| | | | | kvs]; try discriminate.
  unfold metadata_ok, refreshed, metadata_fields, field in *.
  destruct (lookup_field "metadata" kvs) as [m |] eqn:E.
  - destruct m; try discriminate. now apply update_metadata_present.
  - rewrite update_metadata_absent by assumption.
    rewrite (update_metadata_present now _ [] fs).
    + now rewrite set_set_eq.
    + now apply features_of_set_metadata.
    + assumption.
    + apply lookup_set_eq.
Qed.

End Metadata.

Section Path_facts.

Import UpdateFeature Ledger.

Implicit Types (s t : string).

Lemma append_cons c s t :
  String.append (String c s) t = String c (String.append s t).
Proof. reflexivity. Qed.

Lemma append_assoc s t u :
  String.append (String.append s t) u = String.append s (String.append t u).
Proof.
  induction s as [| c s IH]; [reflexivity |].
  now rewrite !append_cons, IH.
Qed.

Lemma length_append s t :
  String.length (String.append s t) = (String.length s + String.length t)%nat.
Proof. induction s as [| c s IH]; simpl; [reflexivity | now rewrite IH]. Qed.

Lemma rfind_dot_append s t i :
  rfind_dot t = Some i ->
  rfind_dot (String.append s t) = Some (String.length s + i)%nat.
Proof.
  intros H. induction s as [| c s IH]; simpl; [exact H | now rewrite IH].
Qed.

Lemma rfind_dot_bound s i : rfind_dot s = Some i -> (i < String.length s)%nat.
Proof.
  revert i. induction s as [| c s IH]; simpl; [discriminate |].
  intros i. destruct (rfind_dot s) as [j |].
  - intros [= <-]. specialize (IH j eq_refl). lia.
  - destruct (Ascii.eqb c "."); [intros [= <-]; lia | discriminate].
Qed.

Lemma substring_prefix_append s t :
  String.substring 0 (String.length s) (String.append s t) = s.
Proof. induction s as [| c s IH]; simpl; [now destruct t | now rewrite IH]. Qed.

Lemma length_substring_prefix s n :
  (n <= String.length s)%nat -> String.length (String.substring 0 n s) = n.
Proof.
  revert n. induction s as [| c s IH]; intros n Hn; simpl in *.
  - destruct n; [reflexivity | lia].
  - destruct n as [| n]; simpl; [reflexivity |]. rewrite IH; lia.
Qed.

Lemma length_substring s n m :
  (n + m <= String.length s)%nat -> String.length (String.substring n m s) = m.
Proof.
  revert n m. induction s as [| c s IH]; intros n m H; simpl in *.
  - destruct n, m; simpl; lia.
  - destruct n as [| n].
    + destruct m as [| m]; simpl; [reflexivity |]. rewrite IH; lia.
    + apply IH. lia.
Qed.

(** The backup path is never the path itself. *)
Lemma with_suffix_fresh p q : with_suffix p backup_suffix = Ok q -> q <> p.
Proof.
  unfold with_suffix, backup_suffix. simpl.
  destruct (String.eqb (name p) ""); [discriminate |].
  intros [= <-] Heq.
  destruct p as [dir nm]. simpl in *. injection Heq as Heq.
  assert (Hlen := f_equal String.length Heq).
  rewrite length_append in Hlen. simpl in Hlen.
  unfold suffix in *.
  destruct (rfind_dot nm) as [i |] eqn:E.
  - pose proof (rfind_dot_bound _ _ E) as Hi.
    destruct ((0 <? i)%nat && (i <? String.length nm - 1)%nat).
    + rewrite length_substring in Heq, Hlen by lia.
      replace (String.length nm - (String.length nm - i))%nat with i in * by lia.
      rewrite <- Heq in E.
      rewrite (rfind_dot_append _ ".json.bak" 5) in E by reflexivity.
      rewrite length_substring_prefix in E by lia.
      injection E as E. lia.
    + simpl in Hlen. rewrite Nat.sub_0_r, length_substring_prefix in Hlen; lia.
  - simpl in Hlen. rewrite Nat.sub_0_r, length_substring_prefix in Hlen; lia.
Qed.

(** A name that ends in [.json] gets [.bak] appended. *)
Lemma with_suffix_json dir stem :
  stem <> "" ->
  with_suffix (MkPath dir (String.append stem ".json")) backup_suffix
  = Ok (MkPath dir (String.append (String.append stem ".json") ".bak")).
Proof.
  intros Hs. unfold with_suffix, backup_suffix. simpl.
  destruct (String.eqb_spec (String.append stem ".json") "") as [E | _].
  { destruct stem; [congruence | discriminate]. }
  assert (Hsfx : suffix (String.append stem ".json") = ".json").
  { unfold suffix. rewrite (rfind_dot_append stem ".json" 0) by reflexivity.
    rewrite length_append, Nat.add_0_r. simpl String.length.
    destruct stem as [| c stem]; [congruence |]. simpl String.length.
    replace ((0 <? S (String.length stem))%nat) with true by (symmetry; apply Nat.ltb_lt; lia).
    replace ((S (String.length stem) <? S (String.length stem) + 5 - 1)%nat) with true
      by (symmetry; apply Nat.ltb_lt; lia).
    simpl andb. cbv iota.
    replace (S (String.length stem) + 5 - S (String.length stem))%nat with 5%nat by lia.
    clear. change (S (String.length stem)) with (String.length (String c stem)).
    generalize (String c stem) as s. intros s.
    induction s as [| d s IH]; simpl; [reflexivity | exact IH]. }
  rewrite Hsfx, length_append. simpl String.length.
  replace (String.length stem + 5 - 5)%nat with (String.length stem) by lia.
  rewrite substring_prefix_append.
  now rewrite append_assoc.
Qed.

Lemma with_suffix_total p :
  name p <> "" -> exists q, with_suffix p backup_suffix = Ok q.
Proof.
  intros Hn. unfold with_suffix, backup_suffix. simpl.
  destruct (String.eqb_spec (name p) ""); [congruence |]. eauto.
Qed.

End Path_facts.

Section Lookup.

Import UpdateFeature Ledger.

Lemma find_from_pure i fs fid :
  Forall (fun f => is_obj f = true) fs ->
  find_from i fs fid = Ok (feature_from i fid fs).
Proof.
  intros H. revert i. induction H as [| f fs Hf _ IH]; intros i; simpl; [reflexivity |].
  destruct f; try discriminate. unfold has_id, field. simpl.
  destruct (lookup_field "id" fields) as [v |]; simpl.
  - destruct (py_eq v (JStr fid)); [reflexivity | apply IH].
  - apply IH.
Qed.

Lemma find_feature_pure data fs fid :
  features_of data fs ->
  Forall (fun f => is_obj f = true) fs ->
  find_feature data fid = Ok (feature_with_id fid fs).
Proof.
  intros Hd Hfs. unfold find_feature, features_of in *. rewrite Hd. simpl.
  now apply find_from_pure.
Qed.

Lemma feature_from_lookup i fid fs j f :
  feature_from i fid fs = Some (j, f) ->
  (i <= j)%nat /\ fs !! (j - i)%nat = Some f /\ has_id fid f = true.
Proof.
  revert i. induction fs as [| g fs IH]; intros i; simpl; [discriminate |].
  destruct (has_id fid g) eqn:E.
  - intros [= <- <-]. rewrite Nat.sub_diag. auto.
  - intros H. apply IH in H as (Hle & Hl & Hid).
    split; [lia |]. split; [| assumption].
    replace (j - i)%nat with (S (j - S i)) by lia. exact Hl.
Qed.

Lemma feature_with_id_lookup fid fs j f :
  feature_with_id fid fs = Some (j, f) -> fs !! j = Some f /\ has_id fid f = true.
Proof.
  intros H. apply feature_from_lookup in H as (_ & Hl & Hid).
  now rewrite Nat.sub_0_r in Hl.
Qed.

Lemma load_feature_list_ok w path data :
  files w !! path = Some (Doc data) ->
  io_fails w OpenRead = false ->
  load_feature_list path w = (Ok data, w).
Proof.
  intros Hf Hio. unfold load_feature_list, io_bind, read_file, lift.
  now rewrite Hf, Hio.
Qed.

Lemma current_status_get f :
  is_obj f = true -> py_get f "passes" (JBool false) = Ok (current_status f).
Proof.
  destruct f; try discriminate. intros _. unfold current_status, field. simpl.
  now destruct (lookup_field "passes" fields).
Qed.

End Lookup.

Section Noop.

Import UpdateFeature Ledger.

Lemma update_same_status w path data fs fid new_passes dry_run i f :
  ledger_at w path data fs ->
  io_fails w OpenRead = false ->
  feature_with_id fid fs = Some (i, f) ->
  same_status f new_passes = true ->
  update_feature_status path fid new_passes dry_run w
  = (Ok true, printed [AlreadyMarked fid new_passes] w).
Proof.
  intros (Hfile & Hd & Hfs) Hio Hfind Hsame.
  unfold update_feature_status.
  rewrite (load_feature_list_ok w path data) by assumption.
  unfold io_bind at 1. unfold lift at 1.
  rewrite (find_feature_pure data fs) by assumption. rewrite Hfind.
  apply feature_with_id_lookup in Hfind as [Hl _].
  assert (Hobj : is_obj f = true).
  { rewrite List.Forall_forall in Hfs. apply Hfs.
    apply list_elem_of_In. eapply list_elem_of_lookup_2. exact Hl. }
  unfold io_bind at 1. unfold lift at 1.
  rewrite current_status_get by assumption.
  unfold same_status in Hsame. rewrite Hsame.
  reflexivity.
Qed.

End Noop.

Section Change.

Import UpdateFeature Ledger.

Lemma insert_as_alter {A : Type} (g : A -> A) (l : list A) (i : nat) (x : A) :
  l !! i = Some x -> <[i := g x]> l = alter g i l.
Proof.
  revert i. induction l as [| y l IH]; intros [| i]; simpl; try discriminate.
  - now intros [= ->].
  - intros H. f_equal. now apply IH.
Qed.

Lemma set_passes_ok data fs i f new_passes :
  features_of data fs -> fs !! i = Some f -> is_obj f = true ->
  set_passes data i new_passes = Ok (with_feature_status data fs i new_passes).
Proof.
  intros Hd Hl Hobj. destruct data as [| | | | | kvs]; try discriminate.
  unfold features_of in Hd. simpl in Hd.
  unfold set_passes, with_feature_status. simpl py_getitem.
  destruct (lookup_field "features" kvs) as [v |].
  - injection Hd as ->. cbn [bind py_index]. rewrite Hl. cbn [bind].
    destruct f; try discriminate. cbn [py_setitem bind py_setindex].
    apply lookup_lt_Some in Hl as Hlt.
    destruct (Nat.ltb_spec i (List.length fs)); [| lia].
    cbn [bind]. do 3 f_equal.
    now rewrite <- (insert_as_alter (with_passes new_passes) fs i (JObj fields)).
  - injection Hd as <-. discriminate.
Qed.

Lemma save_feature_list_ok w path data c bak :
  files w !! path = Some c ->
  no_faults (io_fails w) ->
  with_suffix path backup_suffix = Ok bak ->
  save_feature_list path data true w
  = (Ok tt, with_files (<[path := Doc data]> (<[bak := c]> (files w))) w).
Proof.
  intros Hf Hio Hb. unfold save_feature_list, io_bind, lift, shutil_copy, write_json.
  rewrite Hb, Hf. simpl.
  destruct (decide (path = bak)) as [E | _].
  { symmetry in E. now apply with_suffix_fresh in Hb. }
  rewrite !Hio. simpl. rewrite !Hio. reflexivity.
Qed.

Lemma is_obj_with_passes b f : is_obj (with_passes b f) = is_obj f.
Proof. now destruct f. Qed.

Lemma features_of_with_status data fs i b :
  features_of data fs -> features_of (with_feature_status data fs i b)
                                     (alter (with_passes b) i fs).
Proof.
  destruct data; try discriminate. intros _.
  unfold features_of, with_feature_status. simpl. now rewrite lookup_set_eq.
Qed.

Lemma metadata_ok_with_status data fs i b :
  metadata_ok (with_feature_status data fs i b) = metadata_ok data.
Proof.
  destruct data; try reflexivity.
  unfold metadata_ok, with_feature_status, field.
  now rewrite lookup_set_ne by discriminate.
Qed.

Lemma Forall_obj_alter fs i b :
  Forall (fun f => is_obj f = true) fs ->
  Forall (fun f => is_obj f = true) (alter (with_passes b) i fs).
Proof.
  intros H. revert i. induction H as [| f fs Hf Hfs IH]; intros [| i]; simpl.
  - constructor.
  - constructor.
  - constructor; [now rewrite is_obj_with_passes | exact Hfs].
  - constructor; [exact Hf | apply IH].
Qed.

(** The metadata the mutation leaves, read back. *)
Lemma counter_refreshed now data fs :
  is_obj data = true ->
  counter "total_features" (refreshed now data fs) = Some (Z.of_nat (List.length fs))
  /\ counter "passing" (refreshed now data fs) = Some (count passes fs)
  /\ counter "failing" (refreshed now data fs) = Some (count fails fs).
Proof.
  destruct data; try discriminate. intros _.
  unfold counter, refreshed, recomputed, field.
  rewrite lookup_set_eq.
  repeat split;
    repeat (first [rewrite lookup_set_eq | rewrite lookup_set_ne by discriminate]);
    reflexivity.
Qed.

Lemma features_of_refreshed now data fs fs' :
  features_of data fs -> features_of (refreshed now data fs') fs.
Proof.
  destruct data; try discriminate. intros H.
  unfold refreshed. now apply features_of_set_metadata.
Qed.

End Change.

Section Saving.

Import UpdateFeature Ledger.

Lemma field_or_get f k d :
  is_obj f = true -> py_get f k d = Ok (field_or k d f).
Proof.
  destruct f; try discriminate. intros _. reflexivity.
Qed.

(** Up to the point of the change. *)
Lemma update_reaches_change w path data fs fid new_passes dry_run i f :
  ledger_at w path data fs ->
  io_fails w OpenRead = false ->
  feature_with_id fid fs = Some (i, f) ->
  same_status f new_passes = false ->
  update_feature_status path fid new_passes dry_run w
  = if dry_run
    then (Ok true, printed (change_preview fid f new_passes ++ [DryRunNoChanges]) w)
    else apply_change path data fid i new_passes
                      (printed (change_preview fid f new_passes) w).
Proof.
  intros (Hfile & Hd & Hfs) Hio Hfind Hsame.
  unfold update_feature_status.
  rewrite (load_feature_list_ok w path data) by assumption.
  unfold io_bind at 1. unfold lift at 1.
  rewrite (find_feature_pure data fs) by assumption. rewrite Hfind.
  apply feature_with_id_lookup in Hfind as [Hl _].
  assert (Hobj : is_obj f = true).
  { rewrite List.Forall_forall in Hfs. apply Hfs.
    apply list_elem_of_In. eapply list_elem_of_lookup_2. exact Hl. }
  unfold io_bind at 1. unfold lift at 1.
  rewrite current_status_get by assumption.
  unfold same_status in Hsame. rewrite Hsame.
  unfold io_bind, lift, print, ret.
  rewrite !field_or_get by assumption.
  cbn [stdout with_stdout files clock io_fails].
  unfold printed, change_preview, with_stdout.
  destruct dry_run.
  - cbn [stdout]. repeat rewrite <- app_assoc. reflexivity.
  - repeat rewrite <- app_assoc. reflexivity.
Qed.

(** What [save_feature_list] does and leaves, for every way the
    operating system may refuse. *)
Lemma save_feature_list_cases w path data c bak :
  files w !! path = Some c ->
  with_suffix path backup_suffix = Ok bak ->
  save_feature_list path data true w
  = if io_fails w CopyOpen then (Raise OSError, w)
    else if io_fails w CopyData
         then (Raise OSError, with_files (<[bak := Damaged]> (files w)) w)
    else if io_fails w OpenWrite
         then (Raise OSError, with_files (<[bak := c]> (files w)) w)
    else if io_fails w Dump
         then (Raise OSError,
               with_files (<[path := Damaged]> (<[bak := c]> (files w))) w)
    else (Ok tt, with_files (<[path := Doc data]> (<[bak := c]> (files w))) w).
Proof.
  intros Hf Hb. unfold save_feature_list, io_bind, lift, shutil_copy, write_json.
  rewrite Hb, Hf.
  destruct (decide (path = bak)) as [E | _].
  { symmetry in E. now apply with_suffix_fresh in Hb. }
  destruct (io_fails w CopyOpen) eqn:E1; [reflexivity |].
  destruct (io_fails w CopyData) eqn:E2; [reflexivity |].
  cbn [io_fails with_files files].
  destruct (io_fails w OpenWrite) eqn:E3; [reflexivity |].
  destruct (io_fails w Dump) eqn:E4; reflexivity.
Qed.

(** The change itself: the new document is computed, then saved, then
    reported. *)
Lemma apply_change_saves w path data fs fid new_passes i f bak :
  features_of data fs ->
  Forall (fun f => is_obj f = true) fs ->
  metadata_ok data = true ->
  fs !! i = Some f ->
  with_suffix path backup_suffix = Ok bak ->
  apply_change path data fid i new_passes w
  = match save_feature_list path (mutated (clock w) data fs i new_passes) true w with
    | (Ok _, w') =>
        (Ok true,
         printed (change_report fid new_passes bak
                    (alter (with_passes new_passes) i fs)) w')
    | (Raise e, w') => (Raise e, w')
    end.
Proof.
  intros Hd Hfs Hm Hl Hb.
  assert (Hobj : is_obj f = true).
  { rewrite List.Forall_forall in Hfs. apply Hfs.
    apply list_elem_of_In. eapply list_elem_of_lookup_2. exact Hl. }
  assert (Hdata : is_obj data = true) by (destruct data; try discriminate; reflexivity).
  unfold apply_change.
  unfold io_bind at 1. unfold lift at 1.
  rewrite (set_passes_ok data fs i f) by assumption.
  unfold io_bind at 1.
  unfold io_bind at 1. unfold lift at 1.
  rewrite (update_metadata_refreshed _ _ (alter (with_passes new_passes) i fs))
    by (first [ now apply features_of_with_status
              | now apply Forall_obj_alter
              | now rewrite metadata_ok_with_status ]).
  fold (mutated (clock w) data fs i new_passes).
  unfold io_bind at 1.
  destruct (save_feature_list path (mutated (clock w) data fs i new_passes) true w)
    as [[[] | e] w'] eqn:Es; [| reflexivity].
  unfold io_bind, lift, print, ret. rewrite Hb.
  assert (Hmeta : py_get (mutated (clock w) data fs i new_passes) "metadata" (JObj [])
                  = Ok (recomputed (clock w)
                          (metadata_fields (with_feature_status data fs i new_passes))
                          (alter (with_passes new_passes) i fs))).
  { destruct data; try discriminate.
    unfold mutated, refreshed, with_feature_status. simpl py_get.
    now rewrite lookup_set_eq. }
  rewrite Hmeta. unfold recomputed. simpl py_get.
  repeat (first [rewrite lookup_set_eq | rewrite lookup_set_ne by discriminate]).
  unfold printed, change_report, with_stdout. cbn [stdout files clock io_fails].
  repeat rewrite <- app_assoc. reflexivity.
Qed.

End Saving.

Section Not_found.

Import UpdateFeature Ledger.

Lemma printed_printed a b w : printed b (printed a w) = printed (a ++ b) w.
Proof.
  unfold printed, with_stdout. cbn [stdout files clock io_fails].
  now rewrite <- app_assoc.
Qed.

Lemma printed_nil w : printed [] w = w.
Proof.
  destruct w. unfold printed, with_stdout. cbn [stdout files clock io_fails].
  now rewrite app_nil_r.
Qed.

Lemma print_available_line f w :
  is_obj f = true -> description_ok f = true ->
  print_available f w = (Ok tt, printed [available_line f] w).
Proof.
  intros Ho Hd. unfold print_available, io_bind, lift, print.
  rewrite !field_or_get by assumption.
  unfold description_ok in Hd. unfold available_line, short_description.
  assert (Hp : truthy (field_or "passes" JNull f) = passes f).
  { unfold field_or, passes. now destruct (field "passes" f). }
  rewrite Hp.
  destruct (field_or "description" (JStr "") f); try discriminate; reflexivity.
Qed.

Lemma for_each_available l w :
  Forall (fun f => is_obj f = true) l ->
  Forall (fun f => description_ok f = true) l ->
  for_each print_available l w = (Ok tt, printed (map available_line l) w).
Proof.
  intros Ho. revert w. induction Ho as [| f l Hf _ IH]; intros w Hd; simpl.
  - unfold ret. now rewrite printed_nil.
  - inversion Hd; subst. unfold io_bind.
    rewrite print_available_line by assumption.
    rewrite IH by assumption. now rewrite printed_printed.
Qed.

(** Whatever the features are, listing them only prints. *)
Lemma print_available_prints f w :
  exists r msgs, print_available f w = (r, printed msgs w).
Proof.
  unfold print_available, io_bind, lift, print.
  destruct (py_get f "passes" JNull); [| exists (Raise e), []; now rewrite printed_nil].
  destruct (py_get f "id" JNull); [| exists (Raise e), []; now rewrite printed_nil].
  destruct (py_get f "description" (JStr "")) as [d |];
    [| exists (Raise e), []; now rewrite printed_nil].
  destruct (py_prefix 50 d); [| exists (Raise e), []; now rewrite printed_nil].
  eexists _, [_]. reflexivity.
Qed.

Lemma for_each_available_prints l w :
  exists r msgs, for_each print_available l w = (r, printed msgs w).
Proof.
  revert w. induction l as [| f l IH]; intros w; simpl.
  - exists (Ok tt), []. unfold ret. now rewrite printed_nil.
  - unfold io_bind.
    destruct (print_available_prints f w) as (r & m1 & ->).
    destruct r as [[] | e].
    + destruct (IH (printed m1 w)) as (r & m2 & ->).
      exists r, (m1 ++ m2)%list. now rewrite printed_printed.
    + now exists (Raise e), m1.
Qed.

Lemma feature_from_none i fid fs :
  Forall (fun f => has_id fid f = false) fs -> feature_from i fid fs = None.
Proof.
  intros H. revert i. induction H as [| f fs Hf _ IH]; intros i; simpl; [reflexivity |].
  now rewrite Hf.
Qed.

Lemma report_not_found_prints data fs fid w :
  features_of data fs ->
  exists r msgs,
    report_not_found data fid w
    = (r, printed ([ErrorFeatureNotFound fid; AvailableFeatures] ++ msgs) w)
    /\ r <> Ok true.
Proof.
  intros Hd. unfold features_of in Hd.
  unfold report_not_found.
  unfold io_bind at 1. unfold print at 1.
  unfold io_bind at 1. unfold print at 1.
  unfold io_bind at 1. unfold lift at 1. rewrite Hd.
  unfold io_bind at 1. unfold lift at 1. cbn [py_prefix].
  unfold io_bind at 1. unfold lift at 1. cbn [py_iter].
  unfold io_bind at 1.
  match goal with |- context [for_each print_available ?l ?w0] =>
    destruct (for_each_available_prints l w0) as (r & m & ->) end.
  fold (printed [ErrorFeatureNotFound fid] w).
  match goal with |- context [with_stdout (stdout ?w0 ++ [AvailableFeatures]) ?w0] =>
    fold (printed [AvailableFeatures] w0) end.
  rewrite !printed_printed.
  destruct r as [[] | e].
  - unfold io_bind, lift. cbn [py_len].
    destruct (10 <? Z.of_nat (List.length fs)).
    + unfold print, ret. 
      match goal with |- context [with_stdout (stdout ?w0 ++ ?x) ?w0] =>
        fold (printed x w0) end.
      rewrite printed_printed.
      exists (Ok false), (m ++ [AndMore (Z.of_nat (List.length fs) - 10)])%list.
      split; [reflexivity | discriminate].
    + unfold ret. exists (Ok false), m. split; [reflexivity | discriminate].
  - exists (Raise e), m. split; [reflexivity | discriminate].
Qed.

Lemma report_not_found_lists data fs fid w :
  features_of data fs ->
  Forall (fun f => is_obj f = true) fs ->
  Forall (fun f => description_ok f = true) (firstn 10 fs) ->
  report_not_found data fid w = (Ok false, printed (not_found_report fid fs) w).
Proof.
  intros Hd Ho Hdesc. unfold features_of in Hd.
  unfold report_not_found.
  unfold io_bind at 1. unfold print at 1.
  unfold io_bind at 1. unfold print at 1.
  unfold io_bind at 1. unfold lift at 1. rewrite Hd.
  unfold io_bind at 1. unfold lift at 1. cbn [py_prefix].
  unfold io_bind at 1. unfold lift at 1. cbn [py_iter].
  unfold io_bind at 1.
  rewrite for_each_available by (try assumption; now apply Forall_take).
  fold (printed [ErrorFeatureNotFound fid] w).
  match goal with |- context [with_stdout (stdout ?w0 ++ [AvailableFeatures]) ?w0] =>
    fold (printed [AvailableFeatures] w0) end.
  rewrite !printed_printed.
  unfold io_bind, lift. cbn [py_len].
  unfold not_found_report.
  destruct (10 <? Z.of_nat (List.length fs)).
  - unfold print, ret.
    match goal with |- context [with_stdout (stdout ?w0 ++ ?x) ?w0] =>
      fold (printed x w0) end.
    rewrite printed_printed. now rewrite <- !app_assoc.
  - unfold ret. now rewrite app_nil_r.
Qed.

End Not_found.

(** ** The update protocol *)

Section Mutate.

Import UpdateFeature Ledger.

(** The whole of a mutating update when nothing is refused. *)
Lemma update_changes_status w path data fs fid new_passes i f bak :
  ledger_at w path data fs ->
  metadata_ok data = true ->
  no_faults (io_fails w) ->
  with_suffix path backup_suffix = Ok bak ->
  feature_with_id fid fs = Some (i, f) ->
  same_status f new_passes = false ->
  update_feature_status path fid new_passes false w
  = (Ok true,
     printed (change_preview fid f new_passes
              ++ change_report fid new_passes bak (alter (with_passes new_passes) i fs))
       (with_files (<[path := Doc (mutated (clock w) data fs i new_passes)]>
                      (<[bak := Doc data]> (files w))) w)).
Proof.
  intros Hl Hm Hio Hb Hfind Hsame.
  rewrite (update_reaches_change w path data fs fid new_passes false i f)
    by (try assumption; apply Hio).
  destruct Hl as (Hfile & Hd & Hfs).
  apply feature_with_id_lookup in Hfind as [Hi _].
  rewrite (apply_change_saves _ path data fs fid new_passes i f bak) by assumption.
  rewrite (save_feature_list_ok _ path _ (Doc data) bak) by assumption.
  unfold printed, with_files, with_stdout. cbn [stdout files clock io_fails].
  now rewrite <- app_assoc.
Qed.

End Mutate.

Section Mutate_claims.

Import UpdateFeature Ledger.

(** Claim C2.  When Mutate changes the status of a feature of the ledger
    and succeeds, the metadata of the document it wrote satisfies
    [passing + failing = total_features = len(features)], where
    [passing] counts the features whose [passes] holds and [failing] the
    others; and so does the metadata after every recomputation by
    [update_metadata]. *)
Theorem metadata_counts_after_mutate :
  (forall w path data fs fid new_passes i f,
     ledger_at w path data fs ->
     metadata_ok data = true ->
     no_faults (io_fails w) ->
     name path <> "" ->
     feature_with_id fid fs = Some (i, f) ->
     same_status f new_passes = false ->
     exists w' data' fs' p q t,
       update_feature_status path fid new_passes false w = (Ok true, w')
       /\ files w' !! path = Some (Doc data')
       /\ features_of data' fs'
       /\ counter "passing" data' = Some p
       /\ counter "failing" data' = Some q
       /\ counter "total_features" data' = Some t
       /\ p + q = t /\ t = Z.of_nat (List.length fs')
       /\ p = count passes fs' /\ q = count fails fs')
  /\ (forall now data fs,
        features_of data fs ->
        Forall (fun f => is_obj f = true) fs ->
        metadata_ok data = true ->
        exists data' p q t,
          update_metadata now data = Ok data'
          /\ features_of data' fs
          /\ counter "passing" data' = Some p
          /\ counter "failing" data' = Some q
          /\ counter "total_features" data' = Some t
          /\ p + q = t /\ t = Z.of_nat (List.length fs)
          /\ p = count passes fs /\ q = count fails fs).
Proof.
  split.
  - intros w path data fs fid new_passes i f Hl Hm Hio Hn Hfind Hsame.
    destruct (with_suffix_total path Hn) as [bak Hb].
    rewrite (update_changes_status w path data fs fid new_passes i f bak)
      by assumption.
    destruct Hl as (_ & Hd & _).
    assert (Ho : is_obj (with_feature_status data fs i new_passes) = true)
      by (destruct data; try discriminate; reflexivity).
    destruct (counter_refreshed (clock w) _ (alter (with_passes new_passes) i fs) Ho)
      as (Ht & Hp & Hq).
    eexists _, _, (alter (with_passes new_passes) i fs), _, _, _.
    split; [reflexivity |].
    split; [unfold printed, with_files, with_stdout; cbn [files];
            apply lookup_insert_eq |].
    split; [apply features_of_refreshed, features_of_with_status, Hd |].
    split; [exact Hp |]. split; [exact Hq |]. split; [exact Ht |].
    split; [apply count_split |]. auto.
  - intros now data fs Hd Hfs Hm.
    rewrite (update_metadata_refreshed now data fs) by assumption.
    assert (Ho : is_obj data = true) by (destruct data; try discriminate; reflexivity).
    destruct (counter_refreshed now data fs Ho) as (Ht & Hp & Hq).
    eexists _, _, _, _. split; [reflexivity |].
    split; [now apply features_of_refreshed |].
    split; [exact Hp |]. split; [exact Hq |]. split; [exact Ht |].
    split; [apply count_split |]. auto.
Qed.

Lemma metadata_counts_after_mutate_witness :
  exists w' data',
    update_feature_status ledger_path "F002" true false disk = (Ok true, w')
    /\ files w' !! ledger_path = Some (Doc data')
    /\ counter "passing" data' = Some 1
    /\ counter "failing" data' = Some 1
    /\ counter "total_features" data' = Some 2.
Proof.
  assert (Hl : ledger_at disk ledger_path scenario [F001; F002]).
  { split; [reflexivity |]. split; [reflexivity |]. repeat constructor. }
  assert (Hm : metadata_ok scenario = true) by reflexivity.
  assert (Hio : no_faults (io_fails disk)) by (intros op; reflexivity).
  assert (Hn : name ledger_path <> "") by discriminate.
  assert (Hf : feature_with_id "F002" [F001; F002] = Some (1%nat, F002)) by reflexivity.
  assert (Hs : same_status F002 true = false) by reflexivity.
  destruct (proj1 metadata_counts_after_mutate disk ledger_path scenario
              [F001; F002] "F002" true 1%nat F002 Hl Hm Hio Hn Hf Hs)
    as (w' & data' & fs' & p & q & t & Hr & Hfile & Hfs & Hp & Hq & Ht & _).
  exists w', data'.
  split; [exact Hr |]. split; [exact Hfile |].
  assert (Hw : w' = snd (update_feature_status ledger_path "F002" true false disk))
    by now rewrite Hr.
  assert (Hdata : Some (Doc data')
                  = files (snd (update_feature_status ledger_path "F002" true false disk))
                      !! ledger_path) by now rewrite <- Hw, Hfile.
  vm_compute in Hdata. injection Hdata as ->.
  repeat split; reflexivity.
Defined.

(** Claim C3.  Mutate with the status the feature already has succeeds
    without a change: it reports that the feature is already so marked,
    and every file, the ledger with its metadata and [last_updated]
    included, is as before; no backup is written. *)
Theorem mutate_same_status_is_noop w path data fs fid new_passes dry_run i f :
  ledger_at w path data fs ->
  io_fails w OpenRead = false ->
  feature_with_id fid fs = Some (i, f) ->
  same_status f new_passes = true ->
  exists w',
    update_feature_status path fid new_passes dry_run w = (Ok true, w')
    /\ stdout w' = (stdout w ++ [AlreadyMarked fid new_passes])%list
    /\ files w' = files w
    /\ files w' !! path = Some (Doc data).
Proof.
  intros Hl Hio Hfind Hsame.
  rewrite (update_same_status w path data fs fid new_passes dry_run i f)
    by assumption.
  eexists. split; [reflexivity |]. split; [reflexivity |].
  split; [reflexivity |]. apply Hl.
Qed.

Lemma mutate_same_status_is_noop_witness :
  exists w',
    update_feature_status ledger_path "F001" false false disk = (Ok true, w')
    /\ stdout w' = (stdout disk ++ [AlreadyMarked "F001" false])%list
    /\ files w' = files disk
    /\ files w' !! ledger_path = Some (Doc scenario).
Proof.
  apply (mutate_same_status_is_noop disk ledger_path scenario [F001; F002]
           "F001" false false 0%nat F001).
  - split; [reflexivity |]. split; [reflexivity |]. repeat constructor.
  - reflexivity.
  - reflexivity.
  - reflexivity.
Defined.

(** Claim C5.  A mutating Mutate that succeeds leaves a backup equal to
    the ledger file as it was before.  The backup is written first: when
    the backup cannot be written the ledger file is not touched, when
    the ledger file cannot be opened for writing after the backup both
    hold the old ledger, and whatever is refused, a ledger file that no
    longer holds the old ledger has a backup that does. *)
Theorem backup_written_before_overwrite w path data fs fid new_passes i f bak :
  ledger_at w path data fs ->
  metadata_ok data = true ->
  io_fails w OpenRead = false ->
  with_suffix path backup_suffix = Ok bak ->
  feature_with_id fid fs = Some (i, f) ->
  same_status f new_passes = false ->
  let r := update_feature_status path fid new_passes false w in
  (no_faults (io_fails w) ->
     fst r = Ok true
     /\ files (snd r) !! bak = Some (Doc data)
     /\ files (snd r) !! path = Some (Doc (mutated (clock w) data fs i new_passes)))
  /\ (io_fails w CopyOpen = true \/ io_fails w CopyData = true ->
        fst r = Raise OSError /\ files (snd r) !! path = Some (Doc data))
  /\ (io_fails w CopyOpen = false -> io_fails w CopyData = false ->
      io_fails w OpenWrite = true ->
        fst r = Raise OSError
        /\ files (snd r) !! path = Some (Doc data)
        /\ files (snd r) !! bak = Some (Doc data))
  /\ (files (snd r) !! path <> Some (Doc data) ->
        files (snd r) !! bak = Some (Doc data)).
Proof.
  intros Hl Hm Hio Hb Hfind Hsame r. subst r.
  rewrite (update_reaches_change w path data fs fid new_passes false i f)
    by assumption.
  destruct Hl as (Hfile & Hd & Hfs).
  apply feature_with_id_lookup in Hfind as [Hi _].
  rewrite (apply_change_saves _ path data fs fid new_passes i f bak) by assumption.
  rewrite (save_feature_list_cases _ path _ (Doc data) bak) by assumption.
  assert (Hne : bak <> path) by now apply with_suffix_fresh.
  unfold printed, with_files, with_stdout. cbn [stdout files clock io_fails].
  destruct (io_fails w CopyOpen) eqn:E1;
    [| destruct (io_fails w CopyData) eqn:E2;
       [| destruct (io_fails w OpenWrite) eqn:E3;
          [| destruct (io_fails w Dump) eqn:E4]]];
    cbn [fst snd files].
  all: repeat (first [ rewrite lookup_insert_eq
                     | rewrite lookup_insert_ne by congruence ]).
  all: split; [intros Hno; try (rewrite Hno in *; discriminate) |].
  all: try (split; [intros [? | ?]; try congruence |]).
  all: try (split; [intros ? ? ?; try congruence |]).
  all: solve [repeat split; auto; try congruence].
Qed.

Lemma backup_written_before_overwrite_witness :
  let r := update_feature_status ledger_path "F002" true false disk in
  (no_faults (io_fails disk) ->
     fst r = Ok true
     /\ files (snd r) !! MkPath [] "feature_list.json.bak" = Some (Doc scenario)
     /\ files (snd r) !! ledger_path
        = Some (Doc (mutated (clock disk) scenario [F001; F002] 1 true)))
  /\ (io_fails disk CopyOpen = true \/ io_fails disk CopyData = true ->
        fst r = Raise OSError /\ files (snd r) !! ledger_path = Some (Doc scenario))
  /\ (io_fails disk CopyOpen = false -> io_fails disk CopyData = false ->
      io_fails disk OpenWrite = true ->
        fst r = Raise OSError
        /\ files (snd r) !! ledger_path = Some (Doc scenario)
        /\ files (snd r) !! MkPath [] "feature_list.json.bak" = Some (Doc scenario))
  /\ (files (snd r) !! ledger_path <> Some (Doc scenario) ->
        files (snd r) !! MkPath [] "feature_list.json.bak" = Some (Doc scenario)).
Proof.
  apply (backup_written_before_overwrite disk ledger_path scenario [F001; F002]
           "F002" true 1%nat F002).
  - split; [reflexivity |]. split; [reflexivity |]. repeat constructor.
  - reflexivity.
  - reflexivity.
  - reflexivity.
  - reflexivity.
  - reflexivity.
Defined.
(** With a ledger file that cannot be opened for writing, the update
    raises after the backup: both files hold the old ledger. *)
Example persist_failure_keeps_both :
  let refuse_open := fun op => match op with OpenWrite => true | _ => false end in
  let w := World (files disk) [] (clock disk) refuse_open in
  let r := update_feature_status ledger_path "F002" true false w in
  fst r = Raise OSError
  /\ files (snd r) !! ledger_path = Some (Doc scenario)
  /\ files (snd r) !! MkPath [] "feature_list.json.bak" = Some (Doc scenario).
Proof. vm_compute. repeat split. Qed.

(** Where the backup of a mutating write goes for any ledger name, and
    what the disk holds afterwards. *)
Lemma backup_path_general w path data fs fid new_passes i f :
  ledger_at w path data fs ->
  metadata_ok data = true ->
  no_faults (io_fails w) ->
  name path <> "" ->
  feature_with_id fid fs = Some (i, f) ->
  same_status f new_passes = false ->
  exists bak w',
    with_suffix path backup_suffix = Ok bak
    /\ bak <> path
    /\ parent bak = parent path
    /\ name bak
       = String.append
           (String.substring 0 (String.length (name path)
                                - String.length (suffix (name path))) (name path))
           ".json.bak"
    /\ update_feature_status path fid new_passes false w = (Ok true, w')
    /\ files w'
       = <[path := Doc (mutated (clock w) data fs i new_passes)]>
           (<[bak := Doc data]> (files w)).
Proof.
  intros Hl Hm Hio Hn Hfind Hsame.
  destruct (with_suffix_total path Hn) as [bak Hb].
  exists bak. eexists.
  split; [exact Hb |].
  split; [now apply with_suffix_fresh |].
  assert (Hbak : bak = MkPath (parent path)
                         (String.append
                            (String.substring 0 (String.length (name path)
                               - String.length (suffix (name path))) (name path))
                            ".json.bak")).
  { unfold with_suffix, backup_suffix in Hb. simpl in Hb.
    destruct (String.eqb (name path) ""); [discriminate |]. now injection Hb. }
  split; [now rewrite Hbak |]. split; [now rewrite Hbak |].
  rewrite (update_changes_status w path data fs fid new_passes i f bak)
    by assumption.
  split; reflexivity.
Qed.

(** Claim C6, as the code has it.  For a ledger whose name ends in
    [.json], the backup of a mutating write is the sibling file whose
    name is the ledger's name with [.bak] appended.  After the write it
    holds the ledger as it was just before, whatever it held earlier
    (it is overwritten, not accumulated), and no file other than the
    ledger and its backup is touched. *)
Theorem backup_path_appends_bak w path data fs fid new_passes i f stem :
  ledger_at w path data fs ->
  metadata_ok data = true ->
  no_faults (io_fails w) ->
  stem <> "" ->
  name path = String.append stem ".json" ->
  feature_with_id fid fs = Some (i, f) ->
  same_status f new_passes = false ->
  let bak := MkPath (parent path) (String.append (name path) ".bak") in
  bak <> path
  /\ with_suffix path backup_suffix = Ok bak
  /\ exists w',
       update_feature_status path fid new_passes false w = (Ok true, w')
       /\ files w' !! bak = Some (Doc data)
       /\ files w' !! path = Some (Doc (mutated (clock w) data fs i new_passes))
       /\ (forall p, p <> path -> p <> bak -> files w' !! p = files w !! p).
Proof.
  intros Hl Hm Hio Hs Hname Hfind Hsame bak.
  assert (Hb : with_suffix path backup_suffix = Ok bak).
  { subst bak. destruct path as [dir nm]. simpl in *. subst nm.
    apply with_suffix_json, Hs. }
  assert (Hne : bak <> path) by now apply with_suffix_fresh.
  split; [exact Hne |]. split; [exact Hb |].
  rewrite (update_changes_status w path data fs fid new_passes i f bak)
    by assumption.
  eexists. split; [reflexivity |].
  unfold printed, with_files, with_stdout. cbn [files].
  split; [now rewrite lookup_insert_ne, lookup_insert_eq by congruence |].
  split; [apply lookup_insert_eq |].
  intros p Hp1 Hp2. now rewrite !lookup_insert_ne by congruence.
Qed.

Lemma backup_path_appends_bak_witness :
  let bak := MkPath (parent ledger_path) (String.append (name ledger_path) ".bak") in
  bak <> ledger_path
  /\ with_suffix ledger_path backup_suffix = Ok bak
  /\ exists w',
       update_feature_status ledger_path "F002" true false disk = (Ok true, w')
       /\ files w' !! bak = Some (Doc scenario)
       /\ files w' !! ledger_path
          = Some (Doc (mutated (clock disk) scenario [F001; F002] 1 true))
       /\ (forall p, p <> ledger_path -> p <> bak ->
             files w' !! p = files disk !! p).
Proof.
  apply (backup_path_appends_bak disk ledger_path scenario [F001; F002]
           "F002" true 1%nat F002 "feature_list").
  - split; [reflexivity |]. split; [reflexivity |]. repeat constructor.
  - reflexivity.
  - intros op. reflexivity.
  - discriminate.
  - reflexivity.
  - reflexivity.
  - reflexivity.
Defined.

(** Claim C6 as stated fails: for the ledger [ledger.txt] the update
    succeeds, no file [ledger.txt.bak] exists afterwards, and the backup
    is [ledger.json.bak]. *)
Lemma backup_path_counterexample :
  let r := update_feature_status txt_path "F002" true false txt_disk in
  fst r = Ok true
  /\ files (snd r) !! MkPath [] "ledger.txt.bak" = None
  /\ files (snd r) !! MkPath [] "ledger.json.bak" = Some (Doc scenario)
  /\ with_suffix txt_path backup_suffix <> Ok (MkPath [] "ledger.txt.bak").
Proof.
  vm_compute. repeat split. discriminate.
Qed.

(** Claim C7.  Mutate with an id that no feature of the ledger has does
    not succeed and changes no file, so no backup is written; it prints
    that the feature was not found and starts the list of available
    features.  When the descriptions of the first ten features are
    strings, it returns failure after listing those features with their
    ids and the number of the remaining ones. *)
Theorem mutate_unknown_id_fails w path data fs fid new_passes dry_run :
  ledger_at w path data fs ->
  io_fails w OpenRead = false ->
  Forall (fun f => has_id fid f = false) fs ->
  let r := update_feature_status path fid new_passes dry_run w in
  fst r <> Ok true
  /\ files (snd r) = files w
  /\ (exists msgs,
        stdout (snd r)
        = (stdout w ++ [ErrorFeatureNotFound fid; AvailableFeatures] ++ msgs)%list)
  /\ (Forall (fun f => description_ok f = true) (firstn 10 fs) ->
        r = (Ok false, printed (not_found_report fid fs) w)).
Proof.
  intros (Hfile & Hd & Hfs) Hio Hnone r.
  assert (Hr : r = report_not_found data fid w).
  { subst r. unfold update_feature_status.
    rewrite (load_feature_list_ok w path data) by assumption.
    unfold io_bind at 1. unfold lift at 1.
    rewrite (find_feature_pure data fs) by assumption.
    unfold feature_with_id. now rewrite feature_from_none. }
  rewrite Hr. clear Hr r.
  destruct (report_not_found_prints data fs fid w Hd) as (r & msgs & E & Hne).
  split; [now rewrite E |]. split; [now rewrite E |].
  split; [exists msgs; now rewrite E |].
  intros Hdesc. now apply report_not_found_lists.
Qed.

Lemma mutate_unknown_id_fails_witness :
  let r := update_feature_status ledger_path "F999" true false disk in
  fst r <> Ok true
  /\ files (snd r) = files disk
  /\ (exists msgs,
        stdout (snd r)
        = (stdout disk ++ [ErrorFeatureNotFound "F999"; AvailableFeatures] ++ msgs)%list)
  /\ (Forall (fun f => description_ok f = true) (firstn 10 [F001; F002]) ->
        r = (Ok false, printed (not_found_report "F999" [F001; F002]) disk)).
Proof.
  apply (mutate_unknown_id_fails disk ledger_path scenario [F001; F002]
           "F999" true false).
  - split; [reflexivity |]. split; [reflexivity |]. repeat constructor.
  - reflexivity.
  - repeat constructor.
Defined.

End Mutate_claims.

(** ** Properties of the validation *)

Section Feature_checks.

Import ValidateFeatures Ledger.

Lemma clean_nil : clean [].
Proof. constructor. Qed.

Lemma clean_app es1 es2 : clean es1 -> clean es2 -> clean (es1 ++ es2).
Proof. intros H1 H2. apply Forall_app. now split. Qed.

Lemma clean_one e : is_duplicate_error e = false -> clean [e].
Proof. intros H. now constructor. Qed.

Lemma clean_if (b : bool) es1 es2 : clean es1 -> clean es2 -> clean (if b then es1 else es2).
Proof. now destruct b. Qed.

Lemma missing_fields_obj kvs fid fields :
  exists es, missing_fields (JObj kvs) fid fields = Ok es /\ clean es.
Proof.
  induction fields as [| fld rest (es & IH & Hc)]; simpl.
  - exists []. split; [reflexivity | apply clean_nil].
  - rewrite IH. simpl. eexists. split; [reflexivity |].
    destruct (lookup_field fld kvs); [assumption |].
    constructor; [reflexivity | assumption].
Qed.

Lemma must_be_string_obj kvs fid fld :
  exists es, must_be_string (JObj kvs) fid fld = Ok es /\ clean es.
Proof.
  unfold must_be_string. simpl.
  destruct (lookup_field fld kvs) as [v |]; simpl.
  - eexists. split; [reflexivity |].
    apply clean_if; [apply clean_nil | now apply clean_one].
  - exists []. split; [reflexivity | apply clean_nil].
Qed.

Lemma check_priority_obj kvs fid :
  exists es, check_priority (JObj kvs) fid = Ok es /\ clean es.
Proof.
  unfold check_priority. simpl.
  destruct (lookup_field "priority" kvs) as [v |]; simpl.
  - eexists. split; [reflexivity |].
    apply clean_if; [apply clean_nil | now apply clean_one].
  - exists []. split; [reflexivity | apply clean_nil].
Qed.

Lemma step_errors_clean fid i l : clean (step_errors fid i l).
Proof.
  revert i. induction l as [| st l IH]; intros i; simpl; [apply clean_nil |].
  apply clean_app; [| apply IH].
  apply clean_if; [apply clean_nil | now apply clean_one].
Qed.

Lemma check_steps_obj kvs fid :
  exists es, check_steps (JObj kvs) fid = Ok es /\ clean es.
Proof.
  unfold check_steps. simpl.
  destruct (lookup_field "steps" kvs) as [v |]; simpl.
  - destruct v as [| | | | [| st l] |];
      (eexists; split; [reflexivity |]);
      first [ now apply clean_one | apply step_errors_clean ].
  - exists []. split; [reflexivity | apply clean_nil].
Qed.

Lemma check_passes_obj kvs fid :
  exists es, check_passes (JObj kvs) fid = Ok es /\ clean es.
Proof.
  unfold check_passes. simpl.
  destruct (lookup_field "passes" kvs) as [v |]; simpl.
  - eexists. split; [reflexivity |].
    apply clean_if; [apply clean_nil | now apply clean_one].
  - exists []. split; [reflexivity | apply clean_nil].
Qed.

Lemma check_description_length_obj kvs fid :
  match lookup_field "description" kvs with Some d => sized d | None => true end = true ->
  exists es, check_description_length (JObj kvs) fid = Ok es /\ clean es.
Proof.
  unfold check_description_length. simpl.
  destruct (lookup_field "description" kvs) as [v |]; simpl.
  - intros Hs. destruct v; try discriminate; simpl;
      (eexists; split; [reflexivity |]);
      (apply clean_if; [now apply clean_one | apply clean_nil]).
  - exists []. split; [reflexivity | apply clean_nil].
Qed.

Lemma validate_feature_checkable f i :
  checkable f = true ->
  exists es, validate_feature f i = Ok es /\ clean es.
Proof.
  unfold checkable. intros H.
  repeat (apply andb_true_iff in H as [H ?]).
  destruct f as [| | | | | kvs]; try discriminate.
  unfold validate_feature. cbn [py_get bind].
  set (fid := match lookup_field "id" kvs with Some x => x | None => _ end).
  destruct (missing_fields_obj kvs fid required) as (e1 & -> & K1).
  destruct (must_be_string_obj kvs fid "id") as (e2 & -> & K2).
  destruct (must_be_string_obj kvs fid "category") as (e3 & -> & K3).
  destruct (must_be_string_obj kvs fid "description") as (e4 & -> & K4).
  destruct (check_priority_obj kvs fid) as (e5 & -> & K5).
  destruct (check_steps_obj kvs fid) as (e6 & -> & K6).
  destruct (check_passes_obj kvs fid) as (e7 & -> & K7).
  destruct (check_description_length_obj kvs fid) as (e8 & -> & K8); [assumption |].
  cbn [bind]. eexists. split; [reflexivity |].
  repeat apply clean_app; assumption.
Qed.

Lemma missing_fields_reports kvs fid fld fields es :
  In fld fields -> lookup_field fld kvs = None ->
  missing_fields (JObj kvs) fid fields = Ok es ->
  In (MissingRequiredField fid fld) es.
Proof.
  revert es. induction fields as [| g rest IH]; intros es Hin Hnone; [destruct Hin |].
  simpl. destruct (missing_fields_obj kvs fid rest) as (es' & E & _). rewrite E. simpl.
  intros [= <-]. destruct Hin as [-> | Hin].
  - rewrite Hnone. now left.
  - specialize (IH es' Hin Hnone E).
    destruct (lookup_field g kvs); [assumption | now right].
Qed.

(** A feature without an id is reported as lacking the field. *)
Lemma validate_feature_missing_id f i es :
  field "id" f = None -> validate_feature f i = Ok es ->
  In (MissingRequiredField (JStr (String.append "index-" (pretty i))) "id") es.
Proof.
  destruct f as [| | | | | kvs]; try discriminate.
  unfold field. intros Hid. unfold validate_feature. cbn [py_get bind]. rewrite Hid.
  set (fid := JStr _).
  destruct (missing_fields (JObj kvs) fid required) as [e1 |] eqn:E1; [| discriminate].
  cbn [bind].
  destruct (must_be_string _ _ "id"); [| discriminate]. cbn [bind].
  destruct (must_be_string _ _ "category"); [| discriminate]. cbn [bind].
  destruct (must_be_string _ _ "description"); [| discriminate]. cbn [bind].
  destruct (check_priority _ _); [| discriminate]. cbn [bind].
  destruct (check_steps _ _); [| discriminate]. cbn [bind].
  destruct (check_passes _ _); [| discriminate]. cbn [bind].
  destruct (check_description_length _ _); [| discriminate]. cbn [bind].
  intros [= <-]. apply in_or_app. left.
  apply (missing_fields_reports kvs fid "id" required); [now left | assumption | assumption].
Qed.

End Feature_checks.

Section Duplicates.

Import ValidateFeatures Ledger.

Lemma py_eq_str_r v s : py_eq v (JStr s) = true <-> v = JStr s.
Proof.
  destruct v; simpl; try (split; [discriminate | discriminate]).
  rewrite String.eqb_eq. split; [now intros -> | now intros [= ->]].
Qed.

Lemma py_eq_str_l v s : py_eq (JStr s) v = true <-> v = JStr s.
Proof.
  destruct v; simpl; try (split; [discriminate | discriminate]).
  rewrite String.eqb_eq. split; [now intros -> | now intros [= ->]].
Qed.

Lemma has_id_id_of s f : has_id s f = py_eq (id_of f) (JStr s).
Proof.
  unfold has_id, id_of, field_or. now destruct (field "id" f).
Qed.

Lemma truthy_str s : s <> "" -> truthy (JStr s) = true.
Proof.
  intros H. simpl. apply negb_true_iff. now apply String.eqb_neq.
Qed.

Lemma duplicate_reports_app s es1 es2 :
  duplicate_reports s (es1 ++ es2)
  = (duplicate_reports s es1 + duplicate_reports s es2)%nat.
Proof.
  unfold duplicate_reports. now rewrite List.filter_app, List.length_app.
Qed.

Lemma duplicate_reports_clean s es : clean es -> duplicate_reports s es = 0%nat.
Proof.
  unfold duplicate_reports. induction 1 as [| e es He _ IH]; simpl; [reflexivity |].
  destruct e; try discriminate; simpl; exact IH.
Qed.

Lemma names_real_id_clean es : clean es -> Forall (fun e => names_real_id e = true) es.
Proof.
  intros H. eapply List.Forall_impl; [| exact H].
  intros e He. destruct e; try discriminate; reflexivity.
Qed.

Lemma existsb_seen_add x y seen :
  existsb (py_eq x) (seen_add y seen) = existsb (py_eq x) seen || (py_eq x y && negb (existsb (py_eq y) seen)).
Proof.
  unfold seen_add. destruct (existsb (py_eq y) seen) eqn:E.
  - now rewrite andb_false_r, orb_false_r.
  - rewrite existsb_app. simpl. now rewrite orb_false_r, andb_true_r.
Qed.

Lemma bump_hashable k d : hashable k = true -> exists d', bump k d = Ok d'.
Proof.
  intros H. unfold bump, counts_get. rewrite H. simpl. eauto.
Qed.

(** One turn of the loop on a checkable feature. *)
Lemma visit_checkable st i f :
  checkable f = true ->
  exists es cats pris,
    clean es
    /\ visit st i f
       = Ok (VState
               (if truthy (id_of f) then seen_add (id_of f) (seen_ids st)
                else seen_ids st)
               ((errors st
                 ++ (if truthy (id_of f) && existsb (py_eq (id_of f)) (seen_ids st)
                     then [DuplicateFeatureID (id_of f)] else []))
                ++ es)
               (MkStats (total (stats st) + 1)
                        (if passes f then passing (stats st) + 1 else passing (stats st))
                        (if passes f then failing (stats st) else failing (stats st) + 1)
                        cats pris)).
Proof.
  intros Hc. destruct (validate_feature_checkable f i Hc) as (es & Ev & Hes).
  unfold checkable in Hc.
  apply andb_true_iff in Hc as [Hc Hpri].
  apply andb_true_iff in Hc as [Hc Hcat].
  apply andb_true_iff in Hc as [Hc _].
  apply andb_true_iff in Hc as [Ho Hid].
  destruct (bump_hashable _ (by_category (stats st)) Hcat) as (cats & Ecat).
  destruct (bump_hashable _ (by_priority (stats st)) Hpri) as (pris & Epri).
  exists es, cats, pris. split; [exact Hes |].
  unfold visit.
  rewrite !(field_or_get f) by assumption.
  fold (id_of f). cbn [bind].
  assert (Hp : truthy (field_or "passes" JNull f) = passes f).
  { unfold field_or, passes. now destruct (field "passes" f). }
  destruct (truthy (id_of f)) eqn:Et.
  - simpl in Hid. unfold seen_contains. rewrite Hid. cbn [bind seen_ids errors stats].
    rewrite Ev. cbn [bind]. rewrite Ecat. cbn [bind]. rewrite Epri. cbn [bind].
    rewrite Hp. simpl andb.
    destruct (existsb (py_eq (id_of f)) (seen_ids st)); [reflexivity |].
    now rewrite app_nil_r.
  - cbn [bind]. rewrite Ev. cbn [bind]. rewrite Ecat. cbn [bind]. rewrite Epri.
    cbn [bind]. rewrite Hp. simpl andb. now rewrite app_nil_r.
Qed.

(** The whole loop on checkable features: it completes, counts every
    feature once, and reports each repeated occurrence of an id that is
    a non-empty string. *)
Lemma visit_all_checkable fs :
  Forall (fun f => checkable f = true) fs ->
  forall st i,
  exists st',
    visit_all st i fs = Ok st'
    /\ total (stats st') = total (stats st) + Z.of_nat (List.length fs)
    /\ passing (stats st') = passing (stats st) + count passes fs
    /\ failing (stats st') = failing (stats st) + count fails fs
    /\ (fs = [] -> st' = st)
    /\ (Forall (fun e => names_real_id e = true) (errors st) ->
        Forall (fun e => names_real_id e = true) (errors st'))
    /\ (forall s, s <> "" ->
          duplicate_reports s (errors st')
          = (duplicate_reports s (errors st)
             + (if existsb (py_eq (JStr s)) (seen_ids st)
                then occurrences s fs
                else occurrences s fs - 1))%nat).
Proof.
  induction 1 as [| f fs Hf _ IH]; intros st i.
  - exists st. simpl. unfold count, occurrences. simpl.
    repeat split; try lia; auto.
    intros s _. destruct (existsb _ _); lia.
  - destruct (visit_checkable st i f Hf) as (es & cats & pris & Hes & Ev).
    cbn [visit_all]. rewrite Ev. cbn [bind].
    match goal with |- context [visit_all ?s1 _ _] =>
      destruct (IH s1 (S i)) as (st' & E & Ht & Hp & Hq & _ & Hreal & Hdup) end.
    exists st'. cbn [seen_ids errors stats total passing failing] in *.
    split; [exact E |].
    unfold count, fails in *. cbn [List.filter List.length].
    split; [lia |].
    split; [destruct (passes f); cbn [List.length]; lia |].
    split; [destruct (passes f); simpl negb; cbv iota; cbn [List.length]; lia |].
    split; [discriminate |].
    split.
    + intros Hst. apply Hreal. apply Forall_app. split; [| now apply names_real_id_clean].
      apply Forall_app. split; [exact Hst |].
      destruct (truthy (id_of f)) eqn:Et; simpl; [| constructor].
      destruct (existsb _ _); constructor; [exact Et | constructor].
    + intros s Hs. rewrite (Hdup s Hs).
      rewrite !duplicate_reports_app, (duplicate_reports_clean s es Hes).
      unfold occurrences. cbn [List.filter]. rewrite has_id_id_of.
      destruct (py_eq (id_of f) (JStr s)) eqn:Eid.
      * apply py_eq_str_r in Eid. rewrite Eid, (truthy_str s Hs), andb_true_l.
        assert (Hin : existsb (py_eq (JStr s)) (seen_add (JStr s) (seen_ids st)) = true).
        { rewrite existsb_seen_add, (proj2 (py_eq_str_l (JStr s) s) eq_refl).
          destruct (existsb (py_eq (JStr s)) (seen_ids st)); reflexivity. }
        rewrite Hin.
        assert (Hone : duplicate_reports s [DuplicateFeatureID (JStr s)] = 1%nat).
        { unfold duplicate_reports. simpl. now rewrite String.eqb_refl. }
        destruct (existsb (py_eq (JStr s)) (seen_ids st)) eqn:Es.
        -- rewrite Hone. cbn [List.length]. lia.
        -- change (duplicate_reports s []) with 0%nat. cbn [List.length]. lia.
      * assert (Hn : py_eq (JStr s) (id_of f) = false).
        { destruct (py_eq (JStr s) (id_of f)) eqn:E2; [| reflexivity].
          apply py_eq_str_l in E2. rewrite E2 in Eid. simpl in Eid.
          now rewrite String.eqb_refl in Eid. }
        assert (Hnm : names s (DuplicateFeatureID (id_of f)) = false).
        { destruct (id_of f); try reflexivity. simpl in *. exact Eid. }
        assert (Hseen : existsb (py_eq (JStr s))
                          (if truthy (id_of f) then seen_add (id_of f) (seen_ids st)
                           else seen_ids st)
                        = existsb (py_eq (JStr s)) (seen_ids st)).
        { destruct (truthy (id_of f)); [| reflexivity].
          rewrite existsb_seen_add, Hn. now rewrite orb_false_r. }
        rewrite Hseen.
        assert (Hd0 : duplicate_reports s
                        (if truthy (id_of f) && existsb (py_eq (id_of f)) (seen_ids st)
                         then [DuplicateFeatureID (id_of f)] else []) = 0%nat).
        { destruct (_ && _); [| reflexivity].
          unfold duplicate_reports. cbn [List.filter]. now rewrite Hnm. }
        rewrite Hd0. lia.
Qed.

End Duplicates.

Section Validation.

Import ValidateFeatures Ledger.

Lemma metadata_missing_obj m fields :
  exists es, metadata_missing (JObj m) fields = Ok es /\ clean es.
Proof.
  induction fields as [| fld rest (es & IH & Hc)]; simpl.
  - exists []. split; [reflexivity | apply clean_nil].
  - rewrite IH. simpl. eexists. split; [reflexivity |].
    destruct (lookup_field fld m); [assumption |].
    constructor; [reflexivity | assumption].
Qed.

Lemma validate_metadata_obj m :
  match lookup_field "total_features" m, lookup_field "passing" m,
        lookup_field "failing" m with
  | Some _, Some p, Some f => addable p f
  | _, _, _ => true
  end = true ->
  exists es, validate_metadata (JObj m) = Ok es /\ clean es.
Proof.
  intros H. unfold validate_metadata.
  destruct (metadata_missing_obj m metadata_required) as (e1 & -> & H1).
  cbn [bind py_contains py_getitem].
  destruct (lookup_field "total_features" m) as [t |]; cbn [bind].
  - destruct (lookup_field "passing" m) as [p |]; cbn [bind].
    + destruct (lookup_field "failing" m) as [f |]; cbn [bind].
      * unfold addable in H. destruct (py_add p f) as [sum |]; [| discriminate].
        cbn [bind]. eexists. split; [reflexivity |].
        apply clean_app; [assumption |].
        apply clean_if; [apply clean_nil | now apply clean_one].
      * eexists. split; [reflexivity |]. apply clean_app; [assumption | apply clean_nil].
    + eexists. split; [reflexivity |]. apply clean_app; [assumption | apply clean_nil].
  - eexists. split; [reflexivity |]. apply clean_app; [assumption | apply clean_nil].
Qed.

Lemma metadata_mismatches_obj m s :
  exists es, metadata_mismatches (JObj m) s = Ok es /\ clean es.
Proof.
  unfold metadata_mismatches. cbn [py_get bind].
  eexists. split; [reflexivity |].
  repeat apply clean_app;
    (apply clean_if; [apply clean_nil | now apply clean_one]).
Qed.

(** Validation of a ledger of checkable features. *)
Lemma validate_data_checkable data fs :
  has_features data fs ->
  Forall (fun f => checkable f = true) fs ->
  metadata_checkable data = true ->
  exists errs st,
    validate_data data = Ok (match errs with [] => true | _ => false end, errs, st)
    /\ total st = Z.of_nat (List.length fs)
    /\ passing st = count passes fs
    /\ failing st = count fails fs
    /\ (fs = [] -> st = empty_stats)
    /\ Forall (fun e => names_real_id e = true) errs
    /\ (forall s, s <> "" ->
          duplicate_reports s errs = (occurrences s fs - 1)%nat).
Proof.
  intros Hf Hfs Hm. destruct data as [| | | | | kvs]; try discriminate.
  unfold has_features, field in Hf. unfold metadata_checkable, field in Hm.
  unfold validate_data. cbn [py_contains py_getitem]. rewrite Hf. cbn [bind negb].
  destruct (visit_all_checkable fs Hfs (VState [] [] empty_stats) 0)
    as (st & -> & Ht & Hp & Hq & Hnil & Hreal & Hdup).
  cbn [bind seen_ids errors stats total passing failing empty_stats] in *.
  specialize (Hreal (List.Forall_nil _)).
  assert (Hdup' : forall s, s <> "" ->
            duplicate_reports s (errors st) = (occurrences s fs - 1)%nat)
    by (intros s Hs; now rewrite (Hdup s Hs)).
  destruct (lookup_field "metadata" kvs) as [meta |]; cbn [bind].
  - destruct meta as [| | | | | m]; try discriminate.
    destruct (validate_metadata_obj m Hm) as (e1 & -> & H1).
    destruct (metadata_mismatches_obj m (stats st)) as (e2 & -> & H2).
    cbn [bind]. eexists _, (stats st). split; [reflexivity |].
    split; [lia |]. split; [lia |]. split; [lia |].
    split; [intros E; now rewrite (Hnil E) |].
    split.
    + repeat (apply Forall_app; split); auto using names_real_id_clean.
    + intros s Hs. rewrite !duplicate_reports_app.
      rewrite (duplicate_reports_clean s e1 H1), (duplicate_reports_clean s e2 H2).
      rewrite (Hdup' s Hs). lia.
  - eexists _, (stats st). split; [reflexivity |].
    split; [lia |]. split; [lia |]. split; [lia |].
    split; [intros E; now rewrite (Hnil E) |].
    split; [assumption | exact Hdup'].
Qed.

Lemma validate_feature_list_reads fsmap refuses path data :
  fsmap !! path = Some (Doc data) ->
  refuses OpenRead = false ->
  validate_feature_list fsmap refuses path = validate_data data.
Proof.
  intros Hf Hr. unfold validate_feature_list. now rewrite Hf, Hr.
Qed.

End Validation.

Section Validation_claims.

Import ShowStatus ValidateFeatures Ledger.

(** Claim C4, as the code has it.  When an id that is a non-empty string
    occurs on two or more features of a checkable ledger, validation
    reports the ledger invalid with one duplicate-id error for every
    occurrence of the id after the first, each naming the id and none
    carrying a count: exactly one error when the id occurs twice.  A
    ledger with two features of id F001 yields exactly one duplicate-id
    error, naming F001. *)
Theorem duplicate_ids_reported_per_repeat :
  (forall fsmap refuses path data fs s,
     fsmap !! path = Some (Doc data) ->
     refuses OpenRead = false ->
     has_features data fs ->
     Forall (fun f => checkable f = true) fs ->
     metadata_checkable data = true ->
     s <> "" ->
     (2 <= occurrences s fs)%nat ->
     exists errs st,
       validate_feature_list fsmap refuses path = Ok (false, errs, st)
       /\ duplicate_reports s errs = (occurrences s fs - 1)%nat
       /\ (occurrences s fs = 2%nat -> duplicate_reports s errs = 1%nat))
  /\ (exists errs st,
        validate_feature_list {[ ledger_path := Doc twice ]} never ledger_path
        = Ok (false, errs, st)
        /\ List.filter is_duplicate_error errs = [DuplicateFeatureID (JStr "F001")]).
Proof.
  split.
  - intros fsmap refuses path data fs s Hfile Hr Hf Hfs Hm Hs Hocc.
    rewrite (validate_feature_list_reads fsmap refuses path data) by assumption.
    destruct (validate_data_checkable data fs Hf Hfs Hm)
      as (errs & st & E & _ & _ & _ & _ & _ & Hdup).
    specialize (Hdup s Hs).
    exists errs, st. split; [| split; [exact Hdup | lia]].
    rewrite E. destruct errs as [| e errs]; [| reflexivity].
    unfold duplicate_reports in Hdup. simpl in Hdup. lia.
  - eexists _, _. split; vm_compute; reflexivity.
Qed.

Lemma duplicate_ids_reported_per_repeat_witness :
  exists errs st,
    validate_feature_list {[ ledger_path := Doc thrice ]} never ledger_path
    = Ok (false, errs, st)
    /\ duplicate_reports "F001" errs = (occurrences "F001" [F001; F001; F001] - 1)%nat
    /\ (occurrences "F001" [F001; F001; F001] = 2%nat ->
        duplicate_reports "F001" errs = 1%nat).
Proof.
  apply (proj1 duplicate_ids_reported_per_repeat
           {[ ledger_path := Doc thrice ]} never ledger_path thrice
           [F001; F001; F001] "F001").
  - reflexivity.
  - reflexivity.
  - reflexivity.
  - repeat constructor.
  - reflexivity.
  - discriminate.
  - vm_compute. lia.
Defined.

(** Claim C4 as stated fails: on a ledger with three features of id
    F001 validation reports two duplicate-id errors for that one id, not
    one, and the errors carry the id alone. *)
Lemma duplicate_ids_counterexample :
  exists errs st,
    validate_feature_list {[ ledger_path := Doc thrice ]} never ledger_path
    = Ok (false, errs, st)
    /\ List.filter is_duplicate_error errs
       = [DuplicateFeatureID (JStr "F001"); DuplicateFeatureID (JStr "F001")]
    /\ duplicate_reports "F001" errs <> 1%nat.
Proof.
  eexists _, _. split; [vm_compute; reflexivity |].
  split; [reflexivity | discriminate].
Qed.

(** A quotient of integers whose dividend is below [2 ** 1023] is a
    float. *)
Lemma py_truediv_defined a b :
  b <> 0 -> Z.abs a < 2 ^ 1023 -> exists q, py_truediv a b = Ok q.
Proof.
  intros Hb Ha. unfold py_truediv.
  destruct (Z.eqb_spec b 0) as [E | _]; [contradiction |].
  destruct (round64_defined (inject_Z (Z.abs a) / inject_Z (Z.abs b)) (Z.abs a))
    as (r & ->); [| | eauto].
  - apply Qle_shift_div_r.
    + change 0%Q with (inject_Z 0). rewrite <- Zlt_Qlt. lia.
    + rewrite <- inject_Z_mult, <- Zle_Qle. nia.
  - assert (2 ^ 1023 < 2 ^ 1024 - 2 ^ 970) by reflexivity. lia.
Qed.

Lemma py_truediv_no_zero_division a b :
  b <> 0 -> py_truediv a b <> Raise ZeroDivisionError.
Proof.
  intros Hb. unfold py_truediv.
  destruct (Z.eqb_spec b 0) as [E | _]; [contradiction |].
  destruct (round64 _); discriminate.
Qed.

(** Claim C8.  On a ledger whose feature list is empty the statistics
    are total 0, passing 0, failing 0 with empty breakdowns, the
    percentages of the report are 0, and no percentage computation
    divides by zero: the report divides by [max(total, 1)], the progress
    bar returns before dividing when the total is 0, and the percentage
    of a category is 0 unless its total is positive.  The divisions of
    the report and of a category give a float whenever the count divided
    is below [2 ** 1023]. *)
Theorem stats_of_empty_ledger :
  (forall fsmap refuses path data,
     fsmap !! path = Some (Doc data) ->
     refuses OpenRead = false ->
     has_features data [] ->
     metadata_checkable data = true ->
     exists valid errs,
       validate_feature_list fsmap refuses path = Ok (valid, errs, empty_stats))
  /\ total empty_stats = 0 /\ passing empty_stats = 0 /\ failing empty_stats = 0
  /\ report_percentages empty_stats
     = Ok (Finite (Float false 0), Finite (Float false 0))
  /\ (forall s, report_percentages s <> Raise ZeroDivisionError)
  /\ (forall s, Z.abs (passing s) < 2 ^ 1023 -> Z.abs (failing s) < 2 ^ 1023 ->
        exists p f, report_percentages s = Ok (p, f))
  /\ (forall passing width, print_progress_bar passing (JInt 0) width = Ok None)
  /\ (forall passing total width,
        print_progress_bar passing total width <> Raise ZeroDivisionError)
  /\ category_percent 0 0 = Ok (Finite (Float false 0))
  /\ (forall passing failing,
        category_percent passing failing <> Raise ZeroDivisionError)
  /\ (forall passing failing, Z.abs passing < 2 ^ 1023 ->
        exists q, category_percent passing failing = Ok q).
Proof.
  split; [| repeat split].
  - intros fsmap refuses path data Hfile Hr Hf Hm.
    rewrite (validate_feature_list_reads fsmap refuses path data) by assumption.
    destruct (validate_data_checkable data [] Hf (List.Forall_nil _) Hm)
      as (errs & st & E & _ & _ & _ & Hnil & _).
    rewrite (Hnil eq_refl) in E. eauto.
  - intros s. unfold report_percentages.
    pose proof (py_truediv_no_zero_division (passing s) (Z.max (total s) 1)
                  ltac:(lia)) as Hp.
    pose proof (py_truediv_no_zero_division (failing s) (Z.max (total s) 1)
                  ltac:(lia)) as Hf.
    destruct (py_truediv (passing s) _) as [p | e]; cbn [bind];
      [| intros [= ->]; now apply Hp].
    destruct (py_truediv (failing s) _) as [f | e]; cbn [bind];
      [discriminate | intros [= ->]; now apply Hf].
  - intros s Hp Hf. unfold report_percentages.
    destruct (py_truediv_defined (passing s) (Z.max (total s) 1)) as (p & ->);
      [lia | exact Hp |].
    destruct (py_truediv_defined (failing s) (Z.max (total s) 1)) as (f & ->);
      [lia | exact Hf |].
    cbn [bind]. eauto.
  - intros passing total width. unfold print_progress_bar.
    destruct (py_eq total (JInt 0)) eqn:E0; [discriminate |].
    assert (Hdiv : py_div passing total <> Raise ZeroDivisionError).
    { unfold py_div. destruct (as_int passing) as [x |]; [| destruct (as_int total);
        discriminate].
      destruct total as [| b | z | | |]; cbn [as_int]; try discriminate.
      - apply py_truediv_no_zero_division. destruct b; [discriminate |].
        discriminate E0.
      - apply py_truediv_no_zero_division. simpl in E0.
        now apply Z.eqb_neq in E0. }
    destruct (py_div passing total) as [pct | e]; cbn [bind];
      [| intros [= ->]; now apply Hdiv].
    unfold float_of_int. destruct (round64 _) as [m |]; cbn [bind]; [| discriminate].
    unfold py_int. destruct (float_mul _ pct) as [x | sg]; cbn [bind];
      [| discriminate].
    unfold py_repeat at 1. destruct (_ || _); cbn [bind]; [discriminate |].
    unfold py_repeat. destruct (_ || _); cbn [bind]; [discriminate |].
    unfold py_concat. destruct (_ <? _); discriminate.
  - intros passing failing. unfold category_percent.
    destruct (Z.ltb_spec 0 (passing + failing)); [| discriminate].
    pose proof (py_truediv_no_zero_division passing (passing + failing) ltac:(lia))
      as Hq.
    destruct (py_truediv passing (passing + failing)) as [q | e]; cbn [bind];
      [discriminate | intros [= ->]; now apply Hq].
  - intros passing failing Hp. unfold category_percent.
    destruct (Z.ltb_spec 0 (passing + failing)); [| eauto].
    destruct (py_truediv_defined passing (passing + failing)) as (q & ->);
      [lia | exact Hp |].
    cbn [bind]. eauto.
Qed.

Lemma stats_of_empty_ledger_witness :
  (exists valid errs,
     validate_feature_list {[ ledger_path := Doc no_features ]} never ledger_path
     = Ok (valid, errs, empty_stats))
  /\ (exists p f, report_percentages (MkStats 3 1 2 [] []) = Ok (p, f))
  /\ (exists q, category_percent 1 2 = Ok q).
Proof.
  destruct stats_of_empty_ledger
    as (Hempty & _ & _ & _ & _ & _ & Hreport & _ & _ & _ & _ & Hcategory).
  split; [| split].
  - apply (Hempty {[ ledger_path := Doc no_features ]} never ledger_path no_features).
    + reflexivity.
    + reflexivity.
    + reflexivity.
    + reflexivity.
  - apply (Hreport (MkStats 3 1 2 [] [])).
    + vm_compute. reflexivity.
    + vm_compute. reflexivity.
  - apply (Hcategory 1 2). vm_compute. reflexivity.
Defined.

(** Claim C10.  The duplicate check looks only at ids that are present
    and not empty: on a checkable ledger every duplicate-id error names
    such an id, so none is reported for features whose id is missing,
    null or the empty string, however many there are; a feature without
    an id still gets the error of the missing required field. *)
Theorem duplicate_check_skips_missing_ids :
  (forall fsmap refuses path data fs,
     fsmap !! path = Some (Doc data) ->
     refuses OpenRead = false ->
     has_features data fs ->
     Forall (fun f => checkable f = true) fs ->
     metadata_checkable data = true ->
     exists valid errs st,
       validate_feature_list fsmap refuses path = Ok (valid, errs, st)
       /\ Forall (fun e => names_real_id e = true) errs
       /\ ~ In (DuplicateFeatureID JNull) errs
       /\ ~ In (DuplicateFeatureID (JStr "")) errs)
  /\ (forall f i es,
        field "id" f = None -> validate_feature f i = Ok es ->
        In (MissingRequiredField (JStr (String.append "index-" (pretty i))) "id") es)
  /\ (exists errs st,
        validate_feature_list {[ ledger_path := Doc anonymous ]} never ledger_path
        = Ok (false, errs, st)
        /\ List.filter is_duplicate_error errs = []).
Proof.
  split; [| split].
  - intros fsmap refuses path data fs Hfile Hr Hf Hfs Hm.
    rewrite (validate_feature_list_reads fsmap refuses path data) by assumption.
    destruct (validate_data_checkable data fs Hf Hfs Hm)
      as (errs & st & E & _ & _ & _ & _ & Hreal & _).
    eexists _, errs, st. split; [exact E |]. split; [exact Hreal |].
    rewrite List.Forall_forall in Hreal.
    split; intros Hin; apply Hreal in Hin; discriminate.
  - apply validate_feature_missing_id.
  - eexists _, _. split; vm_compute; reflexivity.
Qed.

Lemma duplicate_check_skips_missing_ids_witness :
  exists valid errs st,
    validate_feature_list {[ ledger_path := Doc anonymous ]} never ledger_path
    = Ok (valid, errs, st)
    /\ Forall (fun e => names_real_id e = true) errs
    /\ ~ In (DuplicateFeatureID JNull) errs
    /\ ~ In (DuplicateFeatureID (JStr "")) errs.
Proof.
  apply (proj1 duplicate_check_skips_missing_ids
           {[ ledger_path := Doc anonymous ]} never ledger_path anonymous
           [JObj [("passes", JBool false)];
            JObj [("passes", JBool true)];
            JObj [("id", JNull)]; JObj [("id", JNull)];
            JObj [("id", JStr "")]; JObj [("id", JStr "")]]).
  - reflexivity.
  - reflexivity.
  - reflexivity.
  - repeat constructor.
  - reflexivity.
Defined.

End Validation_claims.

Section Missing_passes.

Import ShowStatus UpdateFeature ValidateFeatures Ledger.

Lemma In_ordered_by f l : In f l -> In f (ordered_by rank l).
Proof.
  intros Hin. unfold ordered_by. apply in_flat_map.
  exists (rank f). split; [apply rank_range |].
  apply filter_In. split; [exact Hin | apply Z.eqb_refl].
Qed.

(** Claim C9.  A feature record without a [passes] field is treated as
    failing: Mutate to failing finds it already failing and writes
    nothing, the recomputation of the metadata counts it under
    [failing] and not under [passing], and the selection keeps it among
    the failing candidates it orders. *)
Theorem missing_passes_is_failing f :
  is_obj f = true ->
  field "passes" f = None ->
  (forall w path data fs fid i dry_run,
     ledger_at w path data fs ->
     io_fails w OpenRead = false ->
     feature_with_id fid fs = Some (i, f) ->
     exists w',
       update_feature_status path fid false dry_run w = (Ok true, w')
       /\ stdout w' = (stdout w ++ [AlreadyMarked fid false])%list
       /\ files w' = files w)
  /\ (has_passes f = Ok false
      /\ lacks_passes f = Ok true
      /\ forall now data fs,
           features_of data fs ->
           Forall (fun g => is_obj g = true) fs ->
           metadata_ok data = true ->
           In f fs ->
           exists data',
             update_metadata now data = Ok data'
             /\ counter "failing" data' = Some (count fails fs)
             /\ counter "passing" data' = Some (count passes fs)
             /\ In f (List.filter fails fs)
             /\ ~ In f (List.filter passes fs))
  /\ (is_failing f = Ok true
      /\ forall data fs limit,
           features_of data fs ->
           Forall (fun g => selectable g = true) fs ->
           In f fs ->
           exists candidates,
             get_next_features data limit = Ok (slice_to limit candidates)
             /\ In f candidates
             /\ forall g, In g candidates <-> In g fs /\ fails g = true).
Proof.
  intros Ho Hnone.
  assert (Hp : passes f = false) by (unfold passes; now rewrite Hnone).
  assert (Hf : fails f = true) by (unfold fails; now rewrite Hp).
  split; [| split].
  - intros w path data fs fid i dry_run Hl Hio Hfind.
    rewrite (update_same_status w path data fs fid false dry_run i f); try assumption.
    + eexists. repeat split.
    + unfold same_status, current_status. now rewrite Hnone.
  - split; [now rewrite has_passes_passes, Hp |].
    split; [now rewrite lacks_passes_fails, Hf |].
    intros now data fs Hd Hfs Hm Hin.
    rewrite (update_metadata_refreshed now data fs) by assumption.
    assert (Hdo : is_obj data = true) by (destruct data; try discriminate; reflexivity).
    destruct (counter_refreshed now data fs Hdo) as (_ & Hcp & Hcf).
    eexists. split; [reflexivity |]. split; [exact Hcf |]. split; [exact Hcp |].
    split.
    + apply filter_In. now split.
    + intros Hin'. apply filter_In in Hin' as [_ Hin']. congruence.
  - split; [now rewrite is_failing_fails, Hf |].
    intros data fs limit Hd Hfs Hin.
    exists (ordered_by rank (List.filter fails fs)).
    split; [now apply get_next_features_ordered |].
    split; [apply In_ordered_by, filter_In; now split |].
    intros g. split.
    + intros Hg. unfold ordered_by in Hg. apply in_flat_map in Hg as (r & _ & Hg).
      apply filter_In in Hg as [Hg _]. now apply filter_In in Hg.
    + intros [Hg1 Hg2]. apply In_ordered_by, filter_In. now split.
Qed.

Lemma missing_passes_is_failing_witness :
  (exists w',
     update_feature_status ledger_path "F003" false false unmarked_disk = (Ok true, w')
     /\ stdout w' = (stdout unmarked_disk ++ [AlreadyMarked "F003" false])%list
     /\ files w' = files unmarked_disk)
  /\ (exists data',
        update_metadata "now" unmarked = Ok data'
        /\ counter "failing" data' = Some (count fails [F003])
        /\ counter "passing" data' = Some (count passes [F003])
        /\ In F003 (List.filter fails [F003])
        /\ ~ In F003 (List.filter passes [F003]))
  /\ (exists candidates,
        get_next_features unmarked 5 = Ok (slice_to 5 candidates)
        /\ In F003 candidates
        /\ forall g, In g candidates <-> In g [F003] /\ fails g = true).
Proof.
  destruct (missing_passes_is_failing F003 eq_refl eq_refl)
    as (Hmutate & (_ & _ & Hcount) & (_ & Hselect)).
  split; [| split].
  - apply (Hmutate unmarked_disk ledger_path unmarked [F003] "F003" 0%nat false).
    + split; [reflexivity |]. split; [reflexivity |]. repeat constructor.
    + reflexivity.
    + reflexivity.
  - apply (Hcount "now" unmarked [F003]).
    + reflexivity.
    + repeat constructor.
    + reflexivity.
    + now left.
  - apply (Hselect unmarked [F003] 5).
    + reflexivity.
    + repeat constructor.
    + now left.
Defined.

End Missing_passes.

(** ** More on the selection *)

Section Sorting_facts.

Import Vocabulary ShowStatus UpdateFeature ValidateFeatures Ledger.

Context {A : Type}.
Implicit Types (kx : Z * A) (l : list (Z * A)).

Lemma insert_keyed_perm kx l : Permutation (insert_keyed kx l) (kx :: l).
Proof.
  induction l as [| ky l IH]; simpl; [reflexivity |].
  destruct (fst ky <? fst kx); [| reflexivity].
  rewrite IH. apply perm_swap.
Qed.

Lemma sort_keyed_perm l : Permutation (sort_keyed l) l.
Proof.
  induction l as [| kx l IH]; simpl; [reflexivity |].
  rewrite insert_keyed_perm. now constructor.
Qed.

Lemma insert_keyed_sorted kx l :
  StronglySorted (fun a b => fst a <= fst b) l ->
  StronglySorted (fun a b => fst a <= fst b) (insert_keyed kx l).
Proof.
  induction 1 as [| ky l Hs IH Hk]; simpl; [repeat constructor |].
  destruct (Z.ltb_spec (fst ky) (fst kx)).
  - constructor; [exact IH |].
    rewrite insert_keyed_perm. constructor; [lia | exact Hk].
  - constructor; [now constructor |].
    constructor; [lia |].
    eapply List.Forall_impl; [| exact Hk]. simpl. intros; lia.
Qed.

Lemma sort_keyed_sorted l :
  StronglySorted (fun a b => fst a <= fst b) (sort_keyed l).
Proof.
  induction l as [| kx l IH]; simpl; [constructor | now apply insert_keyed_sorted].
Qed.

End Sorting_facts.

Section Selection_extras.

Import Vocabulary ShowStatus UpdateFeature ValidateFeatures Ledger.

Lemma ordered_by_perm l : Permutation (ordered_by rank l) l.
Proof.
  rewrite <- sorted_is_ordered.
  rewrite sort_keyed_perm, combine_keys.
  rewrite map_map. simpl. now rewrite map_id.
Qed.

Lemma StronglySorted_map_snd (rk : json -> Z) (l : list (Z * json)) :
  Forall (fun y => fst y = rk (snd y)) l ->
  StronglySorted (fun a b => fst a <= fst b) l ->
  StronglySorted (fun a b => rk a <= rk b) (map snd l).
Proof.
  intros Hk Hs. induction Hs as [| y l Hs IH Hy]; simpl; [constructor |].
  inversion Hk as [| ? ? Hy0 Hk']; subst.
  constructor; [now apply IH |].
  apply List.Forall_forall. intros b Hb.
  apply in_map_iff in Hb as (z & <- & Hz).
  rewrite List.Forall_forall in Hy, Hk'.
  specialize (Hy z Hz). specialize (Hk' z Hz). simpl in *. lia.
Qed.

Lemma ordered_by_sorted l :
  StronglySorted (fun a b => rank a <= rank b) (ordered_by rank l).
Proof.
  rewrite <- sorted_is_ordered. apply StronglySorted_map_snd.
  - rewrite sort_keyed_perm, combine_keys.
    apply List.Forall_forall. intros y Hy.
    apply in_map_iff in Hy as (f & <- & _). reflexivity.
  - apply sort_keyed_sorted.
Qed.

Lemma StronglySorted_firstn {B : Type} (R : B -> B -> Prop) n (l : list B) :
  StronglySorted R l -> StronglySorted R (firstn n l).
Proof.
  intros Hs. revert n. induction Hs as [| x l Hs IH Hx]; intros [| n]; simpl;
    try constructor.
  - apply IH.
  - apply List.Forall_forall. intros y Hy.
    rewrite List.Forall_forall in Hx. apply Hx.
    clear -Hy. revert n Hy. induction l as [| z l IH]; intros [| n] Hy;
      simpl in *; try contradiction.
    destruct Hy as [-> | Hy]; [now left | right; eauto].
Qed.

Lemma In_firstn {B : Type} n (l : list B) x : In x (firstn n l) -> In x l.
Proof.
  revert n. induction l as [| z l IH]; intros [| n] Hy;
    simpl in *; try contradiction.
  destruct Hy as [-> | Hy]; [now left | right; eauto].
Qed.

Lemma slice_to_firstn {B : Type} n (l : list B) :
  0 <= n -> slice_to n l = firstn (Z.to_nat n) l.
Proof.
  intros H. unfold slice_to. destruct (Z.leb_spec 0 n); [reflexivity | lia].
Qed.

(** Property X1.  For a ledger of selectable features and a limit that
    is not negative, [get_next_features] returns at most [limit]
    features, each a failing feature of the ledger, in an order of
    non-decreasing rank; when the limit is not below the number of
    failing features, it returns all of them, each once. *)
Theorem next_features_within_limit data fs limit :
  features_of data fs ->
  Forall (fun f => selectable f = true) fs ->
  0 <= limit ->
  exists l,
    get_next_features data limit = Ok l
    /\ Z.of_nat (List.length l) <= limit
    /\ (forall f, In f l -> In f fs /\ fails f = true)
    /\ StronglySorted (fun a b => rank a <= rank b) l
    /\ (count fails fs <= limit -> Permutation l (List.filter fails fs)).
Proof.
  intros Hd Hfs Hl.
  rewrite (get_next_features_ordered data fs limit) by assumption.
  rewrite slice_to_firstn by assumption.
  eexists. split; [reflexivity |].
  split; [pose proof (firstn_le_length (Z.to_nat limit)
                        (ordered_by rank (List.filter fails fs))); lia |].
  split.
  - intros f Hf. apply In_firstn in Hf.
    apply (Permutation_in _ (ordered_by_perm _)) in Hf.
    now apply filter_In in Hf.
  - split; [apply StronglySorted_firstn, ordered_by_sorted |].
    intros Hc. rewrite firstn_all2; [apply ordered_by_perm |].
    rewrite (Permutation_length (ordered_by_perm _)). unfold count in Hc. lia.
Qed.

Lemma next_features_within_limit_witness :
  exists l,
    get_next_features scenario 1 = Ok l
    /\ Z.of_nat (List.length l) <= 1
    /\ (forall f, In f l -> In f [F001; F002] /\ fails f = true)
    /\ StronglySorted (fun a b => rank a <= rank b) l
    /\ (count fails [F001; F002] <= 1 -> Permutation l (List.filter fails [F001; F002])).
Proof.
  apply (next_features_within_limit scenario [F001; F002] 1).
  - reflexivity.
  - repeat constructor.
  - lia.
Defined.

(** Property X2.  For a ledger of selectable features, the next feature
    is the "complete" answer exactly when every feature passes; and a
    feature that is returned is a failing feature of the ledger whose
    rank no failing feature undercuts. *)
Theorem next_feature_complete_iff data fs :
  features_of data fs ->
  Forall (fun f => selectable f = true) fs ->
  (NextFeature data = Ok None <-> Forall (fun f => passes f = true) fs)
  /\ (forall f, NextFeature data = Ok (Some f) ->
        In f fs /\ fails f = true
        /\ forall g, In g fs -> fails g = true -> rank f <= rank g).
Proof.
  intros Hd Hfs.
  assert (E : NextFeature data = Ok (head (ordered_by rank (List.filter fails fs)))).
  { unfold NextFeature. rewrite (get_next_features_ordered data fs) by assumption.
    simpl. now rewrite head_slice_to. }
  rewrite E. split.
  - split.
    + intros [= H]. apply List.Forall_forall. intros f Hf.
      destruct (passes f) eqn:Ep; [reflexivity | exfalso].
      assert (Hin : In f (ordered_by rank (List.filter fails fs))).
      { apply (Permutation_in _ (Permutation_sym (ordered_by_perm _))).
        apply filter_In. split; [exact Hf |]. unfold fails. now rewrite Ep. }
      destruct (ordered_by rank (List.filter fails fs)); [destruct Hin | discriminate].
    + intros Hall.
      assert (Hnil : List.filter fails fs = []).
      { clear -Hall. induction Hall as [| f fs Hf _ IH]; simpl; [reflexivity |].
        unfold fails at 1. now rewrite Hf. }
      rewrite Hnil. reflexivity.
  - intros f [= Hh].
    pose proof (ordered_by_sorted (List.filter fails fs)) as Hs.
    pose proof (ordered_by_perm (List.filter fails fs)) as Hp.
    destruct (ordered_by rank (List.filter fails fs)) as [| x l]; [discriminate |].
    simpl in Hh. injection Hh as ->.
    assert (Hin : In f (List.filter fails fs))
      by (apply (Permutation_in _ Hp); now left).
    apply filter_In in Hin as [Hin Hf]. split; [exact Hin |]. split; [exact Hf |].
    intros g Hg Hgf.
    assert (Hg' : In g (f :: l)).
    { apply (Permutation_in _ (Permutation_sym Hp)). apply filter_In. now split. }
    destruct Hg' as [-> | Hg']; [lia |].
    inversion Hs as [| ? ? _ Hall]; subst.
    rewrite List.Forall_forall in Hall. now apply Hall.
Qed.

Lemma next_feature_complete_iff_witness :
  (NextFeature scenario = Ok None <-> Forall (fun f => passes f = true) [F001; F002])
  /\ (forall f, NextFeature scenario = Ok (Some f) ->
        In f [F001; F002] /\ fails f = true
        /\ forall g, In g [F001; F002] -> fails g = true -> rank f <= rank g).
Proof.
  apply (next_feature_complete_iff scenario [F001; F002]).
  - reflexivity.
  - repeat constructor.
Defined.

Lemma filterM_is_failing_raises fs :
  Exists (fun f => is_obj f = false) fs ->
  filterM is_failing fs = Raise AttributeError.
Proof.
  induction fs as [| f fs IH]; intros H; [inversion H |].
  simpl. destruct f; try reflexivity.
  inversion H as [? ? Hf | ? ? Hrest]; subst; [discriminate |].
  unfold is_failing at 1. simpl py_get. cbn [bind].
  now rewrite IH.
Qed.

Lemma mapM_sort_key_raises l :
  Forall (fun f => is_obj f = true) l ->
  Exists (fun f => match field "priority" f with
                   | Some p => hashable p = false
                   | None => False
                   end) l ->
  mapM sort_key l = Raise TypeError.
Proof.
  induction 1 as [| f l Hf _ IH]; intros H; [inversion H |].
  destruct f as [| | | | | kvs]; try discriminate.
  simpl. unfold sort_key at 1. simpl py_get. cbn [bind].
  inversion H as [? ? Hbad | ? ? Hrest]; subst.
  - unfold field in Hbad. destruct (lookup_field "priority" kvs) as [p |]; [| contradiction].
    destruct p; try discriminate; reflexivity.
  - rewrite (IH Hrest).
    destruct (match lookup_field "priority" kvs with Some x => x | None => JStr "low" end);
      reflexivity.
Qed.

(** Property X3.  [get_next_features] ends with an exception, and
    returns no list, on a ledger with a feature that is not a record
    ([AttributeError]) and on a ledger of records in which a failing
    feature has a list or a dict as its priority ([TypeError]). *)
Theorem next_features_rejects_malformed data fs limit :
  features_of data fs ->
  (Exists (fun f => is_obj f = false) fs ->
     get_next_features data limit = Raise AttributeError)
  /\ (Forall (fun f => is_obj f = true) fs ->
      Exists (fun f => fails f = true
                       /\ exists p, field "priority" f = Some p /\ hashable p = false) fs ->
        get_next_features data limit = Raise TypeError).
Proof.
  intros Hd. unfold features_of in Hd. split.
  - intros Hex. unfold get_next_features. rewrite Hd. simpl.
    now rewrite filterM_is_failing_raises.
  - intros Hobj Hex. unfold get_next_features. rewrite Hd. simpl.
    rewrite (filterM_pure is_failing fails) by
      (eapply List.Forall_impl; [| exact Hobj]; intros f Hf; now apply is_failing_fails).
    simpl. rewrite mapM_sort_key_raises; [reflexivity | |].
    + apply List.Forall_forall. intros f Hf. apply filter_In in Hf as [Hf _].
      rewrite List.Forall_forall in Hobj. now apply Hobj.
    + apply List.Exists_exists in Hex as (f & Hin & Hf & p & Hp & Hh).
      apply List.Exists_exists. exists f. split; [apply filter_In; now split |].
      now rewrite Hp.
Qed.

Lemma next_features_rejects_malformed_witness :
  get_next_features (JObj [("features", JArr [F001; JInt 7])]) 5 = Raise AttributeError
  /\ get_next_features
       (JObj [("features", JArr [F001; JObj [("priority", JArr [])]])]) 5
     = Raise TypeError.
Proof.
  split.
  - apply (proj1 (next_features_rejects_malformed
                    (JObj [("features", JArr [F001; JInt 7])]) [F001; JInt 7] 5
                    eq_refl)).
    apply Exists_cons_tl. apply Exists_cons_hd. reflexivity.
  - apply (proj2 (next_features_rejects_malformed
                    (JObj [("features", JArr [F001; JObj [("priority", JArr [])]])])
                    [F001; JObj [("priority", JArr [])]] 5 eq_refl)).
    + repeat constructor.
    + apply Exists_cons_tl. apply Exists_cons_hd.
      split; [reflexivity |]. exists (JArr []). split; reflexivity.
Defined.

End Selection_extras.

(** ** What an update can touch *)

Section Frame.

Import Vocabulary ShowStatus UpdateFeature ValidateFeatures Ledger.

Lemma keeps_ret {A : Type} (a : A) : keeps (ret a).
Proof. intros w. exists []. simpl. now rewrite printed_nil. Qed.

Lemma keeps_lift {A : Type} (r : result A) : keeps (lift r).
Proof. intros w. exists []. simpl. now rewrite printed_nil. Qed.

Lemma keeps_print m : keeps (print m).
Proof. intros w. now exists [m]. Qed.

Lemma keeps_bind {A B : Type} (m : io A) (k : A -> io B) :
  keeps m -> (forall a, keeps (k a)) -> keeps (io_bind m k).
Proof.
  intros Hm Hk w. unfold io_bind.
  destruct (Hm w) as (m1 & E1). destruct (m w) as [[a | e] w1]; simpl in E1; subst w1.
  - destruct (Hk a (printed m1 w)) as (m2 & E2). exists (m1 ++ m2)%list.
    now rewrite E2, printed_printed.
  - now exists m1.
Qed.

Lemma keeps_for_each {A : Type} (body : A -> io unit) l :
  (forall x, keeps (body x)) -> keeps (for_each body l).
Proof.
  intros H. induction l as [| x l IH]; simpl; [apply keeps_ret |].
  apply keeps_bind; [apply H | intros _; exact IH].
Qed.

Lemma keeps_read_file p : keeps (read_file p).
Proof.
  intros w. exists []. rewrite printed_nil. unfold read_file.
  destruct (files w !! p); [destruct (io_fails w OpenRead) |]; reflexivity.
Qed.

Lemma keeps_load p : keeps (load_feature_list p).
Proof.
  apply keeps_bind; [apply keeps_read_file | intros c; apply keeps_lift].
Qed.

Lemma keeps_print_available f : keeps (print_available f).
Proof.
  unfold print_available.
  repeat (apply keeps_bind; [apply keeps_lift | intros ?]). apply keeps_print.
Qed.

Lemma keeps_report_not_found data fid : keeps (report_not_found data fid).
Proof.
  unfold report_not_found.
  repeat first
    [ apply keeps_ret | apply keeps_print | apply keeps_lift
    | apply keeps_for_each; intros ?; apply keeps_print_available
    | apply keeps_bind; [| intros ?]
    | match goal with |- keeps (if ?c then _ else _) => destruct c end ].
Qed.

End Frame.

Section Update_frame.

Import Vocabulary ShowStatus UpdateFeature ValidateFeatures Ledger.

Lemma confined_refl path w : confined path w w.
Proof. repeat split. Qed.

Lemma confined_printed path msgs w w' :
  confined path w w' -> confined path w (printed msgs w').
Proof. intros H. exact H. Qed.

Lemma confined_trans path w1 w2 w3 :
  confined path w1 w2 -> confined path w2 w3 -> confined path w1 w3.
Proof.
  intros (Hc1 & Hi1 & Hf1) (Hc2 & Hi2 & Hf2).
  split; [congruence |]. split; [congruence |].
  intros q Hq Hb. rewrite Hf2, Hf1 by assumption. reflexivity.
Qed.

(** What [save_feature_list] can do to the world. *)
Lemma save_feature_list_outcomes path data w :
  let r := save_feature_list path data true w in
  confined path w (snd r)
  /\ stdout (snd r) = stdout w
  /\ (forall u, fst r = Ok u -> exists bak, with_suffix path backup_suffix = Ok bak)
  /\ (no_faults (io_fails w) -> fst r <> Ok tt -> snd r = w).
Proof.
  unfold save_feature_list, io_bind, lift, shutil_copy, write_json.
  destruct (with_suffix path backup_suffix) as [bak | e] eqn:Hb; cbn [fst snd].
  2: { split; [apply confined_refl |]. split; [reflexivity |].
       split; [intros u [=] | reflexivity]. }
  destruct (files w !! path) as [c |]; cbn [fst snd].
  2: { split; [apply confined_refl |]. split; [reflexivity |].
       split; [intros u [=] | reflexivity]. }
  destruct (decide (path = bak)) as [E | Hne]; cbn [fst snd].
  { split; [apply confined_refl |]. split; [reflexivity |].
    split; [intros u [=] | reflexivity]. }
  assert (Hc : forall fs', (forall q, q <> path -> q <> bak -> fs' !! q = files w !! q) ->
                confined path w (with_files fs' w)).
  { intros fs' H. split; [reflexivity |]. split; [reflexivity |].
    intros q Hq Hqb. apply H; [exact Hq | now apply Hqb]. }
  destruct (io_fails w CopyOpen) eqn:E1; cbn [fst snd].
  { split; [apply confined_refl |]. split; [reflexivity |].
    split; [intros u [=] | reflexivity]. }
  destruct (io_fails w CopyData) eqn:E2; cbn [fst snd].
  { split; [apply Hc; intros q Hq1 Hq2; now rewrite lookup_insert_ne by congruence |].
    split; [reflexivity |]. split; [intros u [=] |].
    intros Hno. now rewrite Hno in E2. }
  cbn [io_fails with_files files].
  destruct (io_fails w OpenWrite) eqn:E3; cbn [fst snd].
  { split; [apply Hc; intros q Hq1 Hq2; now rewrite lookup_insert_ne by congruence |].
    split; [reflexivity |]. split; [intros u [=] |].
    intros Hno. now rewrite Hno in E3. }
  destruct (io_fails w Dump) eqn:E4; cbn [fst snd].
  { split; [apply Hc; intros q Hq1 Hq2; now rewrite !lookup_insert_ne by congruence |].
    split; [reflexivity |]. split; [intros u [=] |].
    intros Hno. now rewrite Hno in E4. }
  split; [apply Hc; intros q Hq1 Hq2; now rewrite !lookup_insert_ne by congruence |].
  split; [reflexivity |]. split; [intros u _; now exists bak |].
  intros _ Hu. now destruct Hu.
Qed.

Lemma set_metadata_shape d k x d' :
  set_metadata d k x = Ok d' ->
  exists kvs m, d' = JObj kvs /\ lookup_field "metadata" kvs = Some (JObj m).
Proof.
  unfold set_metadata. destruct d as [| | | | | kvs]; try discriminate.
  simpl. destruct (lookup_field "metadata" kvs) as [meta |]; [| discriminate].
  simpl. destruct meta; try discriminate. simpl. intros [= <-].
  eexists _, _. split; [reflexivity | apply lookup_set_eq].
Qed.

Lemma update_metadata_shape now d d' :
  update_metadata now d = Ok d' ->
  exists kvs m, d' = JObj kvs /\ lookup_field "metadata" kvs = Some (JObj m).
Proof.
  unfold update_metadata.
  repeat (match goal with
          | |- context [bind ?x _] =>
              match x with
              | set_metadata _ "last_updated" _ => fail 1
              | _ => destruct x; cbn [bind]; [| discriminate]
              end
          end).
  apply set_metadata_shape.
Qed.

(** The change: nothing but the save touches the files, and once the
    save has succeeded the call returns [True]. *)
Lemma apply_change_outcomes path data fid i p w :
  let r := apply_change path data fid i p w in
  confined path w (snd r)
  /\ fst r <> Ok false
  /\ (no_faults (io_fails w) -> fst r <> Ok true -> files (snd r) = files w).
Proof.
  intros r. assert (Er : r = apply_change path data fid i p w) by reflexivity.
  clearbody r. unfold apply_change in Er.
  unfold io_bind at 1 in Er. unfold lift at 1 in Er.
  destruct (set_passes data i p) as [d1 | e].
  2: { subst r. cbn [fst snd]. split; [apply confined_refl |].
       split; [discriminate | reflexivity]. }
  unfold io_bind at 1 in Er. unfold io_bind at 1 in Er. unfold lift at 1 in Er.
  destruct (update_metadata (clock w) d1) as [d2 | e] eqn:Eu.
  2: { subst r. cbn [fst snd]. split; [apply confined_refl |].
       split; [discriminate | reflexivity]. }
  apply update_metadata_shape in Eu as (kvs & m & -> & Hm).
  unfold io_bind at 1 in Er.
  destruct (save_feature_list_outcomes path (JObj kvs) w) as (Hc & Hout & Hok & Hno).
  destruct (save_feature_list path (JObj kvs) true w) as [[u | e] w1]; cbn [fst snd] in *.
  2: { subst r. cbn [fst snd]. split; [exact Hc |]. split; [discriminate |].
       intros Hf _. rewrite (Hno Hf); [reflexivity | discriminate]. }
  destruct (Hok u eq_refl) as (bak & Hb).
  unfold io_bind, lift, print, ret in Er. rewrite Hb in Er. simpl py_get in Er.
  rewrite Hm in Er. subst r.
  cbn [fst snd]. split; [exact Hc |]. split; [discriminate |]. intros _ H. now destruct H.
Qed.

End Update_frame.

Section Update_cases.

Import Vocabulary ShowStatus UpdateFeature ValidateFeatures Ledger.

(** Every run of [update_feature_status] either only prints or reaches
    the change after printing. *)
Lemma update_feature_status_cases path fid p dry w :
  let r := update_feature_status path fid p dry w in
  (exists msgs, snd r = printed msgs w)
  \/ (dry = false
      /\ exists data i msgs,
           files w !! path = Some (Doc data)
           /\ r = apply_change path data fid i p (printed msgs w)).
Proof.
  intros r. assert (Er : r = update_feature_status path fid p dry w) by reflexivity.
  clearbody r. unfold update_feature_status in Er.
  unfold load_feature_list, io_bind, read_file, lift in Er.
  destruct (files w !! path) as [c |] eqn:Hfile.
  2: { left. subst r. now exists [ErrorFileNotFound path]. }
  destruct (io_fails w OpenRead).
  { left. subst r. exists []. now rewrite printed_nil. }
  destruct c as [data | s |]; cbn [json_load] in Er.
  2, 3: left; subst r; now exists [ErrorInvalidJSON path].
  destruct (find_feature data fid) as [[[i f] |] | e].
  - destruct (py_get f "passes" (JBool false)) as [cur | e].
    2: { left. subst r. exists []. now rewrite printed_nil. }
    destruct (py_eq cur (JBool p)).
    { left. subst r. now exists [AlreadyMarked fid p]. }
    unfold print in Er. cbn [stdout with_stdout files clock io_fails] in Er.
    destruct (py_get f "description" (JStr "N/A")) as [d |].
    2: { left. subst r. now exists [ShowFeature fid]. }
    destruct (py_get f "category" (JStr "N/A")) as [c |].
    2: { left. subst r. exists [ShowFeature fid; ShowDescription d].
         cbn [snd]. unfold printed, with_stdout. cbn [stdout files clock io_fails].
         now rewrite <- app_assoc. }
    destruct dry.
    + left. subst r.
      exists [ShowFeature fid; ShowDescription d; ShowCategory c;
              ShowChange (truthy cur) p; DryRunNoChanges].
      cbn [snd]. unfold printed, with_stdout, ret. cbn [stdout files clock io_fails snd].
      now rewrite <- !app_assoc.
    + right. split; [reflexivity |].
      exists data, i,
        [ShowFeature fid; ShowDescription d; ShowCategory c; ShowChange (truthy cur) p].
      split; [reflexivity |]. subst r. f_equal.
      unfold printed, with_stdout. cbn [stdout files clock io_fails].
      now rewrite <- !app_assoc.
  - left. subst r. apply (keeps_report_not_found data fid w).
  - left. subst r. exists []. now rewrite printed_nil.
Qed.

End Update_cases.

Section Update_extras.

Import Vocabulary ShowStatus UpdateFeature ValidateFeatures Ledger.

(** Property X4.  A dry run of [update_feature_status] writes nothing:
    whatever the disk holds and whatever the operating system refuses,
    every file is afterwards as it was before, and the run can only
    have added lines to the output. *)
Theorem dry_run_writes_nothing path fid p w :
  let r := update_feature_status path fid p true w in
  files (snd r) = files w
  /\ exists msgs, stdout (snd r) = (stdout w ++ msgs)%list.
Proof.
  intros r. destruct (update_feature_status_cases path fid p true w)
    as [(msgs & E) | (Hdry & _)]; [| discriminate].
  fold r in E. rewrite E. split; [reflexivity | now exists msgs].
Qed.

(** Property X5.  [update_feature_status] never touches a file other
    than the ledger and its backup, whatever happens; and when it
    returns [False] no file at all has changed. *)
Theorem update_touches_only_ledger_and_backup path fid p dry w :
  let r := update_feature_status path fid p dry w in
  (forall q, q <> path ->
     (forall bak, with_suffix path backup_suffix = Ok bak -> q <> bak) ->
     files (snd r) !! q = files w !! q)
  /\ (fst r = Ok false -> files (snd r) = files w).
Proof.
  intros r. destruct (update_feature_status_cases path fid p dry w)
    as [(msgs & E) | (_ & data & i & msgs & _ & E)]; fold r in E.
  - rewrite E. split; reflexivity.
  - rewrite E.
    destruct (apply_change_outcomes path data fid i p (printed msgs w))
      as ((_ & _ & Hc) & Hnf & _).
    split; [exact Hc |]. intros H. now destruct Hnf.
Qed.

Lemma update_touches_only_ledger_and_backup_witness :
  files (snd (update_feature_status ledger_path "F002" true false disk)) !! txt_path
  = files disk !! txt_path
  /\ files (snd (update_feature_status ledger_path "F999" true false disk))
     = files disk.
Proof.
  split.
  - apply (proj1 (update_touches_only_ledger_and_backup
                    ledger_path "F002" true false disk)).
    + discriminate.
    + intros bak Hb. vm_compute in Hb. injection Hb as <-. discriminate.
  - apply (proj2 (update_touches_only_ledger_and_backup
                    ledger_path "F999" true false disk)).
    reflexivity.
Defined.

(** Property X6.  When the operating system refuses nothing, an
    [update_feature_status] that does not return [True], be it by
    returning [False] or by an exception, has changed no file. *)
Theorem update_changes_files_only_on_success path fid p dry w :
  no_faults (io_fails w) ->
  let r := update_feature_status path fid p dry w in
  fst r <> Ok true -> files (snd r) = files w.
Proof.
  intros Hno r. destruct (update_feature_status_cases path fid p dry w)
    as [(msgs & E) | (_ & data & i & msgs & _ & E)]; fold r in E.
  - now rewrite E.
  - rewrite E.
    destruct (apply_change_outcomes path data fid i p (printed msgs w))
      as (_ & _ & Hall).
    intros H. now rewrite Hall.
Qed.

Lemma update_changes_files_only_on_success_witness :
  files (snd (update_feature_status ledger_path "F999" true false disk)) = files disk.
Proof.
  apply (update_changes_files_only_on_success ledger_path "F999" true false disk).
  - intros op. reflexivity.
  - discriminate.
Defined.

(** Property X7.  [update_feature_status] on a ledger it cannot load: a
    missing file and a file that is not JSON are reported by one error
    line each and the value [False], the world being otherwise
    untouched; any other failure to open the file is not caught and
    ends the call with the exception, nothing being printed. *)
Theorem update_reports_unreadable_ledger path fid p dry w :
  let r := update_feature_status path fid p dry w in
  (files w !! path = None ->
     r = (Ok false, printed [ErrorFileNotFound path] w))
  /\ (forall c, files w !! path = Some c -> io_fails w OpenRead = false ->
        (forall data, c <> Doc data) ->
        r = (Ok false, printed [ErrorInvalidJSON path] w))
  /\ (forall c, files w !! path = Some c -> io_fails w OpenRead = true ->
        r = (Raise OSError, w)).
Proof.
  intros r. subst r. unfold update_feature_status, load_feature_list, io_bind,
    read_file, lift.
  split; [| split].
  - intros ->. reflexivity.
  - intros c -> -> Hc. destruct c as [data | s |]; [now destruct (Hc data) | |];
      reflexivity.
  - intros c -> ->. reflexivity.
Qed.

Lemma update_reports_unreadable_ledger_witness :
  update_feature_status txt_path "F001" true false disk
  = (Ok false, printed [ErrorFileNotFound txt_path] disk)
  /\ update_feature_status ledger_path "F001" true false
       (World {[ ledger_path := Text "not json" ]} [] "2024-01-01T00:00:00" never)
     = (Ok false,
        printed [ErrorInvalidJSON ledger_path]
          (World {[ ledger_path := Text "not json" ]} [] "2024-01-01T00:00:00" never))
  /\ update_feature_status ledger_path "F001" true false
       (World {[ ledger_path := Doc scenario ]} [] "2024-01-01T00:00:00"
              (fun _ => true))
     = (Raise OSError,
        World {[ ledger_path := Doc scenario ]} [] "2024-01-01T00:00:00"
              (fun _ => true)).
Proof.
  split; [| split].
  - apply (proj1 (update_reports_unreadable_ledger txt_path "F001" true false disk)).
    reflexivity.
  - apply (proj1 (proj2 (update_reports_unreadable_ledger ledger_path "F001" true false
                           (World {[ ledger_path := Text "not json" ]} []
                                  "2024-01-01T00:00:00" never)))
             (Text "not json")).
    + reflexivity.
    + reflexivity.
    + discriminate.
  - apply (proj2 (proj2 (update_reports_unreadable_ledger ledger_path "F001" true false
                           (World {[ ledger_path := Doc scenario ]} []
                                  "2024-01-01T00:00:00" (fun _ => true))))
             (Doc scenario)).
    + reflexivity.
    + reflexivity.
Defined.

End Update_extras.

Section Mutation_extras.

Import Vocabulary ShowStatus UpdateFeature ValidateFeatures Ledger.

Lemma field_with_passes_other b f k :
  k <> "passes" -> field k (with_passes b f) = field k f.
Proof.
  intros Hk. destruct f; try reflexivity. unfold with_passes, field.
  now rewrite lookup_set_ne by congruence.
Qed.

Lemma field_with_passes b f :
  is_obj f = true -> field "passes" (with_passes b f) = Some (JBool b).
Proof.
  destruct f; try discriminate. intros _. apply lookup_set_eq.
Qed.

Lemma has_id_with_passes fid b f : has_id fid (with_passes b f) = has_id fid f.
Proof.
  unfold has_id. now rewrite field_with_passes_other by discriminate.
Qed.

Lemma field_mutated_other now data fs i b k :
  k <> "features" -> k <> "metadata" ->
  field k (mutated now data fs i b) = field k data.
Proof.
  intros H1 H2. destruct data; try reflexivity.
  unfold mutated, refreshed, with_feature_status, field.
  now rewrite !lookup_set_ne by congruence.
Qed.

Lemma field_features_mutated now data fs i b :
  is_obj data = true ->
  field "features" (mutated now data fs i b)
  = Some (JArr (alter (with_passes b) i fs)).
Proof.
  destruct data; try discriminate. intros _.
  unfold mutated, refreshed, with_feature_status, field.
  now rewrite lookup_set_ne, lookup_set_eq by discriminate.
Qed.

Lemma metadata_mutated now data fs i b :
  is_obj data = true ->
  field "metadata" (mutated now data fs i b)
  = Some (recomputed now (metadata_fields data) (alter (with_passes b) i fs)).
Proof.
  destruct data; try discriminate. intros _.
  unfold mutated, refreshed, with_feature_status, field, metadata_fields, field.
  rewrite lookup_set_eq. do 2 f_equal.
  now rewrite lookup_set_ne by discriminate.
Qed.

Lemma field_recomputed_other now old fs k :
  k <> "total_features" -> k <> "passing" -> k <> "failing" -> k <> "last_updated" ->
  field k (recomputed now old fs) = lookup_field k old.
Proof.
  intros. unfold recomputed, field. now rewrite !lookup_set_ne by congruence.
Qed.

(** Property X8.  A Mutate that changes the status writes a document
    that differs from the one it read only as follows: the feature
    list has the same length and the same records but for the feature
    found, whose fields other than [passes] are as before and whose
    [passes] is the new status; the keys of the ledger other than
    [features] and [metadata] are as before; and the metadata keeps
    every field but the three counts and [last_updated], which is the
    reading of the clock. *)
Theorem mutate_changes_only_passes w path data fs fid new_passes i f :
  ledger_at w path data fs ->
  metadata_ok data = true ->
  no_faults (io_fails w) ->
  name path <> "" ->
  feature_with_id fid fs = Some (i, f) ->
  same_status f new_passes = false ->
  exists w' data' fs' meta',
    update_feature_status path fid new_passes false w = (Ok true, w')
    /\ files w' !! path = Some (Doc data')
    /\ features_of data' fs'
    /\ List.length fs' = List.length fs
    /\ (forall j, j <> i -> fs' !! j = fs !! j)
    /\ (exists f', fs' !! i = Some f'
                   /\ field "passes" f' = Some (JBool new_passes)
                   /\ forall k, k <> "passes" -> field k f' = field k f)
    /\ (forall k, k <> "features" -> k <> "metadata" -> field k data' = field k data)
    /\ field "metadata" data' = Some meta'
    /\ field "last_updated" meta' = Some (JStr (clock w))
    /\ (forall k, k <> "total_features" -> k <> "passing" -> k <> "failing" ->
                  k <> "last_updated" ->
                  field k meta' = lookup_field k (metadata_fields data)).
Proof.
  intros Hl Hm Hio Hn Hfind Hsame.
  destruct (with_suffix_total path Hn) as [bak Hb].
  rewrite (update_changes_status w path data fs fid new_passes i f bak) by assumption.
  destruct Hl as (_ & Hd & Hfs).
  apply feature_with_id_lookup in Hfind as [Hi _].
  assert (Hobj : is_obj f = true).
  { rewrite List.Forall_forall in Hfs. apply Hfs.
    apply list_elem_of_In. eapply list_elem_of_lookup_2. exact Hi. }
  assert (Hdo : is_obj data = true) by (destruct data; try discriminate; reflexivity).
  eexists _, _, (alter (with_passes new_passes) i fs), _.
  split; [reflexivity |].
  split; [unfold printed, with_files, with_stdout; cbn [files]; apply lookup_insert_eq |].
  split; [apply features_of_refreshed, features_of_with_status, Hd |].
  split; [apply length_alter |].
  split; [intros j Hj; now apply list_lookup_alter_ne |].
  split.
  { exists (with_passes new_passes f).
    split; [rewrite list_lookup_alter_eq, Hi; reflexivity |].
    split; [now apply field_with_passes |].
    intros k Hk. now apply field_with_passes_other. }
  split; [intros k H1 H2; now apply field_mutated_other |].
  split; [now apply metadata_mutated |].
  split; [unfold recomputed, field; apply lookup_set_eq |].
  intros k H1 H2 H3 H4. now rewrite field_recomputed_other by assumption.
Qed.

Lemma mutate_changes_only_passes_witness :
  exists w' data' fs' meta',
    update_feature_status ledger_path "F002" true false disk = (Ok true, w')
    /\ files w' !! ledger_path = Some (Doc data')
    /\ features_of data' fs'
    /\ List.length fs' = List.length [F001; F002]
    /\ (forall j, j <> 1%nat -> fs' !! j = [F001; F002] !! j)
    /\ (exists f', fs' !! 1%nat = Some f'
                   /\ field "passes" f' = Some (JBool true)
                   /\ forall k, k <> "passes" -> field k f' = field k F002)
    /\ (forall k, k <> "features" -> k <> "metadata" -> field k data' = field k scenario)
    /\ field "metadata" data' = Some meta'
    /\ field "last_updated" meta' = Some (JStr (clock disk))
    /\ (forall k, k <> "total_features" -> k <> "passing" -> k <> "failing" ->
                  k <> "last_updated" ->
                  field k meta' = lookup_field k (metadata_fields scenario)).
Proof.
  apply (mutate_changes_only_passes disk ledger_path scenario [F001; F002]
           "F002" true 1%nat F002).
  - split; [reflexivity |]. split; [reflexivity |]. repeat constructor.
  - reflexivity.
  - intros op. reflexivity.
  - discriminate.
  - reflexivity.
  - reflexivity.
Defined.

End Mutation_extras.

Section Composition.

Import Vocabulary ShowStatus UpdateFeature ValidateFeatures Ledger.

Lemma feature_from_alter k fid fs i f b :
  feature_from k fid fs = Some (i, f) ->
  feature_from k fid (alter (with_passes b) (i - k)%nat fs)
  = Some (i, with_passes b f).
Proof.
  revert k. induction fs as [| g fs IH]; intros k; simpl; [discriminate |].
  destruct (has_id fid g) eqn:Eg.
  - intros [= <- <-]. rewrite Nat.sub_diag. simpl.
    now rewrite has_id_with_passes, Eg.
  - intros H. pose proof (feature_from_lookup _ _ _ _ _ H) as (Hle & _ & _).
    replace (i - k)%nat with (S (i - S k)) by lia. simpl. rewrite Eg.
    now apply IH.
Qed.

Lemma feature_with_id_alter fid fs i f b :
  feature_with_id fid fs = Some (i, f) ->
  feature_with_id fid (alter (with_passes b) i fs) = Some (i, with_passes b f).
Proof.
  intros H. unfold feature_with_id in *.
  pose proof (feature_from_alter 0 fid fs i f b H) as H'.
  now rewrite Nat.sub_0_r in H'.
Qed.

Lemma same_status_with_passes b f :
  is_obj f = true -> same_status (with_passes b f) b = true.
Proof.
  intros Ho. unfold same_status, current_status.
  rewrite field_with_passes by assumption. simpl. now destruct b.
Qed.

Lemma ledger_at_after w path data fs fid new_passes i f bak :
  ledger_at w path data fs ->
  fs !! i = Some f ->
  let w' := printed (change_preview fid f new_passes
                     ++ change_report fid new_passes bak
                          (alter (with_passes new_passes) i fs))
              (with_files (<[path := Doc (mutated (clock w) data fs i new_passes)]>
                             (<[bak := Doc data]> (files w))) w) in
  ledger_at w' path (mutated (clock w) data fs i new_passes)
            (alter (with_passes new_passes) i fs).
Proof.
  intros (_ & Hd & Hfs) Hi w'. split; [| split].
  - subst w'. unfold printed, with_files, with_stdout. cbn [files].
    apply lookup_insert_eq.
  - apply features_of_refreshed, features_of_with_status, Hd.
  - now apply Forall_obj_alter.
Qed.

(** Property X9.  A Mutate that changed the status, followed by the
    same Mutate on the disk it left, dry run or not: the second call
    finds the feature already so marked, prints that one line and
    leaves the world as the first call left it. *)
Theorem mutate_twice_is_mutate_once w path data fs fid new_passes i f dry_run :
  ledger_at w path data fs ->
  metadata_ok data = true ->
  no_faults (io_fails w) ->
  name path <> "" ->
  feature_with_id fid fs = Some (i, f) ->
  same_status f new_passes = false ->
  exists w1,
    update_feature_status path fid new_passes false w = (Ok true, w1)
    /\ update_feature_status path fid new_passes dry_run w1
       = (Ok true, printed [AlreadyMarked fid new_passes] w1).
Proof.
  intros Hl Hm Hio Hn Hfind Hsame.
  destruct (with_suffix_total path Hn) as [bak Hb].
  rewrite (update_changes_status w path data fs fid new_passes i f bak) by assumption.
  eexists. split; [reflexivity |].
  pose proof (feature_with_id_lookup _ _ _ _ Hfind) as [Hi _].
  assert (Hobj : is_obj f = true).
  { destruct Hl as (_ & _ & Hfs). rewrite List.Forall_forall in Hfs. apply Hfs.
    apply list_elem_of_In. eapply list_elem_of_lookup_2. exact Hi. }
  eapply (update_same_status _ path _ _ fid new_passes dry_run i
            (with_passes new_passes f)).
  - now apply ledger_at_after.
  - apply Hio.
  - now apply feature_with_id_alter.
  - now apply same_status_with_passes.
Qed.

Lemma mutate_twice_is_mutate_once_witness :
  exists w1,
    update_feature_status ledger_path "F002" true false disk = (Ok true, w1)
    /\ update_feature_status ledger_path "F002" true false w1
       = (Ok true, printed [AlreadyMarked "F002" true] w1).
Proof.
  apply (mutate_twice_is_mutate_once disk ledger_path scenario [F001; F002]
           "F002" true 1%nat F002 false).
  - split; [reflexivity |]. split; [reflexivity |]. repeat constructor.
  - reflexivity.
  - intros op. reflexivity.
  - discriminate.
  - reflexivity.
  - reflexivity.
Defined.

End Composition.

Section Round_trip.

Import Vocabulary ShowStatus UpdateFeature ValidateFeatures Ledger.

Lemma set_field_same k v kvs :
  lookup_field k kvs = Some v -> set_field k v kvs = kvs.
Proof.
  induction kvs as [| [k' v'] kvs IH]; simpl; [discriminate |].
  destruct (String.eqb_spec k k') as [-> | _].
  - now intros [= ->].
  - intros H. now rewrite IH.
Qed.

Lemma with_passes_back b b' f :
  field "passes" f = Some (JBool b) -> with_passes b (with_passes b' f) = f.
Proof.
  destruct f as [| | | | | kvs]; try discriminate. unfold field, with_passes.
  intros H. now rewrite set_set_eq, set_field_same.
Qed.

Lemma alter_back {A : Type} (g : A -> A) (l : list A) i x :
  l !! i = Some x -> g x = x -> alter g i l = l.
Proof.
  revert i. induction l as [| y l IH]; intros [| i]; simpl; try discriminate.
  - intros [= ->] E. now rewrite E.
  - intros H E. f_equal. now apply IH.
Qed.

Lemma alter_twice {A : Type} (g h : A -> A) (l : list A) i :
  alter g i (alter h i l) = alter (fun x => g (h x)) i l.
Proof.
  revert i. induction l as [| y l IH]; intros [| i]; simpl; try reflexivity.
  f_equal. apply IH.
Qed.

Lemma metadata_ok_mutated now data fs i b :
  is_obj data = true -> metadata_ok (mutated now data fs i b) = true.
Proof.
  intros H. unfold metadata_ok. now rewrite metadata_mutated.
Qed.

Lemma is_obj_mutated now data fs i b : is_obj (mutated now data fs i b) = is_obj data.
Proof. now destruct data. Qed.

(** The document after a change and the change back. *)
Lemma mutated_back now1 now2 data fs i f b :
  features_of data fs ->
  fs !! i = Some f ->
  field "passes" f = Some (JBool (negb b)) ->
  let data2 := mutated now2 (mutated now1 data fs i b)
                 (alter (with_passes b) i fs) i (negb b) in
  features_of data2 fs
  /\ (forall k, k <> "metadata" -> field k data2 = field k data)
  /\ counter "passing" data2 = Some (count passes fs)
  /\ counter "failing" data2 = Some (count fails fs)
  /\ counter "total_features" data2 = Some (Z.of_nat (List.length fs)).
Proof.
  intros Hd Hi Hp data2.
  assert (Hdo : is_obj data = true) by (destruct data; try discriminate; reflexivity).
  assert (Hback : alter (with_passes (negb b)) i (alter (with_passes b) i fs) = fs).
  { rewrite alter_twice. apply (alter_back _ fs i f Hi). now apply with_passes_back. }
  assert (Hf2 : field "features" data2 = Some (JArr fs)).
  { subst data2. rewrite field_features_mutated by now rewrite is_obj_mutated.
    now rewrite Hback. }
  assert (Hf0 : field "features" data = Some (JArr fs)).
  { destruct data as [| | | | | kvs]; try discriminate.
    unfold features_of in Hd. simpl in Hd. unfold field.
    destruct (lookup_field "features" kvs) as [v |]; [congruence |].
    injection Hd as <-. discriminate Hi. }
  split.
  { unfold features_of. destruct data2; try discriminate.
    unfold field in Hf2. simpl. now rewrite Hf2. }
  split.
  { intros k Hk. destruct (String.eqb_spec k "features") as [-> | Hkf].
    - now rewrite Hf2, Hf0.
    - subst data2. now rewrite !field_mutated_other by assumption. }
  assert (Ho1 : is_obj (with_feature_status (mutated now1 data fs i b)
                          (alter (with_passes b) i fs) i (negb b)) = true).
  { destruct data; try discriminate. reflexivity. }
  destruct (counter_refreshed now2 _
              (alter (with_passes (negb b)) i (alter (with_passes b) i fs)) Ho1)
    as (Ht & Hpp & Hq).
  subst data2.
  change (mutated now2 (mutated now1 data fs i b) (alter (with_passes b) i fs) i (negb b))
    with (refreshed now2
            (with_feature_status (mutated now1 data fs i b)
               (alter (with_passes b) i fs) i (negb b))
            (alter (with_passes (negb b)) i (alter (with_passes b) i fs))).
  rewrite Hpp, Hq, Ht, Hback. auto.
Qed.

(** Property X10.  A Mutate that changes a Boolean status, followed by
    the Mutate that sets it back: both succeed, and the ledger on disk
    then has the feature list it had at the start and every key it had
    but [metadata], whose three counts are the counts of that list. *)
Theorem mutate_and_back_restores_features w path data fs fid new_passes i f :
  ledger_at w path data fs ->
  metadata_ok data = true ->
  no_faults (io_fails w) ->
  name path <> "" ->
  feature_with_id fid fs = Some (i, f) ->
  field "passes" f = Some (JBool (negb new_passes)) ->
  exists w1 w2 data2,
    update_feature_status path fid new_passes false w = (Ok true, w1)
    /\ update_feature_status path fid (negb new_passes) false w1 = (Ok true, w2)
    /\ files w2 !! path = Some (Doc data2)
    /\ features_of data2 fs
    /\ (forall k, k <> "metadata" -> field k data2 = field k data)
    /\ counter "passing" data2 = Some (count passes fs)
    /\ counter "failing" data2 = Some (count fails fs)
    /\ counter "total_features" data2 = Some (Z.of_nat (List.length fs)).
Proof.
  intros Hl Hm Hio Hn Hfind Hpass.
  assert (Hsame : same_status f new_passes = false).
  { unfold same_status, current_status. rewrite Hpass. simpl. now destruct new_passes. }
  destruct (with_suffix_total path Hn) as [bak Hb].
  pose proof (feature_with_id_lookup _ _ _ _ Hfind) as [Hi _].
  assert (Hobj : is_obj f = true) by (destruct f; try discriminate; reflexivity).
  assert (Hdo : is_obj data = true)
    by (destruct Hl as (_ & Hd & _); destruct data; try discriminate; reflexivity).
  rewrite (update_changes_status w path data fs fid new_passes i f bak) by assumption.
  eexists _, _, _. split; [reflexivity |].
  rewrite (update_changes_status _ path (mutated (clock w) data fs i new_passes)
             (alter (with_passes new_passes) i fs) fid (negb new_passes) i
             (with_passes new_passes f) bak).
  - split; [reflexivity |].
    split; [unfold printed, with_files, with_stdout; cbn [files]; apply lookup_insert_eq |].
    apply (mutated_back _ _ data fs i f new_passes); try assumption. apply Hl.
  - now apply ledger_at_after.
  - now apply metadata_ok_mutated.
  - exact Hio.
  - exact Hb.
  - now apply feature_with_id_alter.
  - unfold same_status, current_status.
    rewrite field_with_passes by assumption. simpl. now destruct new_passes.
Qed.

Lemma mutate_and_back_restores_features_witness :
  exists w1 w2 data2,
    update_feature_status ledger_path "F002" true false disk = (Ok true, w1)
    /\ update_feature_status ledger_path "F002" (negb true) false w1 = (Ok true, w2)
    /\ files w2 !! ledger_path = Some (Doc data2)
    /\ features_of data2 [F001; F002]
    /\ (forall k, k <> "metadata" -> field k data2 = field k scenario)
    /\ counter "passing" data2 = Some (count passes [F001; F002])
    /\ counter "failing" data2 = Some (count fails [F001; F002])
    /\ counter "total_features" data2 = Some (Z.of_nat (List.length [F001; F002])).
Proof.
  apply (mutate_and_back_restores_features disk ledger_path scenario [F001; F002]
           "F002" true 1%nat F002).
  - split; [reflexivity |]. split; [reflexivity |]. repeat constructor.
  - reflexivity.
  - intros op. reflexivity.
  - discriminate.
  - reflexivity.
  - reflexivity.
Defined.

End Round_trip.

Section Find.

Import Vocabulary ShowStatus UpdateFeature ValidateFeatures Ledger.

Lemma find_from_early i fs1 f rest fid :
  Forall (fun g => is_obj g = true) fs1 ->
  Forall (fun g => has_id fid g = false) fs1 ->
  is_obj f = true -> has_id fid f = true ->
  find_from i (fs1 ++ f :: rest) fid = Ok (Some ((i + List.length fs1)%nat, f)).
Proof.
  intros Ho. revert i. induction Ho as [| g fs1 Hg _ IH]; intros i Hn Hf Hid; simpl.
  - rewrite Nat.add_0_r. destruct f; try discriminate.
    unfold has_id, field in Hid. simpl.
    destruct (lookup_field "id" fields) as [v |]; [| discriminate].
    simpl. now rewrite Hid.
  - inversion Hn as [| ? ? Hg0 Hn']; subst.
    destruct g; try discriminate. unfold has_id, field in Hg0. simpl.
    destruct (lookup_field "id" fields) as [v |]; simpl.
    + rewrite Hg0. rewrite IH by assumption. do 3 f_equal. lia.
    + rewrite IH by assumption. do 3 f_equal. lia.
Qed.

Lemma find_from_crash i fs1 g rest fid :
  Forall (fun g => is_obj g = true) fs1 ->
  Forall (fun g => has_id fid g = false) fs1 ->
  is_obj g = false ->
  find_from i (fs1 ++ g :: rest) fid = Raise AttributeError.
Proof.
  intros Ho. revert i. induction Ho as [| h fs1 Hh _ IH]; intros i Hn Hg; simpl.
  - destruct g; try discriminate; reflexivity.
  - inversion Hn as [| ? ? Hh0 Hn']; subst.
    destruct h; try discriminate. unfold has_id, field in Hh0. simpl.
    destruct (lookup_field "id" fields) as [v |]; simpl.
    + rewrite Hh0. now apply IH.
    + now apply IH.
Qed.

(** Property X11.  [find_feature] returns the first feature whose id
    equals the one asked for, with its position, without looking at
    the features behind it; on a ledger of records it returns
    [(None, None)] exactly when no feature has the id; and it ends
    with [AttributeError] when a feature that is not a record comes
    before any match. *)
Theorem find_feature_returns_first_match data fid :
  (forall fs1 f rest,
     features_of data (fs1 ++ f :: rest) ->
     Forall (fun g => is_obj g = true) fs1 ->
     Forall (fun g => has_id fid g = false) fs1 ->
     is_obj f = true -> has_id fid f = true ->
     find_feature data fid = Ok (Some (List.length fs1, f)))
  /\ (forall fs,
        features_of data fs ->
        Forall (fun g => is_obj g = true) fs ->
        (find_feature data fid = Ok None
         <-> Forall (fun g => has_id fid g = false) fs))
  /\ (forall fs1 g rest,
        features_of data (fs1 ++ g :: rest) ->
        Forall (fun h => is_obj h = true) fs1 ->
        Forall (fun h => has_id fid h = false) fs1 ->
        is_obj g = false ->
        find_feature data fid = Raise AttributeError).
Proof.
  split; [| split].
  - intros fs1 f rest Hd Ho Hn Hf Hid. unfold find_feature, features_of in *.
    rewrite Hd. simpl. now rewrite find_from_early.
  - intros fs Hd Ho. rewrite (find_feature_pure data fs) by assumption.
    unfold feature_with_id. split.
    + intros [= H]. clear Hd Ho. generalize dependent 0%nat.
      induction fs as [| g fs IH]; intros n H; [constructor |].
      simpl in H. destruct (has_id fid g) eqn:E; [discriminate |].
      constructor; [exact E | eapply IH; exact H].
    + intros H. now rewrite feature_from_none.
  - intros fs1 g rest Hd Ho Hn Hg. unfold find_feature, features_of in *.
    rewrite Hd. simpl. now apply find_from_crash.
Qed.

Lemma find_feature_returns_first_match_witness :
  find_feature (JObj [("features", JArr [F001; F002; JInt 7])]) "F002"
  = Ok (Some (1%nat, F002))
  /\ (find_feature scenario "F999" = Ok None
      <-> Forall (fun g => has_id "F999" g = false) [F001; F002])
  /\ find_feature (JObj [("features", JArr [F001; JInt 7; F002])]) "F002"
     = Raise AttributeError.
Proof.
  split; [| split].
  - apply (proj1 (find_feature_returns_first_match
                    (JObj [("features", JArr [F001; F002; JInt 7])]) "F002")
             [F001] F002 [JInt 7]).
    + reflexivity.
    + repeat constructor.
    + repeat constructor.
    + reflexivity.
    + reflexivity.
  - apply (proj1 (proj2 (find_feature_returns_first_match scenario "F999"))
             [F001; F002]).
    + reflexivity.
    + repeat constructor.
  - apply (proj2 (proj2 (find_feature_returns_first_match
                           (JObj [("features", JArr [F001; JInt 7; F002])]) "F002"))
             [F001] (JInt 7) [F002]).
    + reflexivity.
    + repeat constructor.
    + repeat constructor.
    + reflexivity.
Defined.

End Find.

(** ** The schema of a feature and the valid ledgers *)

Section Feature_schema.

Import Vocabulary ShowStatus UpdateFeature ValidateFeatures Ledger.

Implicit Types (kvs : list (string * json)) (fid : json).

Lemma missing_fields_none kvs fid fields :
  exists es, missing_fields (JObj kvs) fid fields = Ok es
             /\ (es = [] <-> forallb (fun k => has_key k kvs) fields = true).
Proof.
  induction fields as [| k rest (es & IH & Hiff)]; simpl.
  - exists []. split; [reflexivity | tauto].
  - rewrite IH. simpl. unfold has_key at 1.
    destruct (lookup_field k kvs); simpl.
    + exists es. split; [reflexivity | exact Hiff].
    + eexists. split; [reflexivity |]. split; [discriminate | discriminate].
Qed.

Lemma must_be_string_none kvs fid k :
  exists es, must_be_string (JObj kvs) fid k = Ok es
             /\ (es = [] <-> match lookup_field k kvs with
                             | Some v => is_str v = true
                             | None => True
                             end).
Proof.
  unfold must_be_string. simpl. destruct (lookup_field k kvs) as [v |]; simpl.
  - eexists. split; [reflexivity |]. destruct (is_str v); split; try tauto; discriminate.
  - exists []. split; [reflexivity | tauto].
Qed.

Lemma check_priority_none kvs fid :
  exists es, check_priority (JObj kvs) fid = Ok es
             /\ (es = [] <-> match lookup_field "priority" kvs with
                             | Some p => existsb (fun s => py_eq p (JStr s))
                                                 valid_priorities = true
                             | None => True
                             end).
Proof.
  unfold check_priority. simpl. destruct (lookup_field "priority" kvs) as [v |]; simpl.
  - eexists. split; [reflexivity |].
    change (py_eq v (JStr "critical") || (py_eq v (JStr "high")
            || (py_eq v (JStr "medium") || (py_eq v (JStr "low") || false))))%bool
      with (existsb (fun s => py_eq v (JStr s)) valid_priorities).
    destruct (existsb _ valid_priorities); split; try tauto; discriminate.
  - exists []. split; [reflexivity | tauto].
Qed.

Lemma step_errors_none fid i l :
  step_errors fid i l = [] <-> forallb is_str l = true.
Proof.
  revert i. induction l as [| s l IH]; intros i; simpl; [tauto |].
  destruct (is_str s); simpl; [apply IH |]. split; discriminate.
Qed.

Lemma check_steps_none kvs fid :
  exists es, check_steps (JObj kvs) fid = Ok es
             /\ (es = [] <-> match lookup_field "steps" kvs with
                             | Some (JArr (s :: l)) => forallb is_str (s :: l) = true
                             | Some _ => False
                             | None => True
                             end).
Proof.
  unfold check_steps. simpl. destruct (lookup_field "steps" kvs) as [v |]; simpl.
  - destruct v as [| | | | [| s l] |];
      (eexists; split; [reflexivity |]);
      try (split; [discriminate | tauto]).
    apply step_errors_none.
  - exists []. split; [reflexivity | tauto].
Qed.

Lemma check_passes_none kvs fid :
  exists es, check_passes (JObj kvs) fid = Ok es
             /\ (es = [] <-> match lookup_field "passes" kvs with
                             | Some v => is_bool v = true
                             | None => True
                             end).
Proof.
  unfold check_passes. simpl. destruct (lookup_field "passes" kvs) as [v |]; simpl.
  - eexists. split; [reflexivity |]. destruct (is_bool v); split; try tauto; discriminate.
  - exists []. split; [reflexivity | tauto].
Qed.

Lemma check_description_length_none kvs fid :
  check_description_length (JObj kvs) fid = Ok []
  <-> match lookup_field "description" kvs with
      | Some d => exists n, py_len d = Ok n /\ 10 <= n
      | None => True
      end.
Proof.
  unfold check_description_length. simpl.
  destruct (lookup_field "description" kvs) as [d |]; simpl; [| tauto].
  destruct (py_len d) as [n | e]; simpl.
  - destruct (Z.ltb_spec n 10); split.
    + discriminate.
    + intros (n' & [= <-] & H'). lia.
    + intros _. now exists n.
    + reflexivity.
  - split; [discriminate |]. intros (n & Hn & _). discriminate.
Qed.

Lemma app_nil_iff {A : Type} (l1 l2 : list A) : (l1 ++ l2)%list = [] <-> l1 = [] /\ l2 = [].
Proof.
  split; [apply app_eq_nil | intros [-> ->]; reflexivity].
Qed.

(** The checks of one feature pass exactly on the conforming records. *)
Lemma validate_feature_conforms f i :
  validate_feature f i = Ok [] <-> conforms f = true.
Proof.
  destruct f as [| | | | | kvs]; try (split; discriminate).
  unfold validate_feature. cbn [py_get bind].
  set (fid := match lookup_field "id" kvs with Some x => x | None => _ end).
  destruct (missing_fields_none kvs fid required) as (e1 & -> & H1).
  destruct (must_be_string_none kvs fid "id") as (e2 & -> & H2).
  destruct (must_be_string_none kvs fid "category") as (e3 & -> & H3).
  destruct (must_be_string_none kvs fid "description") as (e4 & -> & H4).
  destruct (check_priority_none kvs fid) as (e5 & -> & H5).
  destruct (check_steps_none kvs fid) as (e6 & -> & H6).
  destruct (check_passes_none kvs fid) as (e7 & -> & H7).
  pose proof (check_description_length_none kvs fid) as H8.
  cbn [bind].
  assert (Hall : (let! e_short := check_description_length (JObj kvs) fid in
                  Ok (e1 ++ e2 ++ e3 ++ e4 ++ e5 ++ e6 ++ e7 ++ e_short)%list) = Ok []
                 <-> e1 = [] /\ e2 = [] /\ e3 = [] /\ e4 = [] /\ e5 = [] /\ e6 = []
                     /\ e7 = [] /\ check_description_length (JObj kvs) fid = Ok []).
  { destruct (check_description_length (JObj kvs) fid) as [e8 | e]; cbn [bind].
    - split.
      + intros [= H]. repeat (apply app_eq_nil in H as [? H]). subst. tauto.
      + intros (-> & -> & -> & -> & -> & -> & -> & [= ->]). reflexivity.
    - split; [discriminate |]. intros (_ & _ & _ & _ & _ & _ & _ & H). discriminate. }
  rewrite Hall, H1, H2, H3, H4, H5, H6, H7, H8. clear.
  unfold conforms, field, required, has_key. cbn [forallb].
  destruct (lookup_field "id" kvs) as [v1 |];
    [| split; [intros (H & _); discriminate | discriminate]].
  destruct (lookup_field "category" kvs) as [v2 |];
    [| split; [intros (H & _); discriminate | rewrite andb_false_r; discriminate]].
  destruct (lookup_field "description" kvs) as [v3 |];
    [| split; [intros (H & _); discriminate | rewrite !andb_false_r; discriminate]].
  destruct (lookup_field "priority" kvs) as [v4 |];
    [| split; [intros (H & _); discriminate |]].
  2: { rewrite andb_false_r. cbn [andb]. discriminate. }
  destruct (lookup_field "steps" kvs) as [v5 |];
    [| split; [intros (H & _); discriminate |]].
  2: { rewrite andb_false_r. cbn [andb]. discriminate. }
  destruct (lookup_field "passes" kvs) as [v6 |];
    [| split; [intros (H & _); discriminate |]].
  2: { rewrite andb_false_r. discriminate. }
  cbn [andb].
  split.
  - intros (_ & Hid & Hcat & Hdesc & Hpri & Hsteps & Hpass & (n & Hn & Hlen)).
    destruct v1; try discriminate. destruct v2; try discriminate.
    destruct v3; try discriminate. simpl in Hn. injection Hn as <-.
    destruct v6; try discriminate.
    destruct v5 as [| | | | [| s9 l9] |]; try contradiction.
    rewrite Hpri, Hsteps. cbn [andb].
    rewrite !andb_true_r. now apply Z.leb_le.
  - intros H. repeat (apply andb_true_iff in H as [H ?]).
    destruct v1; try discriminate. destruct v2; try discriminate.
    destruct v3; try discriminate. destruct v6; try discriminate.
    destruct v5 as [| | | | [| s8 l8] |]; try discriminate.
    repeat split; try assumption; try reflexivity.
    eexists. split; [reflexivity |]. now apply Z.leb_le.
Qed.

(** Property X12.  [validate_feature] reports no error exactly for a
    record that has the six required fields with [id], [category] and
    [description] strings, a description of ten characters or more, a
    priority among critical, high, medium and low, a non-empty list of
    strings as steps and a Boolean [passes]; the index plays no part.
    On a feature that is not a record it ends with [AttributeError]. *)
Theorem validate_feature_accepts_iff_conforms f i :
  (validate_feature f i = Ok [] <-> conforms f = true)
  /\ (is_obj f = false -> validate_feature f i = Raise AttributeError).
Proof.
  split; [apply validate_feature_conforms |].
  destruct f; try discriminate; reflexivity.
Qed.

Lemma validate_feature_accepts_iff_conforms_witness :
  validate_feature H001 0 = Ok []
  /\ validate_feature (JStr "H001") 0 = Raise AttributeError.
Proof.
  split.
  - apply (proj2 (proj1 (validate_feature_accepts_iff_conforms H001 0))).
    reflexivity.
  - apply (proj2 (validate_feature_accepts_iff_conforms (JStr "H001") 0)).
    reflexivity.
Defined.

End Feature_schema.

Section Loop_inversion.

Import Vocabulary ShowStatus UpdateFeature ValidateFeatures Ledger.

Lemma validate_feature_sized kvs i es :
  validate_feature (JObj kvs) i = Ok es ->
  match lookup_field "description" kvs with Some d => sized d | None => true end = true.
Proof.
  unfold validate_feature. cbn [py_get bind].
  set (fid := match lookup_field "id" kvs with Some x => x | None => _ end).
  destruct (missing_fields_none kvs fid required) as (e1 & -> & _).
  destruct (must_be_string_none kvs fid "id") as (e2 & -> & _).
  destruct (must_be_string_none kvs fid "category") as (e3 & -> & _).
  destruct (must_be_string_none kvs fid "description") as (e4 & -> & _).
  destruct (check_priority_none kvs fid) as (e5 & -> & _).
  destruct (check_steps_none kvs fid) as (e6 & -> & _).
  destruct (check_passes_none kvs fid) as (e7 & -> & _).
  cbn [bind]. unfold check_description_length. cbn [py_contains py_get bind].
  destruct (lookup_field "description" kvs) as [d |]; [| reflexivity].
  cbn [bind]. destruct d; simpl; try discriminate; reflexivity.
Qed.

Lemma bump_ok_hashable k d d' : bump k d = Ok d' -> hashable k = true.
Proof.
  unfold bump, counts_get. destruct (hashable k); [reflexivity | discriminate].
Qed.

Lemma counts_set_sum k d :
  sum_counts (counts_set k (match count_lookup k d with Some n => n | None => 0 end + 1) d)
  = sum_counts d + 1.
Proof.
  induction d as [| [k' n'] d IH]; simpl; [lia |].
  destruct (py_eq k' k); simpl; lia.
Qed.

Lemma bump_sum k d d' : bump k d = Ok d' -> sum_counts d' = sum_counts d + 1.
Proof.
  unfold bump, counts_get. destruct (hashable k); [| discriminate].
  cbn [bind]. intros [= <-]. apply counts_set_sum.
Qed.

(** One turn of the loop, read backwards: a turn that completes was on a
    checkable feature, and its result is the one below. *)
Lemma visit_inv st i f st1 :
  visit st i f = Ok st1 ->
  exists es cats pris,
    checkable f = true
    /\ validate_feature f i = Ok es
    /\ bump (field_or "category" (JStr "uncategorized") f) (by_category (stats st)) = Ok cats
    /\ bump (field_or "priority" (JStr "unknown") f) (by_priority (stats st)) = Ok pris
    /\ st1 = VState
               (if truthy (id_of f) then seen_add (id_of f) (seen_ids st)
                else seen_ids st)
               ((errors st
                 ++ (if truthy (id_of f) && existsb (py_eq (id_of f)) (seen_ids st)
                     then [DuplicateFeatureID (id_of f)] else []))
                ++ es)
               (MkStats (total (stats st) + 1)
                        (if passes f then passing (stats st) + 1 else passing (stats st))
                        (if passes f then failing (stats st) else failing (stats st) + 1)
                        cats pris).
Proof.
  destruct f as [| | | | | kvs]; try discriminate.
  unfold visit. rewrite !(field_or_get (JObj kvs)) by reflexivity.
  fold (id_of (JObj kvs)). cbn [bind].
  assert (Hp : truthy (field_or "passes" JNull (JObj kvs)) = passes (JObj kvs)).
  { unfold field_or, passes. now destruct (field "passes" (JObj kvs)). }
  rewrite Hp. clear Hp.
  assert (Hchk : forall es cats pris,
            (truthy (id_of (JObj kvs)) = true -> hashable (id_of (JObj kvs)) = true) ->
            validate_feature (JObj kvs) i = Ok es ->
            bump (field_or "category" (JStr "uncategorized") (JObj kvs))
                 (by_category (stats st)) = Ok cats ->
            bump (field_or "priority" (JStr "unknown") (JObj kvs))
                 (by_priority (stats st)) = Ok pris ->
            checkable (JObj kvs) = true).
  { intros es cats pris Hid Ev Ec Epr. unfold checkable.
    rewrite (bump_ok_hashable _ _ _ Ec), (bump_ok_hashable _ _ _ Epr).
    unfold field. rewrite (validate_feature_sized kvs i es Ev).
    rewrite !andb_true_r. cbn [is_obj andb].
    destruct (truthy (id_of (JObj kvs))); [now rewrite Hid | reflexivity]. }
  destruct (truthy (id_of (JObj kvs))) eqn:Et.
  - unfold seen_contains.
    destruct (hashable (id_of (JObj kvs))) eqn:Eh; cbn [bind]; [| discriminate].
    cbn [seen_ids errors stats].
    destruct (validate_feature (JObj kvs) i) as [es |] eqn:Ev; cbn [bind]; [| discriminate].
    destruct (bump _ (by_category (stats st))) as [cats |] eqn:Ec; cbn [bind];
      [| discriminate].
    destruct (bump _ (by_priority (stats st))) as [pris |] eqn:Epr; cbn [bind];
      [| discriminate].
    intros [= <-]. exists es, cats, pris.
    split; [eapply Hchk; eauto |].
    repeat split. cbn [andb].
    destruct (existsb (py_eq (id_of (JObj kvs))) (seen_ids st)); [reflexivity |].
    now rewrite app_nil_r.
  - cbn [bind].
    destruct (validate_feature (JObj kvs) i) as [es |] eqn:Ev; cbn [bind]; [| discriminate].
    destruct (bump _ (by_category (stats st))) as [cats |] eqn:Ec; cbn [bind];
      [| discriminate].
    destruct (bump _ (by_priority (stats st))) as [pris |] eqn:Epr; cbn [bind];
      [| discriminate].
    intros [= <-]. exists es, cats, pris.
    split; [eapply Hchk; eauto; discriminate |].
    repeat split. cbn [andb]. now rewrite app_nil_r.
Qed.

(** The loop, read backwards: what a completed loop says of the features
    and of the counters. *)
Lemma visit_all_inv fs :
  forall st i st',
  visit_all st i fs = Ok st' ->
  Forall (fun f => checkable f = true) fs
  /\ total (stats st') = total (stats st) + Z.of_nat (List.length fs)
  /\ passing (stats st') + failing (stats st')
     = passing (stats st) + failing (stats st) + Z.of_nat (List.length fs)
  /\ passing (stats st) <= passing (stats st')
  /\ failing (stats st) <= failing (stats st')
  /\ sum_counts (by_category (stats st'))
     = sum_counts (by_category (stats st)) + Z.of_nat (List.length fs)
  /\ sum_counts (by_priority (stats st'))
     = sum_counts (by_priority (stats st)) + Z.of_nat (List.length fs)
  /\ (errors st' = [] -> errors st = [] /\ Forall (fun f => conforms f = true) fs).
Proof.
  induction fs as [| f fs IH]; intros st i st'; cbn [visit_all].
  - intros [= <-]. simpl. repeat split; try lia; auto.
  - destruct (visit st i f) as [st1 |] eqn:Ev; cbn [bind]; [| discriminate].
    intros Hall.
    destruct (visit_inv st i f st1 Ev) as (es & cats & pris & Hc & Evf & Ec & Epr & ->).
    destruct (IH _ _ _ Hall) as (Hfs & Ht & Hs & Hp & Hq & Hcs & Hps & Herr).
    cbn [stats total passing failing by_category by_priority errors] in *.
    rewrite (bump_sum _ _ _ Ec) in Hcs. rewrite (bump_sum _ _ _ Epr) in Hps.
    split; [now constructor |].
    cbn [List.length]. rewrite Nat2Z.inj_succ.
    split; [lia |].
    split; [destruct (passes f); lia |].
    split; [destruct (passes f); lia |].
    split; [destruct (passes f); lia |].
    split; [lia |]. split; [lia |].
    intros Hnil. destruct (Herr Hnil) as [H1 Hrest].
    apply app_eq_nil in H1 as [H1 ->]. apply app_eq_nil in H1 as [H1 _].
    split; [exact H1 |]. constructor; [| exact Hrest].
    now apply (validate_feature_conforms f i).
Qed.

End Loop_inversion.

Section Validity.

Import Vocabulary ShowStatus UpdateFeature ValidateFeatures Ledger.

Lemma conforms_checkable f : conforms f = true -> checkable f = true.
Proof.
  unfold conforms, checkable, id_of, field_or. intros H.
  repeat (apply andb_true_iff in H as [H ?]).
  destruct f as [| | | | | kvs]; try discriminate.
  unfold field in *. cbn [is_obj andb].
  destruct (lookup_field "id" kvs) as [[] |]; try discriminate.
  destruct (lookup_field "category" kvs) as [[] |]; try discriminate.
  destruct (lookup_field "description" kvs) as [[] |]; try discriminate.
  destruct (lookup_field "priority" kvs) as [p |]; try discriminate.
  cbn [hashable sized]. rewrite orb_true_r. cbn [andb].
  destruct p; try reflexivity; discriminate.
Qed.

Lemma conforms_id f : conforms f = true -> exists s, id_of f = JStr s.
Proof.
  unfold conforms, id_of, field_or. intros H.
  repeat (apply andb_true_iff in H as [H ?]).
  destruct (field "id" f) as [[] |]; try discriminate. eauto.
Qed.

(** On conforming features the loop adds duplicate-id errors only, each
    naming a non-empty string. *)
Lemma visit_all_conforming fs :
  Forall (fun f => conforms f = true) fs ->
  forall st i st',
  visit_all st i fs = Ok st' ->
  Forall (fun e => exists s, s <> "" /\ e = DuplicateFeatureID (JStr s)) (errors st) ->
  Forall (fun e => exists s, s <> "" /\ e = DuplicateFeatureID (JStr s)) (errors st').
Proof.
  induction 1 as [| f fs Hf _ IH]; intros st i st'; cbn [visit_all].
  - now intros [= <-].
  - destruct (visit st i f) as [st1 |] eqn:Ev; cbn [bind]; [| discriminate].
    intros Hall Hst. apply (IH _ _ _ Hall).
    destruct (visit_inv st i f st1 Ev) as (es & cats & pris & _ & Evf & _ & _ & ->).
    cbn [errors].
    rewrite (proj2 (validate_feature_conforms f i) Hf) in Evf. injection Evf as <-.
    rewrite app_nil_r. apply Forall_app. split; [exact Hst |].
    destruct (conforms_id f Hf) as (s & Es). rewrite Es.
    destruct (truthy (JStr s)) eqn:Et; cbn [andb]; [| constructor].
    destruct (existsb (py_eq (JStr s)) (seen_ids st)); constructor; [| constructor].
    exists s. split; [| reflexivity]. intros ->. discriminate.
Qed.

(** The loop over conforming features with distinct ids leaves no
    error. *)
Lemma visit_all_distinct fs :
  Forall (fun f => conforms f = true) fs ->
  (forall s, s <> "" -> (occurrences s fs <= 1)%nat) ->
  exists st,
    visit_all (VState [] [] empty_stats) 0 fs = Ok st
    /\ errors st = []
    /\ total (stats st) = Z.of_nat (List.length fs)
    /\ passing (stats st) = count passes fs
    /\ failing (stats st) = count fails fs.
Proof.
  intros Hc Hd.
  assert (Hchk : Forall (fun f => checkable f = true) fs).
  { eapply List.Forall_impl; [| exact Hc]. apply conforms_checkable. }
  destruct (visit_all_checkable fs Hchk (VState [] [] empty_stats) 0)
    as (st & E & Ht & Hp & Hq & _ & _ & Hdup).
  cbn [seen_ids errors stats total passing failing empty_stats existsb] in *.
  exists st. split; [exact E |].
  split; [| repeat split; lia].
  pose proof (visit_all_conforming fs Hc _ _ _ E (List.Forall_nil _)) as Hall.
  destruct (errors st) as [| e es] eqn:Ee; [reflexivity |].
  apply Forall_cons in Hall as [(s & Hs & ->) _].
  specialize (Hdup s Hs). specialize (Hd s Hs).
  unfold duplicate_reports in Hdup. cbn [List.filter names] in Hdup.
  rewrite String.eqb_refl in Hdup. cbn [List.length] in Hdup. lia.
Qed.

Lemma py_add_declared p f t a b :
  py_eq p (JInt a) = true -> py_eq f (JInt b) = true ->
  py_eq t (JInt (a + b)) = true ->
  exists s, py_add p f = Ok s /\ py_eq s t = true.
Proof.
  destruct p as [| x | x | | |]; try discriminate;
    destruct f as [| y | y | | |]; try discriminate;
    destruct t as [| z | z | | |]; try discriminate;
    simpl; intros H1 H2 H3; (eexists; split; [reflexivity |]); simpl;
    apply Z.eqb_eq in H1, H2, H3; apply Z.eqb_eq; lia.
Qed.

Lemma declares_get k n m :
  declares k n m = true ->
  exists v, lookup_field k m = Some v /\ py_eq v (JInt n) = true.
Proof.
  unfold declares. destruct (lookup_field k m) as [v |]; [eauto | discriminate].
Qed.

Lemma get_declares k n m :
  py_eq (match lookup_field k m with Some x => x | None => JNull end) (JInt n) = true ->
  declares k n m = true.
Proof.
  unfold declares. destruct (lookup_field k m); [auto | discriminate].
Qed.

(** The checks of the metadata pass on the consistent ones. *)
Lemma metadata_checks_pass m s fs :
  match lookup_field "project_name" m with Some _ => true | None => false end = true ->
  declares "total_features" (Z.of_nat (List.length fs)) m = true ->
  declares "passing" (count passes fs) m = true ->
  declares "failing" (count fails fs) m = true ->
  total s = Z.of_nat (List.length fs) ->
  passing s = count passes fs ->
  failing s = count fails fs ->
  validate_metadata (JObj m) = Ok [] /\ metadata_mismatches (JObj m) s = Ok [].
Proof.
  intros Hn Ht Hp Hf Et Ep Ef.
  apply declares_get in Ht as (t & Lt & Ht).
  apply declares_get in Hp as (p & Lp & Hp).
  apply declares_get in Hf as (f & Lf & Hf).
  pose proof (count_split fs) as Hsplit.
  destruct (py_add_declared p f t (count passes fs) (count fails fs) Hp Hf)
    as (sum & Es & Hs).
  { replace (count passes fs + count fails fs) with (Z.of_nat (List.length fs)) by lia.
    exact Ht. }
  split.
  - unfold validate_metadata, metadata_required. cbn [metadata_missing py_contains bind].
    rewrite Lt, Lp, Lf. destruct (lookup_field "project_name" m); [| discriminate].
    cbn [bind py_getitem]. rewrite Lt, Lp, Lf. cbn [bind]. rewrite Es. cbn [bind].
    now rewrite Hs.
  - unfold metadata_mismatches. cbn [py_get bind]. rewrite Lt, Lp, Lf, Et, Ep, Ef.
    now rewrite Ht, Hp, Hf.
Qed.

Lemma metadata_missing_nil m fields :
  metadata_missing (JObj m) fields = Ok [] ->
  Forall (fun k => lookup_field k m <> None) fields.
Proof.
  induction fields as [| k rest IH]; [constructor |].
  cbn [metadata_missing py_contains bind].
  destruct (metadata_missing (JObj m) rest) as [es |]; cbn [bind];
    [| destruct (lookup_field k m); discriminate].
  destruct (lookup_field k m) eqn:E; [| discriminate].
  intros [= ->]. constructor; [congruence | now apply IH].
Qed.

Lemma validate_metadata_nil m :
  validate_metadata (JObj m) = Ok [] ->
  metadata_missing (JObj m) metadata_required = Ok [].
Proof.
  unfold validate_metadata.
  destruct (metadata_missing_obj m metadata_required) as (em & -> & _).
  cbn [py_contains py_getitem bind].
  destruct (lookup_field "total_features" m); cbn [bind];
    [destruct (lookup_field "passing" m); cbn [bind];
     [destruct (lookup_field "failing" m); cbn [bind] | ] | ];
    try (match goal with |- context [py_add ?a ?b] => destruct (py_add a b) end;
         cbn [bind]);
    try discriminate;
    intros [= H]; apply app_eq_nil in H as [-> _]; reflexivity.
Qed.

(** A ledger is reported valid exactly when its features conform, the
    ids that are non-empty strings are distinct, and its metadata, if
    any, names the project and declares the three counts. *)
Lemma validate_data_valid data :
  (exists errs st, validate_data data = Ok (true, errs, st))
  <-> exists fs, has_features data fs
                 /\ Forall (fun f => conforms f = true) fs
                 /\ (forall s, s <> "" -> (occurrences s fs <= 1)%nat)
                 /\ metadata_consistent data fs = true.
Proof.
  split.
  - intros (errs & st & E).
    destruct data as [| | | s | l | kvs]; try discriminate.
    { unfold validate_data in E. cbn [py_contains bind] in E.
      destruct (is_infix "features" s); discriminate. }
    { unfold validate_data in E. cbn [py_contains bind] in E.
      destruct (existsb _ l); discriminate. }
    unfold validate_data in E. cbn [py_contains py_getitem bind] in E.
    destruct (lookup_field "features" kvs) as [v |] eqn:Lf; cbn [negb bind] in E;
      [| discriminate].
    destruct v as [| | | | fs |]; try discriminate.
    exists fs. split; [exact Lf |].
    destruct (visit_all (VState [] [] empty_stats) 0 fs) as [st0 |] eqn:Ev;
      cbn [bind] in E; [| discriminate].
    destruct (visit_all_inv fs _ _ _ Ev) as (Hchk & _ & _ & _ & _ & _ & _ & Herr).
    destruct (visit_all_checkable fs Hchk (VState [] [] empty_stats) 0)
      as (st' & E' & Ht & Hp & Hq & _ & _ & Hdup).
    rewrite Ev in E'. injection E' as <-.
    cbn [seen_ids errors stats total passing failing empty_stats existsb] in *.
    assert (Hfrom : errors st0 = [] ->
              Forall (fun f => conforms f = true) fs
              /\ (forall s, s <> "" -> (occurrences s fs <= 1)%nat)).
    { intros Hnil. split; [now apply Herr |].
      intros s Hs. specialize (Hdup s Hs). rewrite Hnil in Hdup.
      change (duplicate_reports s []) with 0%nat in Hdup. lia. }
    unfold metadata_consistent, field.
    destruct (lookup_field "metadata" kvs) as [meta |]; cbn [bind] in E.
    + destruct (validate_metadata meta) as [e1 |] eqn:E1; cbn [bind] in E; [| discriminate].
      destruct (metadata_mismatches meta (stats st0)) as [e2 |] eqn:E2; cbn [bind] in E;
        [| discriminate].
      destruct (errors st0 ++ e1 ++ e2)%list eqn:Eall; [| discriminate].
      apply app_eq_nil in Eall as [H0 Eall]. apply app_eq_nil in Eall as [-> ->].
      destruct (Hfrom H0) as [Hc Hd]. split; [exact Hc |]. split; [exact Hd |].
      destruct meta as [| | | | | m]; try discriminate.
      pose proof (validate_metadata_nil m E1) as Em.
      apply metadata_missing_nil in Em.
      apply Forall_cons in Em as [Hn _].
      destruct (lookup_field "project_name" m); [| contradiction]. cbn [andb].
      unfold metadata_mismatches in E2. cbn [py_get bind] in E2.
      injection E2 as E2. rewrite Ht, Hp, Hq in E2.
      destruct (py_eq _ (JInt (0 + Z.of_nat (List.length fs)))) eqn:P1; [| discriminate].
      destruct (py_eq _ (JInt (0 + count passes fs))) eqn:P2; [| discriminate].
      destruct (py_eq _ (JInt (0 + count fails fs))) eqn:P3; [| discriminate].
      rewrite Z.add_0_l in P1, P2, P3.
      now rewrite (get_declares _ _ _ P1), (get_declares _ _ _ P2),
        (get_declares _ _ _ P3).
    + destruct (errors st0) eqn:Eall; [| discriminate].
      destruct (Hfrom eq_refl) as [Hc Hd]. auto.
  - intros (fs & Hf & Hc & Hd & Hm).
    destruct data as [| | | | | kvs]; try discriminate.
    unfold has_features, field in Hf. unfold metadata_consistent, field in Hm.
    destruct (visit_all_distinct fs Hc Hd) as (st & Ev & Hnil & Ht & Hp & Hq).
    exists [], (stats st).
    unfold validate_data. cbn [py_contains py_getitem]. rewrite Hf. cbn [bind negb].
    rewrite Ev. cbn [bind]. rewrite Hnil.
    destruct (lookup_field "metadata" kvs) as [meta |]; cbn [bind]; [| reflexivity].
    destruct meta as [| | | | | m]; try discriminate.
    repeat (apply andb_true_iff in Hm as [Hm ?]).
    destruct (metadata_checks_pass m (stats st) fs) as [-> ->]; auto.
Qed.

End Validity.

Section Validation_extras.

Import Vocabulary ShowStatus UpdateFeature ValidateFeatures Ledger.

(** Property X13.  [validate_feature_list] reports a ledger it can read
    as valid exactly when the document has a list of features, every
    feature conforms to the schema of [validate_feature], no two
    features share an id that is a non-empty string, and the metadata
    is either absent or a record with a [project_name] whose
    [total_features], [passing] and [failing] equal the length of the
    list and the numbers of its passing and failing features. *)
Theorem ledger_valid_iff_well_formed fsmap refuses path data :
  fsmap !! path = Some (Doc data) ->
  refuses OpenRead = false ->
  ((exists errs st, validate_feature_list fsmap refuses path = Ok (true, errs, st))
   <-> exists fs, has_features data fs
                  /\ Forall (fun f => conforms f = true) fs
                  /\ (forall s, s <> "" -> (occurrences s fs <= 1)%nat)
                  /\ metadata_consistent data fs = true).
Proof.
  intros Hf Hr. rewrite (validate_feature_list_reads fsmap refuses path data Hf Hr).
  apply validate_data_valid.
Qed.

Lemma ledger_valid_iff_well_formed_witness :
  (exists errs st,
     validate_feature_list {[ ledger_path := Doc complete ]} never ledger_path
     = Ok (true, errs, st))
  <-> exists fs, has_features complete fs
                 /\ Forall (fun f => conforms f = true) fs
                 /\ (forall s, s <> "" -> (occurrences s fs <= 1)%nat)
                 /\ metadata_consistent complete fs = true.
Proof.
  apply (ledger_valid_iff_well_formed {[ ledger_path := Doc complete ]} never
           ledger_path complete).
  - reflexivity.
  - reflexivity.
Defined.

Lemma validate_data_counts data v errs st :
  validate_data data = Ok (v, errs, st) ->
  passing st + failing st = total st
  /\ sum_counts (by_category st) = total st
  /\ sum_counts (by_priority st) = total st
  /\ 0 <= passing st /\ 0 <= failing st
  /\ (v = true <-> errs = []).
Proof.
  assert (Hempty : forall e,
            passing empty_stats + failing empty_stats = total empty_stats
            /\ sum_counts (by_category empty_stats) = total empty_stats
            /\ sum_counts (by_priority empty_stats) = total empty_stats
            /\ 0 <= passing empty_stats /\ 0 <= failing empty_stats
            /\ (false = true <-> [e] = @nil verror)).
  { intros e. simpl. repeat split; try lia; discriminate. }
  unfold validate_data.
  destruct (py_contains "features" data) as [b |]; cbn [bind]; [| discriminate].
  destruct b; cbn [negb]; [| intros [= <- <- <-]; apply Hempty].
  destruct (py_getitem data "features") as [x |]; cbn [bind]; [| discriminate].
  destruct x as [| | | | fs |]; try (intros [= <- <- <-]; apply Hempty).
  destruct (visit_all (VState [] [] empty_stats) 0 fs) as [st0 |] eqn:Ev;
    cbn [bind]; [| discriminate].
  destruct (visit_all_inv fs _ _ _ Ev) as (_ & Ht & Hs & Hp & Hq & Hc & Hpr & _).
  cbn [stats empty_stats total passing failing by_category by_priority sum_counts
       fold_right] in *.
  destruct (py_contains "metadata" data) as [b |]; cbn [bind]; [| discriminate].
  match goal with |- bind ?x _ = _ -> _ => destruct x as [errs0 |] end;
    cbn [bind]; [| discriminate].
  intros [= <- <- <-].
  repeat split; try lia; destruct errs0; congruence.
Qed.

Lemma validate_feature_list_counts fsmap refuses path v errs st :
  validate_feature_list fsmap refuses path = Ok (v, errs, st) ->
  passing st + failing st = total st
  /\ sum_counts (by_category st) = total st
  /\ sum_counts (by_priority st) = total st
  /\ 0 <= passing st /\ 0 <= failing st
  /\ (v = true <-> errs = []).
Proof.
  unfold validate_feature_list.
  destruct (fsmap !! path) as [c |].
  - destruct (refuses OpenRead); [discriminate |].
    destruct c as [data | |]; cbn [json_load]; try apply validate_data_counts;
      intros [= <- <- <-]; simpl; repeat split; try lia; discriminate.
  - intros [= <- <- <-]; simpl; repeat split; try lia; discriminate.
Qed.

(** Property X14.  Whenever [validate_feature_list] returns, its
    statistics add up: [passing + failing = total], the counts of the
    categories sum to [total] and so do the counts of the priorities,
    no count is negative, and the validity flag is true exactly when
    the list of errors is empty. *)
Theorem report_counts_add_up fsmap refuses path v errs st :
  validate_feature_list fsmap refuses path = Ok (v, errs, st) ->
  passing st + failing st = total st
  /\ sum_counts (by_category st) = total st
  /\ sum_counts (by_priority st) = total st
  /\ 0 <= passing st /\ 0 <= failing st
  /\ (v = true <-> errs = []).
Proof.
  exact (validate_feature_list_counts fsmap refuses path v errs st).
Qed.

Lemma report_counts_add_up_witness :
  exists v errs st,
    validate_feature_list {[ ledger_path := Doc thrice ]} never ledger_path
    = Ok (v, errs, st)
    /\ passing st + failing st = total st
    /\ sum_counts (by_category st) = total st
    /\ sum_counts (by_priority st) = total st
    /\ 0 <= passing st /\ 0 <= failing st
    /\ (v = true <-> errs = []).
Proof.
  destruct (validate_feature_list {[ ledger_path := Doc thrice ]} never ledger_path)
    as [[[v errs] st] | e] eqn:E.
  - exists v, errs, st. split; [reflexivity |].
    exact (report_counts_add_up _ _ _ _ _ _ E).
  - vm_compute in E. discriminate.
Defined.

Lemma validate_metadata_addable m es :
  validate_metadata (JObj m) = Ok es ->
  match lookup_field "total_features" m, lookup_field "passing" m,
        lookup_field "failing" m with
  | Some _, Some p, Some f => addable p f
  | _, _, _ => true
  end = true.
Proof.
  unfold validate_metadata.
  destruct (metadata_missing_obj m metadata_required) as (em & -> & _).
  cbn [py_contains py_getitem bind].
  destruct (lookup_field "total_features" m); cbn [bind]; [| reflexivity].
  destruct (lookup_field "passing" m) as [p |]; cbn [bind]; [| reflexivity].
  destruct (lookup_field "failing" m) as [f |]; cbn [bind]; [| reflexivity].
  unfold addable. destruct (py_add p f); [reflexivity | discriminate].
Qed.

Lemma validate_data_reports data fs :
  has_features data fs ->
  ((exists r, validate_data data = Ok r)
   <-> Forall (fun f => checkable f = true) fs /\ metadata_checkable data = true).
Proof.
  intros Hf.
  split.
  - intros (r & E).
    destruct data as [| | | | | kvs]; try discriminate.
    unfold has_features, field in Hf.
    unfold validate_data in E. cbn [py_contains py_getitem] in E.
    rewrite Hf in E. cbn [bind negb] in E.
    destruct (visit_all (VState [] [] empty_stats) 0 fs) as [st0 |] eqn:Ev;
      cbn [bind] in E; [| discriminate].
    destruct (visit_all_inv fs _ _ _ Ev) as (Hchk & _).
    split; [exact Hchk |].
    unfold metadata_checkable, field.
    destruct (lookup_field "metadata" kvs) as [meta |]; [| reflexivity].
    cbn [bind] in E.
    destruct (validate_metadata meta) as [e1 |] eqn:E1; cbn [bind] in E; [| discriminate].
    destruct (metadata_mismatches meta (stats st0)) as [e2 |] eqn:E2; cbn [bind] in E;
      [| discriminate].
    destruct meta as [| | | | | m]; try discriminate.
    exact (validate_metadata_addable m e1 E1).
  - intros [Hchk Hm].
    destruct (validate_data_checkable data fs Hf Hchk Hm) as (errs & st & E & _).
    eauto.
Qed.

(** Property X15.  On a ledger with a list of features that it can
    read, [validate_feature_list] returns a report exactly when every
    feature is checkable (a record whose id, category and priority can
    be hashed and whose description has a length) and the metadata is
    absent or a record whose [passing] and [failing] can be added;
    otherwise the call ends with an exception and reports nothing. *)
Theorem validation_reports_iff_checkable fsmap refuses path data fs :
  fsmap !! path = Some (Doc data) ->
  refuses OpenRead = false ->
  has_features data fs ->
  ((exists r, validate_feature_list fsmap refuses path = Ok r)
   <-> Forall (fun f => checkable f = true) fs /\ metadata_checkable data = true).
Proof.
  intros Hfile Hr Hf.
  rewrite (validate_feature_list_reads fsmap refuses path data Hfile Hr).
  now apply validate_data_reports.
Qed.

Lemma validation_reports_iff_checkable_witness :
  (exists r, validate_feature_list {[ ledger_path := Doc complete ]} never ledger_path
             = Ok r)
  <-> Forall (fun f => checkable f = true) [H001; H002]
      /\ metadata_checkable complete = true.
Proof.
  apply (validation_reports_iff_checkable {[ ledger_path := Doc complete ]} never
           ledger_path complete [H001; H002]).
  - reflexivity.
  - reflexivity.
  - reflexivity.
Defined.

(** Property X16.  A record whose [description] is [null], a Boolean or
    a number makes [validate_feature] end with [TypeError], from the
    length check at its end: the error "must be a string" that the
    earlier check found is never returned. *)
Theorem validate_feature_unsized_description f i d :
  is_obj f = true ->
  field "description" f = Some d ->
  sized d = false ->
  validate_feature f i = Raise TypeError.
Proof.
  destruct f as [| | | | | kvs]; try discriminate. intros _. unfold field. intros Hd Hs.
  unfold validate_feature. cbn [py_get bind].
  set (fid := match lookup_field "id" kvs with Some x => x | None => _ end).
  destruct (missing_fields_none kvs fid required) as (e1 & -> & _).
  destruct (must_be_string_none kvs fid "id") as (e2 & -> & _).
  destruct (must_be_string_none kvs fid "category") as (e3 & -> & _).
  destruct (must_be_string_none kvs fid "description") as (e4 & -> & _).
  destruct (check_priority_none kvs fid) as (e5 & -> & _).
  destruct (check_steps_none kvs fid) as (e6 & -> & _).
  destruct (check_passes_none kvs fid) as (e7 & -> & _).
  cbn [bind]. unfold check_description_length. cbn [py_contains py_get bind].
  rewrite Hd. cbn [bind]. destruct d; try discriminate; reflexivity.
Qed.

Lemma validate_feature_unsized_description_witness :
  validate_feature (JObj [("id", JStr "F001"); ("description", JNull)]) 0
  = Raise TypeError.
Proof.
  apply (validate_feature_unsized_description
           (JObj [("id", JStr "F001"); ("description", JNull)]) 0 JNull).
  - reflexivity.
  - reflexivity.
  - reflexivity.
Defined.

(** Property X17.  [validate_feature_list] stops early, with one error
    and the empty statistics, on a missing file, on a file that is not
    JSON, on a record without the key [features] and on one whose
    [features] is not a list; the metadata is not looked at. *)
Theorem validation_stops_without_features fsmap refuses path :
  (fsmap !! path = None ->
     validate_feature_list fsmap refuses path
     = Ok (false, [FileNotFound path], empty_stats))
  /\ (forall c, fsmap !! path = Some c -> refuses OpenRead = false ->
        (forall data, c <> Doc data) ->
        validate_feature_list fsmap refuses path = Ok (false, [InvalidJSON], empty_stats))
  /\ (forall data, fsmap !! path = Some (Doc data) -> refuses OpenRead = false ->
        is_obj data = true ->
        (field "features" data = None ->
           validate_feature_list fsmap refuses path
           = Ok (false, [MissingFeaturesArray], empty_stats))
        /\ (forall v, field "features" data = Some v -> (forall fs, v <> JArr fs) ->
              validate_feature_list fsmap refuses path
              = Ok (false, [FeaturesNotArray], empty_stats))).
Proof.
  split; [| split].
  - intros H. unfold validate_feature_list. now rewrite H.
  - intros c H Hr Hc. unfold validate_feature_list. rewrite H, Hr.
    destruct c as [data | |]; [now destruct (Hc data) | reflexivity | reflexivity].
  - intros data H Hr Ho.
    rewrite (validate_feature_list_reads fsmap refuses path data H Hr).
    destruct data as [| | | | | kvs]; try discriminate. unfold field.
    split.
    + intros Hn. unfold validate_data. cbn [py_contains bind]. now rewrite Hn.
    + intros v Hv Hna. unfold validate_data. cbn [py_contains py_getitem bind].
      rewrite Hv. cbn [negb bind].
      destruct v as [| | | | fs |]; try reflexivity. now destruct (Hna fs).
Qed.

Lemma validation_stops_without_features_witness :
  validate_feature_list {[ ledger_path := Doc scenario ]} never txt_path
  = Ok (false, [FileNotFound txt_path], empty_stats)
  /\ validate_feature_list {[ ledger_path := Text "not json" ]} never ledger_path
     = Ok (false, [InvalidJSON], empty_stats)
  /\ validate_feature_list {[ ledger_path := Doc (JObj [("metadata", JInt 1)]) ]}
       never ledger_path
     = Ok (false, [MissingFeaturesArray], empty_stats)
  /\ validate_feature_list
       {[ ledger_path := Doc (JObj [("features", JStr "none"); ("metadata", JInt 1)]) ]}
       never ledger_path
     = Ok (false, [FeaturesNotArray], empty_stats).
Proof.
  split; [| split; [| split]].
  - apply (proj1 (validation_stops_without_features
                    {[ ledger_path := Doc scenario ]} never txt_path)).
    reflexivity.
  - apply (proj1 (proj2 (validation_stops_without_features
                           {[ ledger_path := Text "not json" ]} never ledger_path))
             (Text "not json")).
    + reflexivity.
    + reflexivity.
    + discriminate.
  - destruct (proj2 (proj2 (validation_stops_without_features
                {[ ledger_path := Doc (JObj [("metadata", JInt 1)]) ]} never ledger_path))
                (JObj [("metadata", JInt 1)])) as [H _];
      [reflexivity | reflexivity | reflexivity |].
    apply H. reflexivity.
  - destruct (proj2 (proj2 (validation_stops_without_features
                {[ ledger_path := Doc (JObj [("features", JStr "none");
                                             ("metadata", JInt 1)]) ]} never ledger_path))
                (JObj [("features", JStr "none"); ("metadata", JInt 1)])) as [_ H];
      [reflexivity | reflexivity | reflexivity |].
    apply (H (JStr "none")); [reflexivity | discriminate].
Defined.

End Validation_extras.

(** ** Updates and validation together *)

Section Update_then_validate.

Import Vocabulary ShowStatus UpdateFeature ValidateFeatures Ledger.

Lemma conforms_with_passes b f : conforms f = true -> conforms (with_passes b f) = true.
Proof.
  intros H. pose proof (conforms_checkable f H) as Hc.
  assert (Ho : is_obj f = true).
  { unfold checkable in Hc. repeat (apply andb_true_iff in Hc as [Hc ?]). exact Hc. }
  unfold conforms in *.
  rewrite !field_with_passes_other by discriminate.
  rewrite (field_with_passes b f Ho).
  repeat (apply andb_true_iff in H as [H ?]).
  repeat (apply andb_true_iff; split); auto.
Qed.

Lemma Forall_alter_conforms b i fs :
  Forall (fun f => conforms f = true) fs ->
  Forall (fun f => conforms f = true) (alter (with_passes b) i fs).
Proof.
  intros H. revert i. induction H as [| f fs Hf Hfs IH]; intros i; [constructor |].
  destruct i; cbn [alter list_alter]; constructor; auto using conforms_with_passes.
Qed.

Lemma occurrences_alter s b i fs :
  occurrences s (alter (with_passes b) i fs) = occurrences s fs.
Proof.
  unfold occurrences. revert i. induction fs as [| f fs IH]; intros i; [reflexivity |].
  destruct i; cbn [alter list_alter List.filter].
  - rewrite has_id_with_passes. now destruct (has_id s f).
  - specialize (IH i). destruct (has_id s f); cbn [List.length]; [f_equal |]; exact IH.
Qed.

Lemma declares_recomputed now old fs :
  let m := match recomputed now old fs with JObj m => m | _ => [] end in
  declares "total_features" (Z.of_nat (List.length fs)) m = true
  /\ declares "passing" (count passes fs) m = true
  /\ declares "failing" (count fails fs) m = true
  /\ lookup_field "project_name" m = lookup_field "project_name" old.
Proof.
  unfold recomputed, declares. cbn iota.
  repeat split.
  - rewrite !lookup_set_ne by discriminate. rewrite lookup_set_eq. simpl.
    apply Z.eqb_refl.
  - rewrite !lookup_set_ne by discriminate. rewrite lookup_set_eq. simpl.
    apply Z.eqb_refl.
  - rewrite !lookup_set_ne by discriminate. rewrite lookup_set_eq. simpl.
    apply Z.eqb_refl.
  - now rewrite !lookup_set_ne by discriminate.
Qed.

(** Property X18.  A Mutate that changes the status of a feature of a
    ledger that [validate_feature_list] reports valid: when the ledger
    has metadata, the ledger written is reported valid again; when it
    has none, the metadata that the update creates lacks the
    [project_name], and the ledger written is reported invalid with
    that one error. *)
Theorem update_keeps_valid_ledger_valid w path data fs fid new_passes i f :
  files w !! path = Some (Doc data) ->
  has_features data fs ->
  no_faults (io_fails w) ->
  name path <> "" ->
  feature_with_id fid fs = Some (i, f) ->
  same_status f new_passes = false ->
  (exists errs st, validate_feature_list (files w) (io_fails w) path = Ok (true, errs, st)) ->
  exists w',
    update_feature_status path fid new_passes false w = (Ok true, w')
    /\ (field "metadata" data <> None ->
        exists st', validate_feature_list (files w') (io_fails w') path
                    = Ok (true, [], st'))
    /\ (field "metadata" data = None ->
        exists st', validate_feature_list (files w') (io_fails w') path
                    = Ok (false, [MetadataMissingField "project_name"], st')).
Proof.
  intros Hfile Hf Hio Hname Hfind Hsame Hvalid.
  rewrite (validate_feature_list_reads _ _ _ data Hfile (Hio OpenRead)) in Hvalid.
  apply validate_data_valid in Hvalid as (fs0 & Hf0 & Hc & Hd & Hm).
  unfold has_features in Hf, Hf0. rewrite Hf in Hf0. injection Hf0 as <-.
  assert (Ho : is_obj data = true) by (destruct data; try discriminate; reflexivity).
  assert (Hl : ledger_at w path data fs).
  { split; [exact Hfile |]. split.
    - destruct data; try discriminate. unfold features_of. cbn [py_get].
      unfold field in Hf. now rewrite Hf.
    - eapply List.Forall_impl; [| exact Hc]. intros g Hg.
      apply conforms_checkable in Hg. unfold checkable in Hg.
      repeat (apply andb_true_iff in Hg as [Hg ?]). exact Hg. }
  assert (Hmok : metadata_ok data = true).
  { unfold metadata_ok. unfold metadata_consistent in Hm.
    destruct (field "metadata" data) as [[] |]; try discriminate; reflexivity. }
  destruct (with_suffix_total path Hname) as (bak & Hbak).
  rewrite (update_changes_status w path data fs fid new_passes i f bak Hl Hmok Hio
             Hbak Hfind Hsame).
  eexists. split; [reflexivity |].
  set (fs' := alter (with_passes new_passes) i fs).
  set (data' := mutated (clock w) data fs i new_passes).
  assert (Hread : forall r,
            validate_data data' = r ->
            validate_feature_list
              (files (printed (change_preview fid f new_passes
                               ++ change_report fid new_passes bak fs')
                        (with_files (<[path := Doc data']> (<[bak := Doc data]> (files w)))
                           w)))
              (io_fails (printed (change_preview fid f new_passes
                                  ++ change_report fid new_passes bak fs')
                           (with_files (<[path := Doc data']>
                                          (<[bak := Doc data]> (files w))) w)))
              path = r).
  { intros r <-. apply validate_feature_list_reads.
    - unfold printed, with_stdout, with_files. cbn [files]. apply lookup_insert_eq.
    - unfold printed, with_stdout, with_files. cbn [io_fails]. apply Hio. }
  assert (Hf' : has_features data' fs') by (apply field_features_mutated; exact Ho).
  assert (Hc' : Forall (fun g => conforms g = true) fs') by now apply Forall_alter_conforms.
  assert (Hd' : forall s, s <> "" -> (occurrences s fs' <= 1)%nat).
  { intros s Hs. unfold fs'. rewrite occurrences_alter. now apply Hd. }
  pose proof (metadata_mutated (clock w) data fs i new_passes Ho) as Hmeta.
  fold fs' data' in Hmeta.
  destruct (declares_recomputed (clock w) (metadata_fields data) fs')
    as (D1 & D2 & D3 & D4).
  unfold recomputed in D1, D2, D3, D4, Hmeta. cbn iota in D1, D2, D3, D4.
  split.
  - intros Hsome.
    assert (Hm' : metadata_consistent data' fs' = true).
    { unfold metadata_consistent. rewrite Hmeta, D1, D2, D3, D4.
      unfold metadata_consistent in Hm. unfold metadata_fields.
      destruct (field "metadata" data) as [[| | | | | m] |]; try discriminate;
        [| contradiction].
      repeat (apply andb_true_iff in Hm as [Hm ?]). now rewrite Hm. }
    destruct (proj2 (validate_data_valid data')) as (errs & st' & E).
    { exists fs'. auto. }
    exists st'. apply Hread. rewrite E. f_equal. f_equal. f_equal.
    destruct (validate_data_counts _ _ _ _ E) as (_ & _ & _ & _ & _ & Hv).
    now apply (proj1 Hv).
  - intros Hnone.
    destruct (visit_all_distinct fs' Hc' Hd') as (st & Ev & Hnil & Ht & Hp & Hq).
    exists (stats st). apply Hread.
    unfold metadata_fields in Hmeta. rewrite Hnone in Hmeta.
    destruct data' as [| | | | | kvs'] eqn:Ed; try discriminate.
    unfold has_features, field in Hf'. unfold field in Hmeta.
    unfold validate_data. cbn [py_contains py_getitem]. rewrite Hf'. cbn [bind negb].
    rewrite Ev. cbn [bind]. rewrite Hmeta. cbn [bind]. rewrite Hnil.
    unfold metadata_mismatches. cbn [py_get bind set_field lookup_field String.eqb
      Ascii.eqb Bool.eqb].
    rewrite Ht, Hp, Hq.
    unfold validate_metadata, metadata_required.
    cbn [metadata_missing py_contains py_getitem bind set_field lookup_field String.eqb
      Ascii.eqb Bool.eqb py_add py_eq].
    pose proof (count_split fs') as Hsplit.
    rewrite !Z.eqb_refl.
    replace (count passes fs' + count fails fs' =? Z.of_nat (List.length fs'))
      with true by (symmetry; apply Z.eqb_eq; lia).
    reflexivity.
Qed.

Lemma update_keeps_valid_ledger_valid_witness :
  (exists w',
     update_feature_status ledger_path "H001" true false complete_disk = (Ok true, w')
     /\ exists st', validate_feature_list (files w') (io_fails w') ledger_path
                    = Ok (true, [], st'))
  /\ (exists w',
        update_feature_status ledger_path "H001" true false bare_disk = (Ok true, w')
        /\ exists st', validate_feature_list (files w') (io_fails w') ledger_path
                       = Ok (false, [MetadataMissingField "project_name"], st')).
Proof.
  split.
  - destruct (update_keeps_valid_ledger_valid complete_disk ledger_path complete
                [H001; H002] "H001" true 0%nat H001) as (w' & Hr & Hsome & _).
    + reflexivity.
    + reflexivity.
    + intros op. reflexivity.
    + discriminate.
    + reflexivity.
    + reflexivity.
    + eexists _, _. vm_compute. reflexivity.
    + exists w'. split; [exact Hr |]. apply Hsome. discriminate.
  - destruct (update_keeps_valid_ledger_valid bare_disk ledger_path bare
                [H001; H002] "H001" true 0%nat H001) as (w' & Hr & _ & Hnone).
    + reflexivity.
    + reflexivity.
    + intros op. reflexivity.
    + discriminate.
    + reflexivity.
    + reflexivity.
    + eexists _, _. vm_compute. reflexivity.
    + exists w'. split; [exact Hr |]. apply Hnone. reflexivity.
Defined.

End Update_then_validate.

(** ** The statistics *)

Section Breakdowns.

Import Vocabulary ShowStatus UpdateFeature ValidateFeatures Ledger.

Lemma py_eq_sym_hashable a b :
  hashable a = true -> hashable b = true -> py_eq a b = py_eq b a.
Proof.
  destruct a, b; try discriminate; intros _ _; simpl; try reflexivity.
  - now destruct b, b0.
  - apply Z.eqb_sym.
  - apply Z.eqb_sym.
  - apply Z.eqb_sym.
  - apply String.eqb_sym.
Qed.

Lemma py_eq_trans_hashable a b c :
  hashable a = true -> hashable b = true -> hashable c = true ->
  py_eq a b = true -> py_eq b c = true -> py_eq a c = true.
Proof.
  destruct a as [| x | x | x | |], b as [| y | y | y | |]; try discriminate;
    destruct c as [| z | z | z | |]; try discriminate; intros _ _ _; simpl;
    try discriminate; try reflexivity;
    rewrite ?Z.eqb_eq, ?String.eqb_eq, ?Bool.eqb_true_iff; try congruence;
    repeat match goal with b : bool |- _ => destruct b end; cbn [Z.b2z]; lia.
Qed.

Lemma py_eq_left_hashable a b c :
  hashable a = true -> hashable b = true -> hashable c = true ->
  py_eq a b = true -> py_eq a c = py_eq b c.
Proof.
  intros Ha Hb Hc Hab.
  destruct (py_eq b c) eqn:Hbc.
  - now apply (py_eq_trans_hashable a b c).
  - destruct (py_eq a c) eqn:Hac; [| reflexivity].
    rewrite <- Hbc. symmetry. apply (py_eq_trans_hashable b a c); auto.
    now rewrite py_eq_sym_hashable.
Qed.

Lemma count_lookup_set k k' n d :
  keys_hashable d -> hashable k = true -> hashable k' = true ->
  count_lookup k' (counts_set k n d)
  = if py_eq k k' then Some n else count_lookup k' d.
Proof.
  intros Hd Hk Hk'. induction Hd as [| [k0 n0] d Hk0 _ IH]; cbn [counts_set count_lookup].
  - rewrite (py_eq_sym_hashable k k') by assumption. reflexivity.
  - simpl in Hk0. destruct (py_eq k0 k) eqn:E0; cbn [count_lookup].
    + rewrite (py_eq_left_hashable k0 k k') by assumption.
      now destruct (py_eq k k').
    + rewrite IH. destruct (py_eq k0 k') eqn:E1; [| reflexivity].
      destruct (py_eq k k') eqn:E2; [| reflexivity].
      assert (py_eq k0 k = true); [| congruence].
      apply (py_eq_trans_hashable k0 k' k); auto.
      now rewrite py_eq_sym_hashable.
Qed.

Lemma count_lookup_eq k k' d :
  keys_hashable d -> hashable k = true -> hashable k' = true ->
  py_eq k k' = true -> count_lookup k d = count_lookup k' d.
Proof.
  intros Hd Hk Hk' E. induction Hd as [| [k0 n0] d Hk0 _ IH]; cbn [count_lookup];
    [reflexivity |].
  simpl in Hk0.
  rewrite (py_eq_sym_hashable k0 k), (py_eq_sym_hashable k0 k') by assumption.
  rewrite (py_eq_left_hashable k k' k0) by assumption.
  now rewrite IH.
Qed.

Lemma keys_hashable_set k n d :
  keys_hashable d -> hashable k = true -> keys_hashable (counts_set k n d).
Proof.
  intros Hd Hk. induction Hd as [| [k0 n0] d Hk0 Hd IH]; cbn [counts_set].
  - repeat constructor. exact Hk.
  - destruct (py_eq k0 k); constructor; auto.
Qed.

(** What a count reads after one more feature was counted. *)
Lemma bump_get k d d' k' :
  bump k d = Ok d' -> keys_hashable d -> hashable k' = true ->
  keys_hashable d'
  /\ counts_get k' d' = Ok (match counts_get k' d with Ok n => n | Raise _ => 0 end
                            + (if py_eq k k' then 1 else 0)).
Proof.
  intros E Hd Hk'. pose proof (bump_ok_hashable _ _ _ E) as Hk.
  unfold bump, counts_get in *. rewrite Hk in E. cbn [bind] in E. injection E as <-.
  split; [now apply keys_hashable_set |].
  rewrite Hk'. rewrite count_lookup_set by assumption.
  destruct (py_eq k k') eqn:Ek.
  - now rewrite (count_lookup_eq k k' d).
  - now rewrite Z.add_0_r.
Qed.

Lemma visit_all_tally fs :
  forall st i st',
  visit_all st i fs = Ok st' ->
  keys_hashable (by_category (stats st)) ->
  keys_hashable (by_priority (stats st)) ->
  forall k, hashable k = true ->
    counts_get k (by_category (stats st'))
    = Ok (match counts_get k (by_category (stats st)) with Ok n => n | Raise _ => 0 end
          + tally category_of k fs)
    /\ counts_get k (by_priority (stats st'))
       = Ok (match counts_get k (by_priority (stats st)) with Ok n => n | Raise _ => 0 end
             + tally priority_of k fs).
Proof.
  induction fs as [| f fs IH]; intros st i st'; cbn [visit_all].
  - intros [= <-] _ _ k Hk. unfold counts_get, tally, count. rewrite Hk. simpl.
    now rewrite !Z.add_0_r.
  - destruct (visit st i f) as [st1 |] eqn:Ev; cbn [bind]; [| discriminate].
    intros Hall Hc Hp k Hk.
    destruct (visit_inv st i f st1 Ev) as (es & cats & pris & _ & _ & Ec & Epr & ->).
    destruct (bump_get _ _ _ k Ec Hc Hk) as [Hc1 Gc].
    destruct (bump_get _ _ _ k Epr Hp Hk) as [Hp1 Gp].
    destruct (IH _ _ _ Hall Hc1 Hp1 k Hk) as [Rc Rp].
    cbn [stats by_category by_priority] in *.
    rewrite Rc, Rp, Gc, Gp. unfold tally, count. cbn [List.filter].
    fold (category_of f) (priority_of f).
    split; f_equal.
    + destruct (py_eq (category_of f) k); cbn [List.length]; lia.
    + destruct (py_eq (priority_of f) k); cbn [List.length]; lia.
Qed.

Lemma validation_tally fsmap refuses path data fs v errs st :
  fsmap !! path = Some (Doc data) ->
  has_features data fs ->
  validate_feature_list fsmap refuses path = Ok (v, errs, st) ->
  forall k, hashable k = true ->
    counts_get k (by_category st) = Ok (tally category_of k fs)
    /\ counts_get k (by_priority st) = Ok (tally priority_of k fs).
Proof.
  intros Hfile Hf E k Hk.
  unfold validate_feature_list in E. rewrite Hfile in E.
  destruct (refuses OpenRead); [discriminate |]. cbn [json_load] in E.
  destruct data as [| | | | | kvs]; try discriminate.
  unfold has_features, field in Hf.
  unfold validate_data in E. cbn [py_contains py_getitem] in E.
  rewrite Hf in E. cbn [bind negb] in E.
  destruct (visit_all (VState [] [] empty_stats) 0 fs) as [st0 |] eqn:Ev;
    cbn [bind] in E; [| discriminate].
  destruct (visit_all_tally fs _ _ _ Ev (List.Forall_nil _) (List.Forall_nil _) k Hk)
    as [Rc Rp].
  match type of E with bind ?x _ = _ => destruct x as [errs0 |] end;
    cbn [bind] in E; [| discriminate].
  injection E as _ _ <-.
  cbn [stats empty_stats by_category by_priority] in Rc, Rp.
  unfold counts_get in Rc at 2. unfold counts_get in Rp at 2.
  rewrite Hk in Rc, Rp. cbn [count_lookup] in Rc, Rp.
  now rewrite Rc, Rp.
Qed.

(** Property X19.  The two breakdowns of the statistics count what
    they name: for every label that can be a key, the count of
    [by_category] is the number of features whose category (or
    [uncategorized], without one) equals the label, and the count of
    [by_priority] the number of those whose priority (or [unknown])
    does; a label no feature carries reads as 0. *)
Theorem breakdowns_count_features fsmap refuses path data fs v errs st :
  fsmap !! path = Some (Doc data) ->
  has_features data fs ->
  validate_feature_list fsmap refuses path = Ok (v, errs, st) ->
  forall k, hashable k = true ->
    counts_get k (by_category st) = Ok (tally category_of k fs)
    /\ counts_get k (by_priority st) = Ok (tally priority_of k fs).
Proof.
  exact (validation_tally fsmap refuses path data fs v errs st).
Qed.

Lemma breakdowns_count_features_witness :
  exists v errs st,
    validate_feature_list {[ ledger_path := Doc complete ]} never ledger_path
    = Ok (v, errs, st)
    /\ counts_get (JStr "core") (by_category st)
       = Ok (tally category_of (JStr "core") [H001; H002])
    /\ counts_get (JStr "core") (by_priority st)
       = Ok (tally priority_of (JStr "core") [H001; H002]).
Proof.
  destruct (validate_feature_list {[ ledger_path := Doc complete ]} never ledger_path)
    as [[[v errs] st] | e] eqn:E.
  - exists v, errs, st. split; [reflexivity |].
    apply (breakdowns_count_features {[ ledger_path := Doc complete ]} never
             ledger_path complete [H001; H002] v errs st).
    + reflexivity.
    + reflexivity.
    + exact E.
    + reflexivity.
  - vm_compute in E. discriminate.
Defined.

End Breakdowns.

(** ** Percentages and the progress bar *)

Section Percentages.

Import Vocabulary ShowStatus UpdateFeature ValidateFeatures Ledger.

Lemma Qdiv_parts a b m :
  0 < m -> a + b = m -> (inject_Z a / inject_Z m + inject_Z b / inject_Z m == 1)%Q.
Proof.
  intros Hm Hab. subst m.
  rewrite inject_Z_plus. field.
  rewrite <- inject_Z_plus. intros H.
  apply (Qeq_bool_neq (inject_Z (a + b)) 0); [| exact H].
  unfold Qeq_bool. simpl. rewrite Z.mul_1_r. apply Z.eqb_neq. lia.
Qed.

Lemma Qdiv_unit a m :
  0 <= a <= m -> 0 < m -> (0 <= inject_Z a / inject_Z m)%Q /\ (inject_Z a / inject_Z m <= 1)%Q.
Proof.
  intros Ha Hm.
  assert (Him : (0 < inject_Z m)%Q)
    by (change 0%Q with (inject_Z 0); now rewrite <- Zlt_Qlt).
  split.
  - apply Qle_shift_div_l; [exact Him |]. rewrite Qmult_0_l.
    change 0%Q with (inject_Z 0). rewrite <- Zle_Qle. lia.
  - apply Qle_shift_div_r; [exact Him |]. rewrite Qmult_1_l.
    rewrite <- Zle_Qle. lia.
Qed.

(** The quotient of a part by the whole is a float between 0 and 1,
    within [2 ** -53] of the exact quotient. *)
Lemma py_truediv_part a m :
  0 <= a <= m -> 0 < m ->
  exists r,
    py_truediv a m = Ok (Float false r)
    /\ (0 <= r)%Q /\ (r <= 1)%Q
    /\ (r - inject_Z a / inject_Z m <= 1 # 9007199254740992)%Q
    /\ (inject_Z a / inject_Z m - r <= 1 # 9007199254740992)%Q
    /\ (a = 0 -> r = 0%Q)
    /\ (a = m -> r = 1%Q).
Proof.
  intros Ha Hm. unfold py_truediv.
  destruct (Z.eqb_spec m 0) as [E | _]; [lia |].
  rewrite (Z.abs_eq a), (Z.abs_eq m) by lia.
  destruct (Z.ltb_spec a 0); [lia |]. destruct (Z.ltb_spec m 0); [lia |].
  cbn [xorb].
  destruct (Qdiv_unit a m Ha Hm) as [Hx0 Hx1].
  destruct (round64_bounded _ 1 Hx0 Hx1 ltac:(reflexivity)) as (r & Hr & Hr0 & Hr1).
  destruct (round64_near (inject_Z a / inject_Z m) 0 Hx0) as (r' & Hr' & Hup & Hdown);
    [| lia |].
  { apply Qle_lt_trans with 1%Q; [exact Hx1 | reflexivity]. }
  rewrite Hr in Hr'. injection Hr' as <-.
  rewrite Hr. exists r. split; [reflexivity |].
  split; [exact Hr0 |]. split; [exact Hr1 |].
  split; [exact Hup |]. split; [exact Hdown |].
  split.
  - intros ->. rewrite (round64_zero (inject_Z 0 / inject_Z m)) in Hr by reflexivity.
    now injection Hr as <-.
  - intros ->. rewrite (round64_Qeq (inject_Z m / inject_Z m) 1) in Hr.
    + now injection Hr as <-.
    + field. intros Hz. apply (Qeq_bool_neq (inject_Z m) 0); [| exact Hz].
      unfold Qeq_bool. simpl. rewrite Z.mul_1_r. apply Z.eqb_neq. lia.
Qed.

(** A hundred times a float between 0 and 1 is a float between 0 and
    100, within [2 ** -47] of the exact product. *)
Lemma float_mul_hundred r :
  (0 <= r)%Q -> (r <= 1)%Q ->
  exists p,
    float_mul (Float false r) hundred = Finite (Float false p)
    /\ (0 <= p)%Q /\ (p <= 100)%Q
    /\ (p - r * 100 <= 1 # 140737488355328)%Q
    /\ (r * 100 - p <= 1 # 140737488355328)%Q
    /\ (r = 0%Q -> p = 0%Q)
    /\ (r = 1%Q -> p = 100%Q).
Proof.
  intros H0 H1. unfold float_mul, hundred. cbn [negative magnitude xorb].
  assert (Hy0 : (0 <= r * 100)%Q) by lra.
  assert (Hy1 : (r * 100 <= inject_Z 100)%Q) by (change (inject_Z 100) with 100%Q; lra).
  destruct (round64_bounded _ 100 Hy0 Hy1 ltac:(reflexivity)) as (p & Hp & Hp0 & Hp1).
  destruct (round64_near (r * 100) 6 Hy0) as (p' & Hp' & Hup & Hdown); [| lia |].
  { change (pow2 (6 + 1)) with 128%Q. lra. }
  rewrite Hp in Hp'. injection Hp' as <-.
  rewrite Hp. exists p. split; [reflexivity |].
  split; [exact Hp0 |]. split; [exact Hp1 |].
  split; [exact Hup |]. split; [exact Hdown |].
  split; intros ->; vm_compute in Hp; now injection Hp as <-.
Qed.

(** Property X20.  The two percentages of [print_report] are defined
    for every result of [validate_feature_list], with no exception and
    no infinity: each is a float between 0 and 100; both are 0 when
    there is no feature; when all features pass they are 100 and 0;
    and they add up to 100 but for the rounding of the floats, their
    sum being within [2 ** -44] of 100. *)
Theorem report_percentages_add_up fsmap refuses path v errs st :
  validate_feature_list fsmap refuses path = Ok (v, errs, st) ->
  exists p f,
    report_percentages st = Ok (Finite (Float false p), Finite (Float false f))
    /\ (0 <= p)%Q /\ (p <= 100)%Q /\ (0 <= f)%Q /\ (f <= 100)%Q
    /\ (total st = 0 -> p = 0%Q /\ f = 0%Q)
    /\ (total st <> 0 -> failing st = 0 -> p = 100%Q /\ f = 0%Q)
    /\ (total st <> 0 ->
        (p + f - 100 <= 1 # 17592186044416)%Q /\ (100 - (p + f) <= 1 # 17592186044416)%Q).
Proof.
  intros E.
  destruct (validate_feature_list_counts _ _ _ _ _ _ E) as (Hs & _ & _ & Hp & Hq & _).
  unfold report_percentages.
  set (m := Z.max (total st) 1).
  assert (Hm : 0 < m) by (unfold m; lia).
  destruct (py_truediv_part (passing st) m) as (rp & -> & Hrp0 & Hrp1 & Hpu & Hpd & Hpz & Hpo);
    [unfold m; lia | exact Hm |].
  destruct (py_truediv_part (failing st) m) as (rf & -> & Hrf0 & Hrf1 & Hfu & Hfd & Hfz & Hfo);
    [unfold m; lia | exact Hm |].
  cbn [bind].
  destruct (float_mul_hundred rp Hrp0 Hrp1) as (p & -> & Hp0 & Hp1 & Hppu & Hppd & Hppz & Hppo).
  destruct (float_mul_hundred rf Hrf0 Hrf1) as (f & -> & Hf0 & Hf1 & Hffu & Hffd & Hffz & Hffo).
  exists p, f. split; [reflexivity |].
  split; [exact Hp0 |]. split; [exact Hp1 |]. split; [exact Hf0 |]. split; [exact Hf1 |].
  split; [| split].
  - intros Ht. split; [apply Hppz, Hpz | apply Hffz, Hfz]; lia.
  - intros Ht Hfail. split; [apply Hppo, Hpo | apply Hffz, Hfz]; unfold m; lia.
  - intros Ht.
    pose proof (Qdiv_parts (passing st) (failing st) m Hm ltac:(unfold m; lia)) as Hsum.
    set (xp := (inject_Z (passing st) / inject_Z m)%Q) in *.
    set (xf := (inject_Z (failing st) / inject_Z m)%Q) in *.
    clearbody xp xf. split; lra.
Qed.

Lemma report_percentages_add_up_witness :
  exists v errs st,
    validate_feature_list {[ ledger_path := Doc complete ]} never ledger_path
    = Ok (v, errs, st)
    /\ exists p f,
         report_percentages st = Ok (Finite (Float false p), Finite (Float false f))
         /\ (0 <= p)%Q /\ (p <= 100)%Q /\ (0 <= f)%Q /\ (f <= 100)%Q
         /\ (total st = 0 -> p = 0%Q /\ f = 0%Q)
         /\ (total st <> 0 -> failing st = 0 -> p = 100%Q /\ f = 0%Q)
         /\ (total st <> 0 ->
             (p + f - 100 <= 1 # 17592186044416)%Q
             /\ (100 - (p + f) <= 1 # 17592186044416)%Q).
Proof.
  destruct (validate_feature_list {[ ledger_path := Doc complete ]} never ledger_path)
    as [[[v errs] st] | e] eqn:E.
  - exists v, errs, st. split; [reflexivity |].
    exact (report_percentages_add_up _ _ _ _ _ _ E).
  - vm_compute in E. discriminate.
Defined.

(** The floats of the report do not always add up to 100: with one
    feature of three passing the two percentages are
    33.33333333333333 and 66.66666666666666, as Python prints them. *)
Example report_percentages_of_a_third :
  report_percentages (MkStats 3 1 2 [] [])
  = Ok (Finite (Float false (2345624805922133 # 70368744177664)),
        Finite (Float false (2345624805922133 # 35184372088832)))
  /\ ((2345624805922133 # 70368744177664) + (2345624805922133 # 35184372088832) < 100)%Q.
Proof.
  split; [vm_compute; reflexivity | reflexivity].
Qed.

Lemma as_int_eq v n : py_eq v (JInt n) = true -> as_int v = Some n.
Proof.
  destruct v as [| b | z | | |]; try discriminate; simpl; intros H;
    apply Z.eqb_eq in H; now subst.
Qed.

(** The bar for a count between 0 and the total. *)
Lemma print_progress_bar_counts passing total a t width :
  py_eq passing (JInt a) = true -> py_eq total (JInt t) = true ->
  0 <= a <= t -> 0 < t -> 0 <= width < 2 ^ 53 ->
  exists line,
    print_progress_bar passing total width = Ok (Some line)
    /\ 0 <= filled line <= width
    /\ empty line = width - filled line
    /\ bar_length line = width
    /\ shown_passing line = passing /\ shown_total line = total
    /\ (a = t -> filled line = width)
    /\ (a = 0 -> filled line = 0)
    /\ exists p, percent line = Finite (Float false p) /\ (0 <= p)%Q /\ (p <= 100)%Q.
Proof.
  intros Hpa Hto Ha Ht Hw. unfold print_progress_bar.
  assert (E0 : py_eq total (JInt 0) = false).
  { destruct total as [| b | z | | |]; try discriminate; simpl in *;
      apply Z.eqb_eq in Hto; apply Z.eqb_neq.
    - destruct b; simpl in *; lia.
    - lia. }
  rewrite E0. unfold py_div.
  rewrite (as_int_eq passing a Hpa), (as_int_eq total t Hto).
  destruct (py_truediv_part a t Ha Ht) as (r & -> & Hr0 & Hr1 & _ & _ & Hrz & Hro).
  cbn [bind]. unfold float_of_int. rewrite (Z.abs_eq width) by lia.
  destruct (round64_int width Hw) as (rw & -> & Hrw). cbn [bind].
  destruct (Z.ltb_spec width 0); [lia |].
  unfold float_mul at 1. cbn [negative magnitude xorb].
  assert (Hiw : (0 <= inject_Z width)%Q)
    by (change 0%Q with (inject_Z 0); rewrite <- Zle_Qle; lia).
  assert (Hy0 : (0 <= rw * r)%Q) by (rewrite Hrw; now apply Qmult_le_0_compat).
  assert (Hy1 : (rw * r <= inject_Z width)%Q).
  { rewrite Hrw. set (iw := inject_Z width) in *. clearbody iw. nra. }
  destruct (round64_bounded _ width Hy0 Hy1 ltac:(lia)) as (y & Hy & Hy0' & Hy1').
  rewrite Hy. cbn [py_int negative magnitude bind].
  pose proof (floor_bounded y width Hy0' Hy1') as Hfl.
  set (fl := Qnum y / Z.pos (Qden y)) in *.
  assert (Hmax : 2 ^ 53 < maxsize) by reflexivity.
  unfold py_repeat.
  destruct (Z.ltb_spec maxsize fl); [lia |].
  destruct (Z.ltb_spec fl (- maxsize - 1)); [lia |]. cbn [orb bind].
  destruct (Z.ltb_spec maxsize (width - fl)); [lia |].
  destruct (Z.ltb_spec (width - fl) (- maxsize - 1)); [lia |]. cbn [orb bind].
  unfold py_concat. rewrite !Z.max_r by lia.
  destruct (Z.ltb_spec (maxsize - (width - fl)) fl); [lia |]. cbn [bind].
  destruct (float_mul_hundred r Hr0 Hr1) as (p & Hp & Hp0 & Hp1 & _).
  eexists. split; [reflexivity |].
  cbn [filled empty bar_length shown_passing shown_total percent].
  split; [exact Hfl |]. split; [reflexivity |]. split; [lia |].
  split; [reflexivity |]. split; [reflexivity |].
  split; [| split].
  - intros ->. subst fl. apply floor_int.
    rewrite (round64_Qeq (rw * r) (inject_Z width)) in Hy.
    + destruct (round64_int width Hw) as (rw' & Hrw' & Hrw''). rewrite Hrw' in Hy.
      injection Hy as <-. exact Hrw''.
    + rewrite (Hro eq_refl), Hrw. apply Qmult_1_r.
  - intros ->. subst fl.
    rewrite (round64_zero (rw * r)) in Hy by (rewrite (Hrz eq_refl); apply Qmult_0_r).
    injection Hy as <-. reflexivity.
  - exists p. now rewrite Hp.
Qed.

(** The bar of the report: none for a total of 0, a bar for a count
    between 0 and the total. *)
Lemma print_progress_bar_defined passing total a t :
  py_eq passing (JInt a) = true -> py_eq total (JInt t) = true ->
  0 <= a <= t ->
  exists bar,
    print_progress_bar passing total default_width = Ok bar
    /\ (t = 0 <-> bar = None).
Proof.
  intros Hpa Hto Ha. destruct (Z.eq_dec t 0) as [-> | Ht].
  - exists None. unfold print_progress_bar. rewrite Hto. split; [reflexivity | tauto].
  - destruct (print_progress_bar_counts passing total a t default_width Hpa Hto Ha)
      as (line & E & _); [lia | split; [discriminate | reflexivity] |].
    exists (Some line). split; [exact E |]. split; [lia | discriminate].
Qed.

(** A count out of proportion with the total ends the call: the
    quotient is beyond the floats, or the product with the width is,
    or the bar is beyond the longest string. *)
Lemma print_progress_bar_overflow p t :
  t <> 0 -> 2 ^ 62 * Z.abs t <= Z.abs p ->
  print_progress_bar (JInt p) (JInt t) default_width = Raise OverflowError.
Proof.
  intros Ht Hp. unfold print_progress_bar. cbn [py_eq].
  destruct (Z.eqb_spec t 0) as [E | _]; [lia |].
  unfold py_div. cbn [as_int]. unfold py_truediv.
  destruct (Z.eqb_spec t 0) as [E | _]; [lia |].
  destruct (round64 (inject_Z (Z.abs p) / inject_Z (Z.abs t))) as [m |] eqn:Em;
    cbn [bind]; [| reflexivity].
  assert (Hm : (pow2 62 <= m)%Q).
  { apply (round64_lower _ 62 m) in Em; [exact Em | | lia].
    apply Qle_shift_div_l.
    - change 0%Q with (inject_Z 0). rewrite <- Zlt_Qlt. lia.
    - change (pow2 62) with (inject_Z (2 ^ 62)).
      rewrite <- inject_Z_mult, <- Zle_Qle. exact Hp. }
  assert (Hw : float_of_int default_width = Ok (Float false 40))
    by (vm_compute; reflexivity).
  rewrite Hw. cbn [bind]. unfold float_mul. cbn [negative magnitude xorb].
  destruct (round64 (40 * m)) as [y |] eqn:Ey; cbn [py_int bind]; [| reflexivity].
  assert (Hy : (inject_Z (2 ^ 67) <= y)%Q).
  { apply (round64_lower _ 67 y) in Ey; [exact Ey | | lia].
    change (pow2 67) with (147573952589676412928 # 1)%Q.
    change (pow2 62) with (4611686018427387904 # 1)%Q in Hm. lra. }
  apply floor_lower in Hy. cbn [negative magnitude].
  set (fl := Qnum y / Z.pos (Qden y)) in *.
  change (2 ^ 67) with 147573952589676412928 in Hy.
  assert (Hmax : maxsize = 9223372036854775807) by reflexivity.
  unfold py_repeat at 1.
  destruct (xorb (p <? 0) (t <? 0)).
  - destruct (Z.ltb_spec (- fl) (- maxsize - 1)); [| lia].
    rewrite orb_true_r. reflexivity.
  - destruct (Z.ltb_spec maxsize fl); [| lia]. reflexivity.
Qed.



(** The filled part is the integer part of a product of floats, which
    can be one cell short of the exact quotient: 28 cells of 50 for 29
    of 50.  Counts beyond the floats, or a bar beyond the longest
    string, end the call with [OverflowError]. *)
Example print_progress_bar_rounds :
  (exists line, print_progress_bar (JInt 29) (JInt 50) 50 = Ok (Some line)
                /\ filled line = 28 /\ empty line = 22)
  /\ print_progress_bar (JInt (10 ^ 20)) (JInt 1) 40 = Raise OverflowError
  /\ print_progress_bar (JInt (- 10 ^ 20)) (JInt 1) 40 = Raise OverflowError
  /\ print_progress_bar (JInt (10 ^ 400)) (JInt 1) 40 = Raise OverflowError.
Proof.
  split; [| split; [| split]].
  - eexists. split; [vm_compute; reflexivity |]. split; reflexivity.
  - vm_compute. reflexivity.
  - vm_compute. reflexivity.
  - vm_compute. reflexivity.
Qed.

End Percentages.

(** ** The status report *)

Section Status_report.

Import Vocabulary ShowStatus UpdateFeature ValidateFeatures Ledger PrintStatus.

Lemma count_where_passes fs :
  Forall (fun f => is_obj f = true) fs ->
  count_where has_passes fs = Ok (count passes fs).
Proof.
  intros H. unfold count_where, count.
  rewrite (filterM_pure has_passes passes); [reflexivity |].
  eapply List.Forall_impl; [| exact H]. intros f Hf. now apply has_passes_passes.
Qed.

(** The head of the report, by the fields of the metadata. *)
Lemma status_header_obj kvs fs m :
  lookup_field "features" kvs = Some (JArr fs) ->
  Forall (fun f => is_obj f = true) fs ->
  match lookup_field "metadata" kvs with Some x => x | None => JObj [] end = JObj m ->
  status_header (JObj kvs)
  = let total := match lookup_field "total_features" m with
                 | Some x => x | None => JInt (Z.of_nat (List.length fs)) end in
    let passing := match lookup_field "passing" m with
                   | Some x => x | None => JInt (count passes fs) end in
    let! failing := py_sub total passing in
    let! bar := print_progress_bar passing total default_width in
    Ok (Header (match lookup_field "project_name" m with
                | Some x => x | None => JStr "Unknown" end)
               bar total passing failing).
Proof.
  intros Hf Hfs Hm. unfold status_header. cbn [py_get bind]. rewrite Hm, Hf.
  cbn [get_method is_obj bind py_len py_iter py_get].
  rewrite (count_where_passes fs Hfs). cbn [bind].
  destruct (py_sub _ _); reflexivity.
Qed.

Lemma count_bounds p fs : 0 <= count p fs <= Z.of_nat (List.length fs).
Proof.
  unfold count. split; [lia |]. apply Nat2Z.inj_le, List.filter_length_le.
Qed.

(** Property X22.  Where the counts of the status report come from, on
    a ledger of records.  Without metadata, the total, the passing and
    the failing count are those of the feature list, and the bar is
    left out exactly when the list is empty.  With metadata that
    declares integers [total_features] and [passing], the report shows
    the declared numbers, whatever the features are, and shows as
    failing their difference, not the declared [failing], provided
    that the declared total is 0 (then no bar is printed) or that
    [0 <= passing <= total_features].  When the declared total is not
    0 and [passing] is at least [2 ** 62] times the total in absolute
    value, the report ends with [OverflowError] at the progress bar,
    before any count is printed. *)
Theorem status_header_sources data fs :
  has_features data fs ->
  Forall (fun f => is_obj f = true) fs ->
  (field "metadata" data = None ->
     exists bar,
       status_header data
       = Ok (Header (JStr "Unknown") bar (JInt (Z.of_nat (List.length fs)))
                    (JInt (count passes fs)) (JInt (count fails fs)))
       /\ (fs = [] <-> bar = None))
  /\ (forall m t p,
        field "metadata" data = Some (JObj m) ->
        lookup_field "total_features" m = Some (JInt t) ->
        lookup_field "passing" m = Some (JInt p) ->
        (t = 0 \/ 0 <= p <= t ->
         exists h, status_header data = Ok h
                   /\ head_total h = JInt t /\ head_passing h = JInt p
                   /\ head_failing h = JInt (t - p)
                   /\ (t = 0 <-> head_bar h = None))
        /\ (t <> 0 -> 2 ^ 62 * Z.abs t <= Z.abs p ->
            status_header data = Raise OverflowError)).
Proof.
  intros Hf Hfs. destruct data as [| | | | | kvs]; try discriminate.
  unfold has_features, field in *. split.
  - intros Hn. rewrite (status_header_obj kvs fs []); auto; [| now rewrite Hn].
    cbn [lookup_field py_sub bind]. pose proof (count_split fs) as Hsplit.
    destruct (print_progress_bar_defined (JInt (count passes fs))
                (JInt (Z.of_nat (List.length fs))) (count passes fs)
                (Z.of_nat (List.length fs)))
      as (bar & -> & Hbar);
      [apply Z.eqb_refl | apply Z.eqb_refl | apply count_bounds |].
    cbn [bind]. exists bar. split.
    + do 3 f_equal. f_equal. lia.
    + rewrite <- Hbar. destruct fs; [tauto | split; [discriminate |]].
      cbn [List.length]. lia.
  - intros m t p Hm Ht Hp. split.
    + intros Hrange.
      rewrite (status_header_obj kvs fs m); auto; [| now rewrite Hm].
      rewrite Ht, Hp. cbn [py_sub bind].
      destruct Hrange as [-> | Hrange].
      * unfold print_progress_bar. cbn [py_eq Z.eqb bind].
        eexists. split; [reflexivity |]. cbn [head_total head_passing head_failing head_bar].
        tauto.
      * destruct (print_progress_bar_defined (JInt p) (JInt t) p t)
          as (bar & -> & Hbar); [apply Z.eqb_refl | apply Z.eqb_refl | exact Hrange |].
        cbn [bind]. eexists. split; [reflexivity |].
        cbn [head_total head_passing head_failing head_bar]. tauto.
    + intros Hz Hbig.
      rewrite (status_header_obj kvs fs m); auto; [| now rewrite Hm].
      rewrite Ht, Hp. cbn [py_sub bind].
      now rewrite (print_progress_bar_overflow p t Hz Hbig).
Qed.

Lemma status_header_sources_witness :
  (exists bar,
     status_header bare
     = Ok (Header (JStr "Unknown") bar (JInt (Z.of_nat (List.length [H001; H002])))
                  (JInt (count passes [H001; H002])) (JInt (count fails [H001; H002])))
     /\ ([H001; H002] = [] <-> bar = None))
  /\ (exists h,
        status_header
          (JObj [("features", JArr [H001; H002]);
                 ("metadata", JObj [("total_features", JInt 9); ("passing", JInt 4);
                                    ("failing", JInt 0)])])
        = Ok h
        /\ head_total h = JInt 9 /\ head_passing h = JInt 4
        /\ head_failing h = JInt (9 - 4)
        /\ (9 = 0 <-> head_bar h = None))
  /\ status_header
       (JObj [("features", JArr [H001; H002]);
              ("metadata", JObj [("total_features", JInt 1);
                                 ("passing", JInt (10 ^ 20))])])
     = Raise OverflowError.
Proof.
  split; [| split].
  - apply (proj1 (status_header_sources bare [H001; H002] eq_refl
                    ltac:(repeat constructor))).
    reflexivity.
  - apply (proj2 (status_header_sources
                    (JObj [("features", JArr [H001; H002]);
                           ("metadata", JObj [("total_features", JInt 9);
                                              ("passing", JInt 4);
                                              ("failing", JInt 0)])])
                    [H001; H002] eq_refl ltac:(repeat constructor))
             [("total_features", JInt 9); ("passing", JInt 4); ("failing", JInt 0)]
             9 4).
    + reflexivity.
    + reflexivity.
    + reflexivity.
    + right. lia.
  - apply (proj2 (status_header_sources
                    (JObj [("features", JArr [H001; H002]);
                           ("metadata", JObj [("total_features", JInt 1);
                                              ("passing", JInt (10 ^ 20))])])
                    [H001; H002] eq_refl ltac:(repeat constructor))
             [("total_features", JInt 1); ("passing", JInt (10 ^ 20))]
             1 (10 ^ 20)).
    + reflexivity.
    + reflexivity.
    + reflexivity.
    + discriminate.
    + vm_compute. discriminate.
Defined.

Lemma py_sub_declared t p a b :
  py_eq t (JInt a) = true -> py_eq p (JInt b) = true ->
  exists f, py_sub t p = Ok f /\ py_eq f (JInt (a - b)) = true.
Proof.
  destruct t as [| x | x | | |]; try discriminate;
    destruct p as [| y | y | | |]; try discriminate;
    simpl; intros H1 H2; (eexists; split; [reflexivity |]); simpl;
    apply Z.eqb_eq in H1, H2; apply Z.eqb_eq; lia.
Qed.

(** Property X23.  On a ledger that [validate_feature_list] reports
    valid, the head of the status report is printed without an
    exception, and the total, the passing and the failing count it
    shows equal the counts of the validator's statistics. *)
Theorem status_header_of_valid_ledger fsmap refuses path data errs st :
  fsmap !! path = Some (Doc data) ->
  refuses OpenRead = false ->
  validate_feature_list fsmap refuses path = Ok (true, errs, st) ->
  exists h,
    status_header data = Ok h
    /\ py_eq (head_total h) (JInt (total st)) = true
    /\ py_eq (head_passing h) (JInt (passing st)) = true
    /\ py_eq (head_failing h) (JInt (failing st)) = true.
Proof.
  intros Hfile Hr E.
  rewrite (validate_feature_list_reads fsmap refuses path data Hfile Hr) in E.
  destruct (proj1 (validate_data_valid data)) as (fs & Hf & Hc & Hd & Hm); [eauto |].
  assert (Hchk : Forall (fun f => checkable f = true) fs).
  { eapply List.Forall_impl; [| exact Hc]. apply conforms_checkable. }
  assert (Hfs : Forall (fun f => is_obj f = true) fs).
  { eapply List.Forall_impl; [| exact Hchk]. intros g Hg. unfold checkable in Hg.
    repeat (apply andb_true_iff in Hg as [Hg ?]). exact Hg. }
  assert (Hmc : metadata_checkable data = true).
  { destruct (proj1 (validate_data_reports data fs Hf)) as [_ H]; [eauto | exact H]. }
  destruct (validate_data_checkable data fs Hf Hchk Hmc)
    as (errs' & st' & E' & Ht & Hp & Hq & _).
  rewrite E in E'. injection E' as _ _ <-.
  rewrite Ht, Hp, Hq.
  destruct data as [| | | | | kvs]; try discriminate.
  unfold has_features, field in Hf. unfold metadata_consistent, field in Hm.
  pose proof (count_split fs) as Hsplit.
  destruct (lookup_field "metadata" kvs) as [meta |] eqn:Em.
  - destruct meta as [| | | | | m]; try discriminate.
    repeat (apply andb_true_iff in Hm as [Hm ?]).
    rewrite (status_header_obj kvs fs m); auto; [| now rewrite Em].
    match goal with H : declares "total_features" _ _ = true |- _ =>
      apply declares_get in H as (t & -> & Et) end.
    match goal with H : declares "passing" _ _ = true |- _ =>
      apply declares_get in H as (p & -> & Ep) end.
    cbn zeta.
    destruct (py_sub_declared t p _ _ Et Ep) as (f & -> & Ef).
    destruct (print_progress_bar_defined p t _ _ Ep Et (count_bounds passes fs))
      as (bar & -> & _).
    cbn [bind]. eexists. split; [reflexivity |]. cbn [head_total head_passing head_failing].
    repeat split; auto.
    replace (count fails fs) with (Z.of_nat (List.length fs) - count passes fs) by lia.
    exact Ef.
  - rewrite (status_header_obj kvs fs []); auto; [| now rewrite Em].
    cbn [lookup_field py_sub bind].
    destruct (print_progress_bar_defined (JInt (count passes fs))
                (JInt (Z.of_nat (List.length fs))) _ _
                (Z.eqb_refl _) (Z.eqb_refl _) (count_bounds passes fs))
      as (bar & -> & _).
    cbn [bind]. eexists. split; [reflexivity |].
    cbn [head_total head_passing head_failing py_eq].
    rewrite !Z.eqb_refl. repeat split. apply Z.eqb_eq. lia.
Qed.

Lemma status_header_of_valid_ledger_witness :
  exists h,
    status_header complete = Ok h
    /\ py_eq (head_total h) (JInt 2) = true
    /\ py_eq (head_passing h) (JInt 1) = true
    /\ py_eq (head_failing h) (JInt 1) = true.
Proof.
  apply (status_header_of_valid_ledger {[ ledger_path := Doc complete ]} never
           ledger_path complete []
           (MkStats 2 1 1 [(JStr "core", 1); (JStr "report", 1)]
                    [(JStr "high", 1); (JStr "low", 1)])).
  - reflexivity.
  - reflexivity.
  - vm_compute. reflexivity.
Defined.

(** Property X24.  After a Mutate that changed the status, the status
    report on the ledger written shows the counts of the features as
    they are now: their number, and the numbers of those that pass and
    of those that fail. *)
Theorem status_header_after_update w path data fs fid new_passes i f :
  ledger_at w path data fs ->
  metadata_ok data = true ->
  no_faults (io_fails w) ->
  name path <> "" ->
  feature_with_id fid fs = Some (i, f) ->
  same_status f new_passes = false ->
  exists w' data' fs' h,
    update_feature_status path fid new_passes false w = (Ok true, w')
    /\ files w' !! path = Some (Doc data')
    /\ has_features data' fs'
    /\ status_header data' = Ok h
    /\ head_total h = JInt (Z.of_nat (List.length fs'))
    /\ head_passing h = JInt (count passes fs')
    /\ head_failing h = JInt (count fails fs').
Proof.
  intros Hl Hm Hio Hn Hfind Hsame.
  destruct (with_suffix_total path Hn) as (bak & Hbak).
  rewrite (update_changes_status w path data fs fid new_passes i f bak Hl Hm Hio
             Hbak Hfind Hsame).
  destruct Hl as (Hfile & Hd & Hfs).
  assert (Ho : is_obj data = true).
  { destruct data; try discriminate; reflexivity. }
  set (fs' := alter (with_passes new_passes) i fs).
  set (data' := mutated (clock w) data fs i new_passes).
  assert (Hf' : has_features data' fs') by (apply field_features_mutated; exact Ho).
  assert (Hfs' : Forall (fun g => is_obj g = true) fs').
  { unfold fs'. clear -Hfs. revert i. induction Hfs as [| g fs Hg Hfs IH]; intros i;
      [constructor |].
    destruct i; cbn [alter list_alter]; constructor; auto.
    destruct g; try discriminate; reflexivity. }
  pose proof (metadata_mutated (clock w) data fs i new_passes Ho) as Hmeta.
  fold fs' data' in Hmeta.
  destruct (declares_recomputed (clock w) (metadata_fields data) fs')
    as (D1 & D2 & _ & _).
  unfold recomputed in D1, D2, Hmeta. cbn iota in D1, D2.
  unfold declares in D1, D2.
  assert (Hh : exists h, status_header data' = Ok h
                         /\ head_total h = JInt (Z.of_nat (List.length fs'))
                         /\ head_passing h = JInt (count passes fs')
                         /\ head_failing h = JInt (count fails fs')).
  { destruct data' as [| | | | | kvs'] eqn:Ed; try discriminate.
    unfold has_features, field in Hf'. unfold field in Hmeta.
    rewrite (status_header_obj kvs' fs' _ Hf' Hfs') by (rewrite Hmeta; reflexivity).
    match goal with |- context [lookup_field "total_features" ?M] =>
      assert (L1 : lookup_field "total_features" M
                   = Some (JInt (Z.of_nat (List.length fs'))))
        by (rewrite !lookup_set_ne by discriminate; apply lookup_set_eq);
      assert (L2 : lookup_field "passing" M = Some (JInt (count passes fs')))
        by (rewrite !lookup_set_ne by discriminate; apply lookup_set_eq)
    end.
    rewrite L1, L2. cbn [py_sub bind].
    destruct (print_progress_bar_defined (JInt (count passes fs'))
                (JInt (Z.of_nat (List.length fs'))) _ _
                (Z.eqb_refl _) (Z.eqb_refl _) (count_bounds passes fs'))
      as (bar & -> & _).
    cbn [bind].
    eexists. split; [reflexivity |]. cbn [head_total head_passing head_failing].
    pose proof (count_split fs'). repeat split. f_equal. lia. }
  destruct Hh as (h & Hh & H1 & H2 & H3).
  eexists _, data', fs', h.
  split; [reflexivity |].
  split; [unfold printed, with_stdout, with_files; cbn [files]; apply lookup_insert_eq |].
  auto.
Qed.

Lemma status_header_after_update_witness :
  exists w' data' fs' h,
    update_feature_status ledger_path "F002" true false disk = (Ok true, w')
    /\ files w' !! ledger_path = Some (Doc data')
    /\ has_features data' fs'
    /\ status_header data' = Ok h
    /\ head_total h = JInt (Z.of_nat (List.length fs'))
    /\ head_passing h = JInt (count passes fs')
    /\ head_failing h = JInt (count fails fs').
Proof.
  apply (status_header_after_update disk ledger_path scenario [F001; F002]
           "F002" true 1%nat F002).
  - split; [reflexivity |]. split; [reflexivity |]. repeat constructor.
  - reflexivity.
  - intros op. reflexivity.
  - discriminate.
  - reflexivity.
  - reflexivity.
Defined.

End Status_report.

Section Next_lines.

Import Vocabulary ShowStatus UpdateFeature ValidateFeatures Ledger PrintStatus.

Lemma pri_icon_rank p :
  hashable p = true -> pri_icon p = Ok (icon_of_rank (rank_of_priority p)).
Proof.
  destruct p as [| | | s | |]; try discriminate; intros _; try reflexivity.
  unfold pri_icon, rank_of_priority.
  destruct (String.eqb s "critical"); [reflexivity |].
  destruct (String.eqb s "high"); [reflexivity |].
  destruct (String.eqb s "medium"); [reflexivity |].
  destruct (String.eqb s "low"); reflexivity.
Qed.

Lemma print_next_ok i f :
  is_obj f = true ->
  match field "priority" f with Some p => hashable p | None => true end = true ->
  description_ok f = true ->
  print_next i f = Ok (NextLine i (icon_for f) (id_of f) (short_description f)).
Proof.
  intros Ho Hp Hd. unfold print_next.
  rewrite !(field_or_get f) by assumption. cbn [bind].
  unfold icon_for, rank. unfold field_or at 1.
  unfold description_ok in Hd. unfold short_description, id_of.
  destruct (field "priority" f) as [p |].
  - rewrite (pri_icon_rank p Hp). cbn [bind].
    destruct (field_or "description" (JStr "") f); try discriminate; reflexivity.
  - cbn [pri_icon String.eqb Ascii.eqb Bool.eqb bind].
    destruct (field_or "description" (JStr "") f); try discriminate; reflexivity.
Qed.

Lemma print_next_from_ok l :
  Forall (fun f => is_obj f = true
                   /\ match field "priority" f with
                      | Some p => hashable p | None => true end = true
                   /\ description_ok f = true) l ->
  forall i,
  exists ls,
    print_next_from i l = Ok ls
    /\ List.length ls = List.length l
    /\ forall n f, l !! n = Some f ->
         ls !! n = Some (NextLine (i + n) (icon_for f) (id_of f) (short_description f)).
Proof.
  induction 1 as [| f l (Ho & Hp & Hd) _ IH]; intros i; cbn [print_next_from].
  - exists []. split; [reflexivity |]. split; [reflexivity |]. intros n f H. discriminate.
  - rewrite (print_next_ok i f Ho Hp Hd). cbn [bind].
    destruct (IH (S i)) as (ls & -> & Hlen & Hls). cbn [bind].
    eexists. split; [reflexivity |]. split; [cbn [List.length]; now rewrite Hlen |].
    intros [| n] g H; simpl in H.
    + injection H as <-. now rewrite Nat.add_0_r.
    + simpl. rewrite (Hls n g H). do 2 f_equal. lia.
Qed.

Lemma In_ordered_by_inv f l : In f (ordered_by rank l) -> In f l.
Proof.
  unfold ordered_by. intros H. apply in_flat_map in H as (r & _ & H).
  now apply filter_In in H as [H _].
Qed.

(** Property X25.  The list of next features of the status report, on
    a ledger of selectable features whose failing ones have a string
    or a list as description: it has one line for each feature that
    [get_next_features] returns, in that order and numbered from 1,
    with the id, the description cut to fifty characters, and the icon
    of the feature's rank; but a feature without a priority, which is
    ranked as low, is shown with the icon of medium.  No line ends
    with an exception. *)
Theorem next_lines_follow_selection data fs :
  features_of data fs ->
  Forall (fun f => selectable f = true) fs ->
  Forall (fun f => fails f = true -> description_ok f = true) fs ->
  exists next ls,
    get_next_features data default_limit = Ok next
    /\ next_features_lines data = Ok ls
    /\ List.length ls = List.length next
    /\ forall n f, next !! n = Some f ->
         ls !! n = Some (NextLine (S n) (icon_for f) (id_of f) (short_description f)).
Proof.
  intros Hd Hs Hdesc. unfold next_features_lines.
  rewrite (get_next_features_ordered data fs default_limit Hd Hs). cbn [bind].
  set (next := slice_to default_limit (ordered_by rank (List.filter fails fs))).
  assert (Hnext : Forall (fun f => is_obj f = true
                   /\ match field "priority" f with
                      | Some p => hashable p | None => true end = true
                   /\ description_ok f = true) next).
  { apply List.Forall_forall. intros f Hin. unfold next in Hin.
    rewrite slice_to_firstn in Hin by (unfold default_limit; lia).
    apply In_firstn, In_ordered_by_inv, filter_In in Hin as [Hin Hfail].
    pose proof (proj1 (List.Forall_forall _ _) Hs f Hin) as Hsel.
    pose proof (proj1 (List.Forall_forall _ _) Hdesc f Hin Hfail) as Hdok.
    unfold selectable in Hsel. apply andb_true_iff in Hsel as [Ho Hp].
    unfold fails in Hfail. apply negb_true_iff in Hfail. rewrite Hfail in Hp.
    auto. }
  destruct (print_next_from_ok next Hnext 1%nat) as (ls & E & Hlen & Hls).
  exists next, ls. repeat split; auto.
Qed.

Lemma next_lines_follow_selection_witness :
  exists next ls,
    get_next_features unranked default_limit = Ok next
    /\ next_features_lines unranked = Ok ls
    /\ List.length ls = List.length next
    /\ forall n f, next !! n = Some f ->
         ls !! n = Some (NextLine (S n) (icon_for f) (id_of f) (short_description f)).
Proof.
  apply (next_lines_follow_selection unranked [G001; G002]).
  - reflexivity.
  - repeat constructor.
  - repeat constructor.
Defined.

End Next_lines.

(** ** The validation report *)

Section Report_lines.

Import Vocabulary ShowStatus UpdateFeature ValidateFeatures Ledger PrintStatus PrintReport.

Lemma tally_cons label k f fs :
  tally label k (f :: fs) = (if py_eq (label f) k then 1 else 0) + tally label k fs.
Proof.
  unfold tally, count. cbn [List.filter].
  destruct (py_eq (label f) k); cbn [List.length]; lia.
Qed.

Lemma listed_tally fs :
  tally priority_of (JStr "critical") fs + tally priority_of (JStr "high") fs
  + tally priority_of (JStr "medium") fs + tally priority_of (JStr "low") fs
  + tally priority_of (JStr "unknown") fs
  = count listed fs.
Proof.
  induction fs as [| f fs IH]; [reflexivity |].
  rewrite !tally_cons. unfold count in *. cbn [List.filter].
  unfold listed at 1. unfold PrintReport.shown_priorities. cbn [existsb].
  destruct (priority_of f) as [| | | s | |]; cbn [py_eq orb];
    try (cbn [List.length]; lia).
  destruct (String.eqb_spec s "critical") as [-> | _];
    [cbn [String.eqb Ascii.eqb Bool.eqb orb List.length]; lia |].
  destruct (String.eqb_spec s "high") as [-> | _];
    [cbn [String.eqb Ascii.eqb Bool.eqb orb List.length]; lia |].
  destruct (String.eqb_spec s "medium") as [-> | _];
    [cbn [String.eqb Ascii.eqb Bool.eqb orb List.length]; lia |].
  destruct (String.eqb_spec s "low") as [-> | _];
    [cbn [String.eqb Ascii.eqb Bool.eqb orb List.length]; lia |].
  destruct (String.eqb_spec s "unknown") as [-> | _]; cbn [orb List.length]; lia.
Qed.

Lemma counts_get_lookup k d n :
  hashable k = true -> counts_get k d = Ok n ->
  lines_total (match count_lookup k d with Some m => [("", m)] | None => [] end) = n.
Proof.
  intros Hk. unfold counts_get. rewrite Hk. intros [= <-].
  destruct (count_lookup k d); simpl; lia.
Qed.

Lemma lines_total_app l1 l2 : lines_total (l1 ++ l2) = lines_total l1 + lines_total l2.
Proof.
  induction l1 as [| x l1 IH]; simpl; [reflexivity |]. unfold lines_total in *. lia.
Qed.

Lemma line_total k d :
  lines_total (match count_lookup (JStr k) d with Some n => [(k, n)] | None => [] end)
  = match counts_get (JStr k) d with Ok n => n | Raise _ => 0 end.
Proof.
  unfold counts_get. cbn [hashable]. destruct (count_lookup (JStr k) d); simpl; lia.
Qed.

(** Property X26.  The lines that [print_report] prints under
    "By Priority", when it gets there, show, for each of the names
    critical, high, medium, low and unknown that some feature carries,
    the number of features that carry it; their counts sum to the number of features whose priority (or
    [unknown], without one) is one of the five names, so a feature with
    any other priority is counted in the total and left out of the
    listing. *)
Theorem report_lists_known_priorities fsmap refuses path data fs v errs st :
  fsmap !! path = Some (Doc data) ->
  has_features data fs ->
  validate_feature_list fsmap refuses path = Ok (v, errs, st) ->
  lines_total (priority_lines st) = count listed fs
  /\ lines_total (priority_lines st) = total st - count (fun f => negb (listed f)) fs
  /\ (forall pri n, In (pri, n) (priority_lines st) ->
        In pri PrintReport.shown_priorities /\ n = tally priority_of (JStr pri) fs).
Proof.
  intros Hfile Hf E.
  pose proof (fun k => proj2 (validation_tally fsmap refuses path data fs v errs st
                                Hfile Hf E (JStr k) eq_refl)) as Hget.
  destruct (validate_feature_list_counts _ _ _ _ _ _ E) as (_ & _ & Hsum & _).
  assert (Hlines : priority_lines st
                   = flat_map (fun pri =>
                       match count_lookup (JStr pri) (by_priority st) with
                       | Some n => [(pri, n)]
                       | None => []
                       end) PrintReport.shown_priorities).
  { unfold priority_lines. destruct (by_priority st); reflexivity. }
  assert (Htot : lines_total (priority_lines st) = count listed fs).
  { rewrite Hlines. unfold PrintReport.shown_priorities. cbn [flat_map].
    rewrite !lines_total_app, !line_total, !Hget. cbn [lines_total fold_right].
    rewrite <- (listed_tally fs). lia. }
  split; [exact Htot |]. split.
  - rewrite Htot.
    assert (Hsplit : forall l, count listed l + count (fun f => negb (listed f)) l
                               = Z.of_nat (List.length l)).
    { unfold count. induction l as [| x l IH]; [reflexivity |]. cbn [List.filter].
      destruct (listed x); cbn [negb List.length]; lia. }
    specialize (Hsplit fs).
    assert (Ht : total st = Z.of_nat (List.length fs)).
    { rewrite (validate_feature_list_reads fsmap refuses path data) in E;
        [| exact Hfile |].
      - destruct (proj1 (validate_data_reports data fs Hf)) as [Hchk Hm]; [eauto |].
        destruct (validate_data_checkable data fs Hf Hchk Hm)
          as (errs' & st' & E' & Ht & _).
        rewrite E in E'. now injection E' as _ _ <-.
      - unfold validate_feature_list in E. rewrite Hfile in E.
        destruct (refuses OpenRead); [discriminate | reflexivity]. }
    lia.
  - intros pri n Hin. rewrite Hlines in Hin. apply in_flat_map in Hin as (k & Hk & Hin).
    specialize (Hget k). unfold counts_get in Hget. cbn [hashable] in Hget.
    destruct (count_lookup (JStr k) (by_priority st)) as [m |]; [| destruct Hin].
    destruct Hin as [[= <- <-] | []]. injection Hget as ->. auto.
Qed.

Lemma report_lists_known_priorities_witness :
  exists v errs st,
    validate_feature_list {[ ledger_path := Doc complete ]} never ledger_path
    = Ok (v, errs, st)
    /\ lines_total (priority_lines st) = count listed [H001; H002]
    /\ lines_total (priority_lines st)
       = total st - count (fun f => negb (listed f)) [H001; H002]
    /\ (forall pri n, In (pri, n) (priority_lines st) ->
          In pri PrintReport.shown_priorities
          /\ n = tally priority_of (JStr pri) [H001; H002]).
Proof.
  destruct (validate_feature_list {[ ledger_path := Doc complete ]} never ledger_path)
    as [[[v errs] st] | e] eqn:E.
  - exists v, errs, st. split; [reflexivity |].
    apply (report_lists_known_priorities {[ ledger_path := Doc complete ]} never
             ledger_path complete [H001; H002] v errs st).
    + reflexivity.
    + reflexivity.
    + exact E.
  - vm_compute in E. discriminate.
Defined.

End Report_lines.

Section Enumeration.

Import Vocabulary ShowStatus UpdateFeature ValidateFeatures Ledger PrintStatus PrintReport.

Lemma visit_all_errors fs :
  forall st i st',
  visit_all st i fs = Ok st' ->
  (forall e, In e (errors st) -> In e (errors st'))
  /\ (forall n f es, fs !! n = Some f -> validate_feature f (i + n) = Ok es ->
        forall e, In e es -> In e (errors st')).
Proof.
  induction fs as [| f fs IH]; intros st i st'; cbn [visit_all].
  - intros [= <-]. split; [auto |]. intros n f es H. discriminate.
  - destruct (visit st i f) as [st1 |] eqn:Ev; cbn [bind]; [| discriminate].
    intros Hall.
    destruct (visit_inv st i f st1 Ev) as (es & cats & pris & _ & Evf & _ & _ & ->).
    destruct (IH _ _ _ Hall) as [Hmono Hrest]. cbn [errors] in Hmono.
    split.
    + intros e He. apply Hmono. apply in_or_app. left. apply in_or_app. now left.
    + intros [| n] g es' Hg Hv e He; simpl in Hg.
      * injection Hg as <-. rewrite Nat.add_0_r, Evf in Hv. injection Hv as <-.
        apply Hmono. apply in_or_app. now right.
      * apply (Hrest n g es' Hg); [| exact He].
        now replace (S i + n)%nat with (i + S n)%nat by lia.
Qed.

(** Property X27.  The validation does not stop at the first error:
    whenever [validate_feature_list] returns for a ledger with a
    feature list, the errors it returns include every error that
    [validate_feature] finds for any feature at its position, every
    error of [validate_metadata], and every mismatch between the
    declared and the counted numbers. *)
Theorem validation_enumerates_all_errors fsmap refuses path data fs v errs st :
  fsmap !! path = Some (Doc data) ->
  has_features data fs ->
  validate_feature_list fsmap refuses path = Ok (v, errs, st) ->
  (forall n f es, fs !! n = Some f -> validate_feature f n = Ok es ->
     forall e, In e es -> In e errs)
  /\ (forall meta es, field "metadata" data = Some meta ->
        validate_metadata meta = Ok es -> forall e, In e es -> In e errs)
  /\ (forall meta es, field "metadata" data = Some meta ->
        metadata_mismatches meta st = Ok es -> forall e, In e es -> In e errs).
Proof.
  intros Hfile Hf E.
  unfold validate_feature_list in E. rewrite Hfile in E.
  destruct (refuses OpenRead); [discriminate |]. cbn [json_load] in E.
  destruct data as [| | | | | kvs]; try discriminate.
  unfold has_features, field in Hf. unfold field.
  unfold validate_data in E. cbn [py_contains py_getitem] in E.
  rewrite Hf in E. cbn [bind negb] in E.
  destruct (visit_all (VState [] [] empty_stats) 0 fs) as [st0 |] eqn:Ev;
    cbn [bind] in E; [| discriminate].
  destruct (visit_all_errors fs _ _ _ Ev) as [_ Hfeat].
  destruct (lookup_field "metadata" kvs) as [meta |]; cbn [bind] in E.
  - destruct (validate_metadata meta) as [e1 |] eqn:E1; cbn [bind] in E; [| discriminate].
    destruct (metadata_mismatches meta (stats st0)) as [e2 |] eqn:E2; cbn [bind] in E;
      [| discriminate].
    injection E as _ <- <-.
    split; [| split].
    + intros n f es Hn Hv e He. apply in_or_app. left. exact (Hfeat n f es Hn Hv e He).
    + intros meta' es [= <-]. rewrite E1. intros [= <-] e He.
      apply in_or_app. right. apply in_or_app. now left.
    + intros meta' es [= <-]. rewrite E2. intros [= <-] e He.
      apply in_or_app. right. apply in_or_app. now right.
  - injection E as _ <- <-.
    split; [| split]; try discriminate.
    intros n f es Hn Hv e He. exact (Hfeat n f es Hn Hv e He).
Qed.

Lemma validation_enumerates_all_errors_witness :
  exists v errs st,
    validate_feature_list {[ ledger_path := Doc twice ]} never ledger_path
    = Ok (v, errs, st)
    /\ (forall n f es, [F001; F001] !! n = Some f -> validate_feature f n = Ok es ->
          forall e, In e es -> In e errs)
    /\ (forall meta es, field "metadata" twice = Some meta ->
          validate_metadata meta = Ok es -> forall e, In e es -> In e errs)
    /\ (forall meta es, field "metadata" twice = Some meta ->
          metadata_mismatches meta st = Ok es -> forall e, In e es -> In e errs).
Proof.
  destruct (validate_feature_list {[ ledger_path := Doc twice ]} never ledger_path)
    as [[[v errs] st] | e] eqn:E.
  - exists v, errs, st. split; [reflexivity |].
    apply (validation_enumerates_all_errors {[ ledger_path := Doc twice ]} never
             ledger_path twice [F001; F001] v errs st).
    + reflexivity.
    + reflexivity.
    + exact E.
  - vm_compute in E. discriminate.
Defined.

End Enumeration.

(** ** The verbose status report *)

Section Verbose_report.

Import Vocabulary ShowStatus UpdateFeature ValidateFeatures Ledger PrintStatus PrintReport Verbose.










End Verbose_report.
